(** * NightFrame: metacognitive engine, plugin loader, skill discovery

    A shallow embedding of [training/metacognitive/engine.py] and
    [training/plugins/loader.py], with the scoring and proposal of skills of
    [training/skill_discovery/discovery.py] and the plugin callback of
    [training/train_metacognitive.py].  Python objects become records, the
    attributes of [self] become one state record that every method threads
    through, and a Python exception becomes the [Raise] case of [result]:
    a method that can raise returns the state it had reached together with
    either its value or the exception.

    Abstractions, all of them outside the properties proved below:
    - a Python [float] that the program computes or stores is an exact
      rational [Q]; a [float] handed in by a caller, the confidence given
      to [update_capability], may also be an infinity or NaN ([pyfloat]);
    - [datetime.utcnow()] is a counter that [_generate_id] reads and
      advances, so an identifier is its prefix and the tick it was made at;
      timestamps stored in records are left out;
    - a registered callback is a name, and calling it is recorded in the
      [delivered] trace (the source swallows whatever the callback raises);
    - the SQLite files are tables kept in the state, always writable;
    - the plugin directory is a map from paths to entries, each a file that
      can be read or an entry that reading raises on;
    - only exceptions derived from [Exception] are modelled. *)

From Stdlib Require Import ZArith QArith Qround Qminmax Qabs Ascii.
From stdpp Require Import gmap strings list fin_maps sorting pretty.

Set Default Proof Using "Type".

(** ** Python values and exceptions *)

Module Py.

(** What a slot typed [float] can hold at run time: a number, or one of
    the non-numeric values SQLite hands back for a REAL column (NULL,
    text). *)
Inductive pyval : Type :=
| PyNum (q : Q)
| PyStr (s : string)
| PyNone.

Record exn : Type := Exn { exn_type : string; exn_msg : string }.

(** [str(e)] *)
Definition str (e : exn) : string := exn_msg e.

Inductive result (A : Type) : Type :=
| Ok (a : A)
| Raise (e : exn).
Arguments Ok {A} a.
Arguments Raise {A} e.

Definition is_ok {A} (r : result A) : bool :=
  match r with Ok _ => true | Raise _ => false end.

Definition type_name (v : pyval) : string :=
  match v with
  | PyNum _ => "float"
  | PyStr _ => "str"
  | PyNone => "NoneType"
  end.

Definition unsupported (op : string) (l r : string) : exn :=
  Exn "TypeError"
      ("'" +:+ op +:+ "' not supported between instances of '"
           +:+ l +:+ "' and '" +:+ r +:+ "'").

Definition Qlt_bool (x y : Q) : bool :=
  (Qnum x * QDen y <? Qnum y * QDen x)%Z.

(** [a < y] and [a >= y] with a numeric right operand. *)
Definition py_lt (a : pyval) (y : Q) : result bool :=
  match a with
  | PyNum x => Ok (Qlt_bool x y)
  | _ => Raise (unsupported "<" (type_name a) "float")
  end.

Definition py_ge (a : pyval) (y : Q) : result bool :=
  match a with
  | PyNum x => Ok (Qle_bool y x)
  | _ => Raise (unsupported ">=" (type_name a) "float")
  end.

(** [y - a], [a + y] with one numeric operand. *)
Definition py_rsub (y : Q) (a : pyval) : result Q :=
  match a with
  | PyNum x => Ok (y - x)%Q
  | _ => Raise (Exn "TypeError"
                    ("unsupported operand type(s) for -: 'float' and '"
                       +:+ type_name a +:+ "'"))
  end.

Definition py_add (a : pyval) (y : Q) : result Q :=
  match a with
  | PyNum x => Ok (x + y)%Q
  | _ => Raise (Exn "TypeError"
                    ("unsupported operand type(s) for +: '"
                       +:+ type_name a +:+ "' and 'float'"))
  end.

(** [min(a, b)] returns [a] unless [b < a]; [max(a, b)] returns [a]
    unless [b > a]. *)
Definition py_min (a b : Q) : Q := if Qlt_bool b a then b else a.
Definition py_max (a b : Q) : Q := if Qlt_bool a b then b else a.

(** A value of type [float] as a caller can pass it: a number, one of the
    two infinities, or NaN.  NaN compares false with everything, itself
    included. *)
Inductive pyfloat : Type :=
| Fin (q : Q)
| PosInf
| NegInf
| NaN.

Definition float_lt (a b : pyfloat) : bool :=
  match a, b with
  | NaN, _ | _, NaN => false
  | Fin x, Fin y => Qlt_bool x y
  | PosInf, _ => false
  | _, NegInf => false
  | NegInf, _ => true
  | Fin _, PosInf => true
  end.

(** [a >= b] *)
Definition float_ge (a b : pyfloat) : bool :=
  match a, b with
  | NaN, _ | _, NaN => false
  | Fin x, Fin y => Qle_bool y x
  | PosInf, _ => true
  | _, NegInf => true
  | NegInf, _ => false
  | Fin _, PosInf => false
  end.

(** [min] and [max] on floats, by the same rule as above. *)
Definition float_min (a b : pyfloat) : pyfloat := if float_lt b a then b else a.
Definition float_max (a b : pyfloat) : pyfloat := if float_lt a b then b else a.

(** [max(0, min(1, x))] is 0, 1, or [x] when [x] is a number between them,
    and so never an infinity or NaN: the last branch is not reached. *)
Definition clamp_unit (x : pyfloat) : Q :=
  match float_max (Fin 0) (float_min (Fin 1) x) with
  | Fin q => q
  | _ => 0
  end.

(** [int(x)]: truncation toward zero. *)
Definition py_int (x : Q) : Z := (Qnum x ÷ Z.pos (Qden x))%Z.

(** [l[-n:]] and [l[:n]] *)
Definition last_n {A} (n : nat) (l : list A) : list A :=
  drop (length l - n) l.

(** *** Methods that can raise: state and exception together

    A method of an object with state [S] maps the state before the call
    to the state it leaves and to its value or the exception raised; what
    it had assigned before raising stays assigned. *)

Definition SE (S A : Type) : Type := S → S * result A.

Definition ret {S A} (a : A) : SE S A := λ s, (s, Ok a).
Definition raise {S A} (x : exn) : SE S A := λ s, (s, Raise x).
Definition bind {S A B} (m : SE S A) (k : A → SE S B) : SE S B :=
  λ s, match m s with
       | (s', Ok a) => k a s'
       | (s', Raise x) => (s', Raise x)
       end.
Definition lift {S A} (r : result A) : SE S A := λ s, (s, r).
Definition modify {S} (f : S → S) : SE S unit := λ s, (f s, Ok tt).
Definition gets {S A} (f : S → A) : SE S A := λ s, (s, Ok (f s)).

#[export] Instance SE_ret {S} : MRet (SE S) := @ret S.
#[export] Instance SE_bind {S} : MBind (SE S) := λ A B k m, bind m k.

End Py.
Export Py.

(** ** The metacognitive engine: [training/metacognitive/engine.py] *)

Module Engine.

Inductive CapabilityDomain : Type :=
| NETWORK_4G_LTE
| NETWORK_5G_NR
| NETWORK_HANDOVER
| WIFI_ACCESS_POINT
| CELLULAR_INTELLIGENCE
| RF_FINGERPRINTING
| LOCATION_PREDICTION
| SWARM_COORDINATION
| INTERNET_PROVISION
| MESH_ROUTING.

(** [domain.value] *)
Definition value (d : CapabilityDomain) : string :=
  match d with
  | NETWORK_4G_LTE => "4g_lte"
  | NETWORK_5G_NR => "5g_nr"
  | NETWORK_HANDOVER => "network_handover"
  | WIFI_ACCESS_POINT => "wifi_ap"
  | CELLULAR_INTELLIGENCE => "cellular_intelligence"
  | RF_FINGERPRINTING => "rf_fingerprinting"
  | LOCATION_PREDICTION => "location_prediction"
  | SWARM_COORDINATION => "swarm_coordination"
  | INTERNET_PROVISION => "internet_provision"
  | MESH_ROUTING => "mesh_routing"
  end.

Inductive LearningPhase : Type :=
| REFLECTING | PLANNING | EXECUTING | EVALUATING | ADAPTING.

(** An identifier made by [_generate_id]: the prefix and the tick. *)
Definition ident : Type := string * nat.

Record PerformanceMetric : Type := {
  metric_id : ident;
  capability_domain : string;
  metric_name : string;
  metric_value : pyfloat;
  context : list (string * pyval)
}.

(** [description] of a gap is a formatted percentage of two floats and is
    left out. *)
Record LearningGap : Type := {
  gap_id : ident;
  gap_domain : CapabilityDomain;
  severity : Q;
  resolution_attempts : nat;
  is_resolved : bool
}.

Record LearningObjective : Type := {
  objective_id : ident;
  obj_domain : CapabilityDomain;
  obj_description : string;
  target_metric : string;
  target_value : Q;
  priority : Z;
  is_achieved : bool
}.

(** [parameters] of a strategy: the three multipliers and the domain. *)
Record StrategyParameters : Type := {
  learning_rate_multiplier : Q;
  batch_size_multiplier : Q;
  epochs_multiplier : Q;
  target_domain : string
}.

Record AdaptationStrategy : Type := {
  strategy_id : ident;
  name : string;
  str_description : string;
  parameters : StrategyParameters;
  success_rate : Q;
  usage_count : nat;
  is_active : bool
}.

Definition callback : Type := string.

(** One call of a registered callback with its argument. *)
Inductive notification : Type :=
| GapIdentified (cb : callback) (g : LearningGap)
| SkillDiscovered (cb : callback) (domain : string) (confidence : pyfloat)
| Adaptation (cb : callback) (s : AdaptationStrategy).

(** The two tables [_save_state] writes. *)
Record Database : Type := {
  capabilities_table : gmap string pyval;
  performance_metrics_table : gmap ident PerformanceMetric
}.

Record MetacognitiveEngine : Type := {
  _phase : LearningPhase;
  _capabilities : gmap string pyval;
  _objectives : list LearningObjective;
  _gaps : list LearningGap;
  _strategies : list AdaptationStrategy;
  _metrics : list PerformanceMetric;
  _learning_cycles : nat;
  _skills_discovered : nat;
  _adaptations : nat;
  _on_gap_identified : list callback;
  _on_skill_discovered : list callback;
  _on_adaptation : list callback;
  delivered : list notification;
  clock : nat;
  db : Database
}.

(** *** Attribute assignment *)

Definition set_phase (p : LearningPhase) (e : MetacognitiveEngine) :=
  {| _phase := p; _capabilities := _capabilities e;
     _objectives := _objectives e; _gaps := _gaps e;
     _strategies := _strategies e; _metrics := _metrics e;
     _learning_cycles := _learning_cycles e;
     _skills_discovered := _skills_discovered e;
     _adaptations := _adaptations e;
     _on_gap_identified := _on_gap_identified e;
     _on_skill_discovered := _on_skill_discovered e;
     _on_adaptation := _on_adaptation e;
     delivered := delivered e; clock := clock e; db := db e |}.

Definition set_capabilities (c : gmap string pyval) (e : MetacognitiveEngine) :=
  {| _phase := _phase e; _capabilities := c;
     _objectives := _objectives e; _gaps := _gaps e;
     _strategies := _strategies e; _metrics := _metrics e;
     _learning_cycles := _learning_cycles e;
     _skills_discovered := _skills_discovered e;
     _adaptations := _adaptations e;
     _on_gap_identified := _on_gap_identified e;
     _on_skill_discovered := _on_skill_discovered e;
     _on_adaptation := _on_adaptation e;
     delivered := delivered e; clock := clock e; db := db e |}.

Definition set_objectives (o : list LearningObjective) (e : MetacognitiveEngine) :=
  {| _phase := _phase e; _capabilities := _capabilities e;
     _objectives := o; _gaps := _gaps e;
     _strategies := _strategies e; _metrics := _metrics e;
     _learning_cycles := _learning_cycles e;
     _skills_discovered := _skills_discovered e;
     _adaptations := _adaptations e;
     _on_gap_identified := _on_gap_identified e;
     _on_skill_discovered := _on_skill_discovered e;
     _on_adaptation := _on_adaptation e;
     delivered := delivered e; clock := clock e; db := db e |}.

Definition set_gaps (g : list LearningGap) (e : MetacognitiveEngine) :=
  {| _phase := _phase e; _capabilities := _capabilities e;
     _objectives := _objectives e; _gaps := g;
     _strategies := _strategies e; _metrics := _metrics e;
     _learning_cycles := _learning_cycles e;
     _skills_discovered := _skills_discovered e;
     _adaptations := _adaptations e;
     _on_gap_identified := _on_gap_identified e;
     _on_skill_discovered := _on_skill_discovered e;
     _on_adaptation := _on_adaptation e;
     delivered := delivered e; clock := clock e; db := db e |}.

Definition set_strategies (s : list AdaptationStrategy) (e : MetacognitiveEngine) :=
  {| _phase := _phase e; _capabilities := _capabilities e;
     _objectives := _objectives e; _gaps := _gaps e;
     _strategies := s; _metrics := _metrics e;
     _learning_cycles := _learning_cycles e;
     _skills_discovered := _skills_discovered e;
     _adaptations := _adaptations e;
     _on_gap_identified := _on_gap_identified e;
     _on_skill_discovered := _on_skill_discovered e;
     _on_adaptation := _on_adaptation e;
     delivered := delivered e; clock := clock e; db := db e |}.

Definition set_metrics (m : list PerformanceMetric) (e : MetacognitiveEngine) :=
  {| _phase := _phase e; _capabilities := _capabilities e;
     _objectives := _objectives e; _gaps := _gaps e;
     _strategies := _strategies e; _metrics := m;
     _learning_cycles := _learning_cycles e;
     _skills_discovered := _skills_discovered e;
     _adaptations := _adaptations e;
     _on_gap_identified := _on_gap_identified e;
     _on_skill_discovered := _on_skill_discovered e;
     _on_adaptation := _on_adaptation e;
     delivered := delivered e; clock := clock e; db := db e |}.

Definition set_learning_cycles (n : nat) (e : MetacognitiveEngine) :=
  {| _phase := _phase e; _capabilities := _capabilities e;
     _objectives := _objectives e; _gaps := _gaps e;
     _strategies := _strategies e; _metrics := _metrics e;
     _learning_cycles := n;
     _skills_discovered := _skills_discovered e;
     _adaptations := _adaptations e;
     _on_gap_identified := _on_gap_identified e;
     _on_skill_discovered := _on_skill_discovered e;
     _on_adaptation := _on_adaptation e;
     delivered := delivered e; clock := clock e; db := db e |}.

Definition set_skills_discovered (n : nat) (e : MetacognitiveEngine) :=
  {| _phase := _phase e; _capabilities := _capabilities e;
     _objectives := _objectives e; _gaps := _gaps e;
     _strategies := _strategies e; _metrics := _metrics e;
     _learning_cycles := _learning_cycles e;
     _skills_discovered := n;
     _adaptations := _adaptations e;
     _on_gap_identified := _on_gap_identified e;
     _on_skill_discovered := _on_skill_discovered e;
     _on_adaptation := _on_adaptation e;
     delivered := delivered e; clock := clock e; db := db e |}.

Definition set_adaptations (n : nat) (e : MetacognitiveEngine) :=
  {| _phase := _phase e; _capabilities := _capabilities e;
     _objectives := _objectives e; _gaps := _gaps e;
     _strategies := _strategies e; _metrics := _metrics e;
     _learning_cycles := _learning_cycles e;
     _skills_discovered := _skills_discovered e;
     _adaptations := n;
     _on_gap_identified := _on_gap_identified e;
     _on_skill_discovered := _on_skill_discovered e;
     _on_adaptation := _on_adaptation e;
     delivered := delivered e; clock := clock e; db := db e |}.

Definition set_delivered (d : list notification) (e : MetacognitiveEngine) :=
  {| _phase := _phase e; _capabilities := _capabilities e;
     _objectives := _objectives e; _gaps := _gaps e;
     _strategies := _strategies e; _metrics := _metrics e;
     _learning_cycles := _learning_cycles e;
     _skills_discovered := _skills_discovered e;
     _adaptations := _adaptations e;
     _on_gap_identified := _on_gap_identified e;
     _on_skill_discovered := _on_skill_discovered e;
     _on_adaptation := _on_adaptation e;
     delivered := d; clock := clock e; db := db e |}.

Definition set_clock (n : nat) (e : MetacognitiveEngine) :=
  {| _phase := _phase e; _capabilities := _capabilities e;
     _objectives := _objectives e; _gaps := _gaps e;
     _strategies := _strategies e; _metrics := _metrics e;
     _learning_cycles := _learning_cycles e;
     _skills_discovered := _skills_discovered e;
     _adaptations := _adaptations e;
     _on_gap_identified := _on_gap_identified e;
     _on_skill_discovered := _on_skill_discovered e;
     _on_adaptation := _on_adaptation e;
     delivered := delivered e; clock := n; db := db e |}.

Definition set_db (d : Database) (e : MetacognitiveEngine) :=
  {| _phase := _phase e; _capabilities := _capabilities e;
     _objectives := _objectives e; _gaps := _gaps e;
     _strategies := _strategies e; _metrics := _metrics e;
     _learning_cycles := _learning_cycles e;
     _skills_discovered := _skills_discovered e;
     _adaptations := _adaptations e;
     _on_gap_identified := _on_gap_identified e;
     _on_skill_discovered := _on_skill_discovered e;
     _on_adaptation := _on_adaptation e;
     delivered := delivered e; clock := clock e; db := d |}.

(** *** Methods that can raise *)

Abbreviation M := (SE MetacognitiveEngine).

(** [_generate_id(prefix)] *)
Definition _generate_id (prefix : string) : M ident :=
  λ e, (set_clock (S (clock e)) e, Ok (prefix, clock e)).

(** [self._capabilities.get(domain, dflt)] *)
Definition capability_or (dflt : pyval) (domain : string)
    (e : MetacognitiveEngine) : pyval :=
  default dflt (_capabilities e !! domain).

(** [for callback in cbs: try: callback(arg) except Exception: log] *)
Definition notify (mk : callback → notification) (cbs : list callback)
    (e : MetacognitiveEngine) : MetacognitiveEngine :=
  set_delivered (delivered e ++ map mk cbs) e.

(** *** [update_capability] *)

Definition update_capability (domain : string) (confidence : pyfloat)
    (source : string) : M unit :=
  old_value ← gets (capability_or (PyNum 0) domain);
  modify (λ e, set_capabilities
                 (<[domain := PyNum (clamp_unit confidence)]>
                    (_capabilities e)) e);;
  mid ← _generate_id "MET";
  let metric :=
    {| metric_id := mid; capability_domain := domain;
       metric_name := "confidence"; metric_value := confidence;
       context := [("source", PyStr source); ("previous", old_value)] |} in
  modify (λ e, set_metrics (_metrics e ++ [metric]) e);;
  below ← lift (py_lt old_value (1#2));
  if below && float_ge confidence (Fin (1#2)) then
    modify (λ e, set_skills_discovered (S (_skills_discovered e)) e);;
    cbs ← gets _on_skill_discovered;
    modify (notify (λ cb, SkillDiscovered cb domain confidence) cbs)
  else mret tt.

(** [get_capability] *)
Definition get_capability (domain : string) (e : MetacognitiveEngine) : pyval :=
  capability_or (PyNum 0) domain e.

(** *** REFLECT *)

Definition priority_domains : list (CapabilityDomain * Q) :=
  [ (NETWORK_4G_LTE, 9#10); (NETWORK_5G_NR, 8#10);
    (NETWORK_HANDOVER, 85#100); (WIFI_ACCESS_POINT, 9#10);
    (INTERNET_PROVISION, 95#100); (RF_FINGERPRINTING, 75#100);
    (LOCATION_PREDICTION, 7#10); (MESH_ROUTING, 8#10) ].

(** The body of [for domain, target in priority_domains], with the local
    list [identified_gaps] as accumulator. *)
Fixpoint reflect_loop (domains : list (CapabilityDomain * Q))
    (identified_gaps : list LearningGap) : M (list LearningGap) :=
  match domains with
  | [] => mret identified_gaps
  | (domain, target) :: rest =>
      current ← gets (capability_or (PyNum 0) (value domain));
      below ← lift (py_lt current target);
      if below : bool then
        diff ← lift (py_rsub target current);
        gid ← _generate_id "GAP";
        let gap :=
          {| gap_id := gid; gap_domain := domain;
             severity := (diff / target)%Q;
             resolution_attempts := 0; is_resolved := false |} in
        modify (λ e, set_gaps (_gaps e ++ [gap]) e);;
        cbs ← gets _on_gap_identified;
        modify (notify (λ cb, GapIdentified cb gap) cbs);;
        reflect_loop rest (identified_gaps ++ [gap])
      else reflect_loop rest identified_gaps
  end.

Definition _reflect : M (list LearningGap) :=
  reflect_loop priority_domains [].

(** *** PLAN *)

(** [sorted(gaps, key=lambda g: g.severity, reverse=True)]: a stable
    sort, elements of equal severity keep their order. *)
Fixpoint insert_by_severity (g : LearningGap) (l : list LearningGap)
    : list LearningGap :=
  match l with
  | [] => [g]
  | h :: t =>
      if Qlt_bool (severity g) (severity h)
      then h :: insert_by_severity g t
      else g :: h :: t
  end.

Definition sorted_by_severity (gaps : list LearningGap) : list LearningGap :=
  foldr insert_by_severity [] gaps.

Fixpoint plan_loop (gaps : list LearningGap)
    (objectives : list LearningObjective) : M (list LearningObjective) :=
  match gaps with
  | [] => mret objectives
  | gap :: rest =>
      oid ← _generate_id "OBJ";
      current ← gets (capability_or (PyNum 0) (value (gap_domain gap)));
      target ← lift (py_add current (1#10));
      let objective :=
        {| objective_id := oid; obj_domain := gap_domain gap;
           obj_description :=
             "Improve " +:+ value (gap_domain gap) +:+ " capability";
           target_metric := value (gap_domain gap) +:+ "_accuracy";
           target_value := target;
           priority := py_int (severity gap * 10)%Q;
           is_achieved := false |} in
      modify (λ e, set_objectives (_objectives e ++ [objective]) e);;
      plan_loop rest (objectives ++ [objective])
  end.

Definition _plan (gaps : list LearningGap) : M (list LearningObjective) :=
  plan_loop (take 5 (sorted_by_severity gaps)) [].

(** *** EVALUATE *)

Record Evaluation : Type := {
  total_objectives : nat;
  achieved : nat;
  in_progress : nat
}.

Definition mark_achieved (o : LearningObjective) : LearningObjective :=
  {| objective_id := objective_id o; obj_domain := obj_domain o;
     obj_description := obj_description o;
     target_metric := target_metric o; target_value := target_value o;
     priority := priority o; is_achieved := true |}.

(** [for obj in self._objectives]: the objects are reached through their
    position in the list and updated in place. *)
Fixpoint evaluate_loop (positions : list nat) (evaluation : Evaluation)
    : M Evaluation :=
  match positions with
  | [] => mret evaluation
  | i :: rest =>
      objs ← gets _objectives;
      match objs !! i with
      | None => evaluate_loop rest evaluation
      | Some obj =>
          if is_achieved obj then evaluate_loop rest evaluation
          else
            current ← gets (capability_or (PyNum 0) (value (obj_domain obj)));
            reached ← lift (py_ge current (target_value obj));
            if reached : bool then
              modify (set_objectives (<[i := mark_achieved obj]> objs));;
              evaluate_loop rest
                {| total_objectives := total_objectives evaluation;
                   achieved := S (achieved evaluation);
                   in_progress := in_progress evaluation |}
            else
              evaluate_loop rest
                {| total_objectives := total_objectives evaluation;
                   achieved := achieved evaluation;
                   in_progress := S (in_progress evaluation) |}
      end
  end.

Definition _evaluate (training_data : pyval) : M Evaluation :=
  n ← gets (λ e, length (_objectives e));
  evaluate_loop (seq 0 n)
    {| total_objectives := n; achieved := 0; in_progress := 0 |}.

(** *** ADAPT *)

(** Positions of the elements a list comprehension selects; the selected
    objects stay shared with the list they come from. *)
Fixpoint positions_from {A} (p : A → bool) (i : nat) (l : list A) : list nat :=
  match l with
  | [] => []
  | x :: t =>
      if p x then i :: positions_from p (S i) t
      else positions_from p (S i) t
  end.

Definition positions {A} (p : A → bool) (l : list A) : list nat :=
  positions_from p 0 l.

(** [s.success_rate < 0.3 and s.usage_count > 5] *)
Definition is_failing (s : AdaptationStrategy) : bool :=
  Qlt_bool (success_rate s) (3#10) && (5 <? usage_count s)%nat.

Definition deactivate (s : AdaptationStrategy) : AdaptationStrategy :=
  {| strategy_id := strategy_id s; name := name s;
     str_description := str_description s; parameters := parameters s;
     success_rate := success_rate s; usage_count := usage_count s;
     is_active := false |}.

Definition add_attempt (g : LearningGap) : LearningGap :=
  {| gap_id := gap_id g; gap_domain := gap_domain g;
     severity := severity g;
     resolution_attempts := S (resolution_attempts g);
     is_resolved := is_resolved g |}.

Fixpoint adapt_loop (unresolved : list nat)
    (adaptations : list AdaptationStrategy) : M (list AdaptationStrategy) :=
  match unresolved with
  | [] => mret adaptations
  | i :: rest =>
      gaps ← gets _gaps;
      match gaps !! i with
      | None => adapt_loop rest adaptations
      | Some gap =>
          if (resolution_attempts gap <? 3)%nat then
            sid ← _generate_id "STR";
            let attempts := inject_Z (Z.of_nat (resolution_attempts gap)) in
            let strategy :=
              {| strategy_id := sid;
                 name := "Adaptive_" +:+ value (gap_domain gap);
                 str_description :=
                   "Auto-generated strategy for " +:+ value (gap_domain gap);
                 parameters :=
                   {| learning_rate_multiplier := (1 + attempts * (1#2))%Q;
                      batch_size_multiplier := (1 + attempts * (1#4))%Q;
                      epochs_multiplier := (1 + attempts * (1#2))%Q;
                      target_domain := value (gap_domain gap) |};
                 success_rate := 0; usage_count := 0; is_active := true |} in
            modify (λ e, set_strategies (_strategies e ++ [strategy]) e);;
            modify (set_gaps (<[i := add_attempt gap]> gaps));;
            modify (λ e, set_adaptations (S (_adaptations e)) e);;
            cbs ← gets _on_adaptation;
            modify (notify (λ cb, Adaptation cb strategy) cbs);;
            adapt_loop rest (adaptations ++ [strategy])
          else adapt_loop rest adaptations
      end
  end.

(** [successful_strategies] is computed by the source and never used. *)
Definition _adapt : M (list AdaptationStrategy) :=
  strategies ← gets _strategies;
  let failing_strategies := positions is_failing strategies in
  modify (set_strategies
            (foldl (λ l i, alter deactivate i l) strategies failing_strategies));;
  gaps ← gets _gaps;
  let unresolved_gaps := positions (λ g, negb (is_resolved g)) gaps in
  adapt_loop (take 3 unresolved_gaps) [].

(** *** Persistence *)

(** [INSERT OR IGNORE] of one metric row, keyed by [metric_id]. *)
Definition insert_or_ignore (tbl : gmap ident PerformanceMetric)
    (m : PerformanceMetric) : gmap ident PerformanceMetric :=
  match tbl !! metric_id m with
  | Some _ => tbl
  | None => <[metric_id m := m]> tbl
  end.

(** [_save_state]: every capability is written with [INSERT OR REPLACE],
    the last hundred metrics with [INSERT OR IGNORE].  Gaps, objectives
    and strategies are written nowhere. *)
Definition _save_state (e : MetacognitiveEngine) : MetacognitiveEngine :=
  set_db
    {| capabilities_table := _capabilities e ∪ capabilities_table (db e);
       performance_metrics_table :=
         foldl insert_or_ignore (performance_metrics_table (db e))
               (last_n 100 (_metrics e)) |} e.

(** *** [run_cycle] *)

Record CycleResult : Type := {
  cycle_id : nat;
  gaps_identified : list LearningGap;
  objectives_created : list LearningObjective;
  adaptations_made : list AdaptationStrategy;
  skills_discovered : list string;
  evaluation : option Evaluation;
  error : option string
}.

Definition with_gaps (g : list LearningGap) (r : CycleResult) :=
  {| cycle_id := cycle_id r; gaps_identified := g;
     objectives_created := objectives_created r;
     adaptations_made := adaptations_made r;
     skills_discovered := skills_discovered r;
     evaluation := evaluation r; error := error r |}.

Definition with_objectives (o : list LearningObjective) (r : CycleResult) :=
  {| cycle_id := cycle_id r; gaps_identified := gaps_identified r;
     objectives_created := o;
     adaptations_made := adaptations_made r;
     skills_discovered := skills_discovered r;
     evaluation := evaluation r; error := error r |}.

Definition with_evaluation (v : Evaluation) (r : CycleResult) :=
  {| cycle_id := cycle_id r; gaps_identified := gaps_identified r;
     objectives_created := objectives_created r;
     adaptations_made := adaptations_made r;
     skills_discovered := skills_discovered r;
     evaluation := Some v; error := error r |}.

Definition with_adaptations (a : list AdaptationStrategy) (r : CycleResult) :=
  {| cycle_id := cycle_id r; gaps_identified := gaps_identified r;
     objectives_created := objectives_created r;
     adaptations_made := a;
     skills_discovered := skills_discovered r;
     evaluation := evaluation r; error := error r |}.

Definition with_error (x : exn) (r : CycleResult) :=
  {| cycle_id := cycle_id r; gaps_identified := gaps_identified r;
     objectives_created := objectives_created r;
     adaptations_made := adaptations_made r;
     skills_discovered := skills_discovered r;
     evaluation := evaluation r; error := Some (str x) |}.

(** The [try] block of [run_cycle] is spelled out phase by phase: each
    [Raise] is the jump to [except Exception as e], which only stores
    [str(e)] in the result.  [_save_state] is the last statement of the
    [try] block. *)
Definition run_cycle (training_data : option pyval)
    (e : MetacognitiveEngine) : MetacognitiveEngine * CycleResult :=
  let e := set_learning_cycles (S (_learning_cycles e)) e in
  let results :=
    {| cycle_id := _learning_cycles e; gaps_identified := [];
       objectives_created := []; adaptations_made := [];
       skills_discovered := []; evaluation := None; error := None |} in
  match _reflect (set_phase REFLECTING e) with
  | (e, Raise x) => (e, with_error x results)
  | (e, Ok gaps) =>
    let results := with_gaps gaps results in
    match _plan gaps (set_phase PLANNING e) with
    | (e, Raise x) => (e, with_error x results)
    | (e, Ok objectives) =>
      let results := with_objectives objectives results in
      let evaluated :=
        match training_data with
        | Some data =>
            match _evaluate data (set_phase EVALUATING e) with
            | (e, Raise x) => (e, Raise x)
            | (e, Ok v) => (e, Ok (with_evaluation v results))
            end
        | None => (set_phase EVALUATING e, Ok results)
        end in
      match evaluated with
      | (e, Raise x) => (e, with_error x results)
      | (e, Ok results) =>
        match _adapt (set_phase ADAPTING e) with
        | (e, Raise x) => (e, with_error x results)
        | (e, Ok adaptations) =>
            (_save_state e, with_adaptations adaptations results)
        end
      end
    end
  end.

(** *** Engines to run the methods on *)

(** The engine [__init__] builds over an empty database: every domain at
    confidence 0.0, nothing else. *)
Definition fresh_engine : MetacognitiveEngine :=
  {| _phase := REFLECTING;
     _capabilities :=
       list_to_map
         (map (λ d, (value d, PyNum 0))
              [ NETWORK_4G_LTE; NETWORK_5G_NR; NETWORK_HANDOVER;
                WIFI_ACCESS_POINT; CELLULAR_INTELLIGENCE; RF_FINGERPRINTING;
                LOCATION_PREDICTION; SWARM_COORDINATION; INTERNET_PROVISION;
                MESH_ROUTING ]);
     _objectives := []; _gaps := []; _strategies := []; _metrics := [];
     _learning_cycles := 0; _skills_discovered := 0; _adaptations := 0;
     _on_gap_identified := []; _on_skill_discovered := [];
     _on_adaptation := []; delivered := []; clock := 0;
     db := {| capabilities_table := ∅; performance_metrics_table := ∅ |} |}.

(** The same engine with one callback registered through
    [on_skill_discovered]. *)
Definition watched_engine : MetacognitiveEngine :=
  {| _phase := _phase fresh_engine;
     _capabilities := _capabilities fresh_engine;
     _objectives := []; _gaps := []; _strategies := []; _metrics := [];
     _learning_cycles := 0; _skills_discovered := 0; _adaptations := 0;
     _on_gap_identified := []; _on_skill_discovered := ["on_skill"];
     _on_adaptation := []; delivered := []; clock := 0;
     db := db fresh_engine |}.

(** A caller making one [update_capability] call after another on the same
    domain; a call that raises has still stored its value, and the caller
    goes on with the next. *)
Fixpoint update_all (domain : string) (confidences : list pyfloat)
    (e : MetacognitiveEngine) : MetacognitiveEngine :=
  match confidences with
  | [] => e
  | c :: rest =>
      update_all domain rest (update_capability domain c "training" e).1
  end.

(** An engine that has learnt 4G/LTE to 0.5 since its last save and whose
    [capabilities] table gave it NULL for 5G-NR: [_load_state] copies what
    the row holds, and NULL arrives as [None]. *)
Definition null_confidence_engine : MetacognitiveEngine :=
  let e := (update_capability "4g_lte" (Fin (1#2)) "training" fresh_engine).1 in
  set_capabilities (<["5g_nr" := PyNone]> (_capabilities e)) e.

Definition gap_of (d : CapabilityDomain) (s : Q) : LearningGap :=
  {| gap_id := ("GAP", 0); gap_domain := d; severity := s;
     resolution_attempts := 0; is_resolved := false |}.

(** Seven gaps of severities 0.9, 0.8, ..., 0.3. *)
Definition seven_gaps : list LearningGap :=
  [ gap_of NETWORK_4G_LTE (9#10); gap_of NETWORK_5G_NR (8#10);
    gap_of NETWORK_HANDOVER (7#10); gap_of WIFI_ACCESS_POINT (6#10);
    gap_of INTERNET_PROVISION (5#10); gap_of RF_FINGERPRINTING (4#10);
    gap_of LOCATION_PREDICTION (3#10) ].

(** An engine whose 4G/LTE confidence is 0.4: REFLECT gives that domain
    the severity (0.9 - 0.4) / 0.9 = 5/9. *)
Definition four_tenths_engine : MetacognitiveEngine :=
  set_capabilities (<["4g_lte" := PyNum (4#10)]> (_capabilities fresh_engine))
                   fresh_engine.

Definition strategy_of (rate : Q) (uses : nat) : AdaptationStrategy :=
  {| strategy_id := ("STR", 0); name := "Adaptive_4g_lte";
     str_description := "Auto-generated strategy for 4g_lte";
     parameters :=
       {| learning_rate_multiplier := 1; batch_size_multiplier := 1;
          epochs_multiplier := 1; target_domain := "4g_lte" |};
     success_rate := rate; usage_count := uses; is_active := true |}.

(** An engine holding one strategy of success rate 0.2 used five times. *)
Definition five_uses_engine : MetacognitiveEngine :=
  set_strategies [strategy_of (2#10) 5] fresh_engine.

(** An engine holding three unresolved gaps tried three times each, and
    after them a fourth that has never been tried. *)
Definition tried (d : CapabilityDomain) (n : nat) : LearningGap :=
  {| gap_id := ("GAP", 0); gap_domain := d; severity := 1;
     resolution_attempts := n; is_resolved := false |}.

Definition exhausted_engine : MetacognitiveEngine :=
  set_gaps [ tried NETWORK_4G_LTE 3; tried NETWORK_5G_NR 3;
             tried NETWORK_HANDOVER 3; tried MESH_ROUTING 0 ] fresh_engine.

(** *** Views, start-up and restart *)


Definition get_unresolved_gaps (e : MetacognitiveEngine) : list LearningGap :=
  filter (λ g, is_resolved g = false) (_gaps e).








End Engine.

(** ** The plugin registry and loader: [training/plugins/loader.py] *)

Module Plugins.

Inductive PluginStatus : Type :=
| DISCOVERED | LOADING | ACTIVE | ERROR | DISABLED.

#[global] Instance PluginStatus_eq_dec : EqDecision PluginStatus.
Proof. solve_decision. Defined.

(** A [pathlib.Path], split the way the loader reads it: [parent], [stem]
    and [suffix].  [str(path)] and [Path(text)] are inverse to each other
    and are not written. *)
Record Path : Type := { parent : string; stem : string; suffix : string }.

#[global] Instance Path_eq_dec : EqDecision Path.
Proof. solve_decision. Defined.

#[global] Instance Path_countable : Countable Path.
Proof.
  refine (inj_countable' (λ p, (parent p, stem p, suffix p))
            (λ t, {| parent := t.1.1; stem := t.1.2; suffix := t.2 |}) _).
  by intros [].
Defined.

Definition path_name (p : Path) : string := stem p +:+ suffix p.
Definition path_str (p : Path) : string := parent p +:+ "/" +:+ path_name p.

Record PluginContext : Type := {
  ctx_plugin_id : string;
  plugin_dir : string;
  config : list (string * pyval);
  shared_state : list (string * pyval)
}.

(** A plugin object, by what the loader asks of it.  An attribute the
    object may lack is an [option]; a method is the function from the
    positional arguments of the call to its outcome, so that a call with
    the wrong number of arguments is the [TypeError] the method answers. *)
Record Instance : Type := {
  i_initialize : option (list PluginContext → result pyval);
  i_capabilities : option (list string);
  i_network_config : bool;
  i_feature_config : bool;
  i_shutdown : option (result unit);
  i_predict : option (pyval → result pyval);
  i_analyze_network_state : option (pyval → result pyval);
  i_execute : option (pyval → result pyval)
}.

(** A module file once imported: what running its top level does, the
    factory [get_skill] if it defines one, and the classes of its namespace
    that have both [initialize] and [is_ready], in namespace order, each
    given by what calling it yields. *)
Record PyModule : Type := {
  exec_module : result unit;
  get_skill : option (result Instance);
  skill_classes : list (result Instance)
}.

Record File : Type := {
  sha256_hexdigest : string;
  module : PyModule
}.

Record PluginInfo : Type := {
  plugin_id : string;
  name : string;
  version : string;
  capabilities : list string;
  module_path : Path;
  status : PluginStatus;
  instance : option Instance;
  load_count : nat;
  execution_count : nat;
  error_count : nat;
  last_error : option string;
  file_checksum : string
}.

(** *** [PluginRegistry] *)

Record PluginRegistry : Type := {
  _plugins : gmap string PluginInfo;
  _capabilities_map : gmap string (list string)
}.

Definition empty_registry : PluginRegistry :=
  {| _plugins := ∅; _capabilities_map := ∅ |}.

(** [if pid not in ids: ids.append(pid)] *)
Definition append_once (pid : string) (ids : list string) : list string :=
  if bool_decide (pid ∈ ids) then ids else ids ++ [pid].

(** One round of the loop of [register] over [plugin_info.capabilities]:
    a capability not yet in the map starts from the empty list. *)
Definition index_capability (pid : string) (m : gmap string (list string))
    (cap : string) : gmap string (list string) :=
  <[cap := append_once pid (default [] (m !! cap))]> m.

(** [register] always returns [True]; only the registry it leaves is kept. *)
Definition register (plugin_info : PluginInfo) (r : PluginRegistry)
    : PluginRegistry :=
  {| _plugins := <[plugin_id plugin_info := plugin_info]> (_plugins r);
     _capabilities_map :=
       foldl (index_capability (plugin_id plugin_info))
             (_capabilities_map r) (capabilities plugin_info) |}.

(** One round of the loop of [unregister] over [info.capabilities]. *)
Definition prune_capability (pid : string) (m : gmap string (list string))
    (cap : string) : gmap string (list string) :=
  match m !! cap with
  | Some ids => <[cap := filter (λ p, p ≠ pid) ids]> m
  | None => m
  end.

Definition unregister (pid : string) (r : PluginRegistry)
    : PluginRegistry * bool :=
  match _plugins r !! pid with
  | None => (r, false)
  | Some info =>
      ({| _plugins := delete pid (_plugins r);
          _capabilities_map :=
            foldl (prune_capability pid) (_capabilities_map r)
                  (capabilities info) |}, true)
  end.

Definition get (pid : string) (r : PluginRegistry) : option PluginInfo :=
  _plugins r !! pid.

Definition get_by_capability (capability : string) (r : PluginRegistry)
    : list PluginInfo :=
  let plugin_ids := default [] (_capabilities_map r !! capability) in
  omap (λ pid, _plugins r !! pid) plugin_ids.

(** *** [DynamicPluginLoader] *)

Definition callback : Type := string.

Inductive notification : Type :=
| PluginLoaded (cb : callback) (info : PluginInfo)
| PluginError (cb : callback) (pid : string) (e : exn).

(** Calls the loader makes on plugin objects, with their arguments. *)
Inductive plugin_call : Type :=
| Initialize (pid : string) (args : list PluginContext)
| Shutdown (pid : string).

(** A row of the [plugins] table. *)
Record PluginRow : Type := {
  row_name : string;
  row_version : string;
  row_capabilities : list string;
  row_module_path : Path;
  row_status : PluginStatus;
  row_load_count : nat;
  row_execution_count : nat;
  row_error_count : nat;
  row_last_error : option string;
  row_file_checksum : string
}.

Record Loader : Type := {
  plugins_path : string;
  registry : PluginRegistry;
  _loaded_modules : gmap string PyModule;
  sys_modules : gmap string PyModule;
  _on_plugin_loaded : list callback;
  _on_plugin_error : list callback;
  delivered : list notification;
  calls : list plugin_call;
  plugins_table : gmap string PluginRow
}.

Definition set_registry (r : PluginRegistry) (L : Loader) : Loader :=
  {| plugins_path := plugins_path L; registry := r;
     _loaded_modules := _loaded_modules L; sys_modules := sys_modules L;
     _on_plugin_loaded := _on_plugin_loaded L;
     _on_plugin_error := _on_plugin_error L;
     delivered := delivered L; calls := calls L;
     plugins_table := plugins_table L |}.

Definition set_loaded_modules (m : gmap string PyModule) (L : Loader) : Loader :=
  {| plugins_path := plugins_path L; registry := registry L;
     _loaded_modules := m; sys_modules := sys_modules L;
     _on_plugin_loaded := _on_plugin_loaded L;
     _on_plugin_error := _on_plugin_error L;
     delivered := delivered L; calls := calls L;
     plugins_table := plugins_table L |}.

Definition set_sys_modules (m : gmap string PyModule) (L : Loader) : Loader :=
  {| plugins_path := plugins_path L; registry := registry L;
     _loaded_modules := _loaded_modules L; sys_modules := m;
     _on_plugin_loaded := _on_plugin_loaded L;
     _on_plugin_error := _on_plugin_error L;
     delivered := delivered L; calls := calls L;
     plugins_table := plugins_table L |}.

Definition set_delivered (d : list notification) (L : Loader) : Loader :=
  {| plugins_path := plugins_path L; registry := registry L;
     _loaded_modules := _loaded_modules L; sys_modules := sys_modules L;
     _on_plugin_loaded := _on_plugin_loaded L;
     _on_plugin_error := _on_plugin_error L;
     delivered := d; calls := calls L;
     plugins_table := plugins_table L |}.

Definition set_calls (c : list plugin_call) (L : Loader) : Loader :=
  {| plugins_path := plugins_path L; registry := registry L;
     _loaded_modules := _loaded_modules L; sys_modules := sys_modules L;
     _on_plugin_loaded := _on_plugin_loaded L;
     _on_plugin_error := _on_plugin_error L;
     delivered := delivered L; calls := c;
     plugins_table := plugins_table L |}.

Definition set_plugins_table (t : gmap string PluginRow) (L : Loader) : Loader :=
  {| plugins_path := plugins_path L; registry := registry L;
     _loaded_modules := _loaded_modules L; sys_modules := sys_modules L;
     _on_plugin_loaded := _on_plugin_loaded L;
     _on_plugin_error := _on_plugin_error L;
     delivered := delivered L; calls := calls L;
     plugins_table := t |}.

Abbreviation LM := (SE Loader).

Definition notify (mk : callback → notification) (cbs : list callback)
    (L : Loader) : Loader :=
  set_delivered (delivered L ++ map mk cbs) L.

(** What a directory holds under a name: a file that can be read, or an
    entry that [read_bytes] raises on (a directory, a dangling link, a file
    the process may not read), with the exception it raises. *)
Inductive Entry : Type :=
| RegularFile (f : File)
| Unreadable (x : exn).

(** The entries the loader can see. *)
Abbreviation FileSystem := (gmap Path Entry).

Definition no_such_file (p : Path) : exn :=
  Exn "FileNotFoundError"
      ("[Errno 2] No such file or directory: '" +:+ path_str p +:+ "'").

(** Opening [file_path] and reading it. *)
Definition read_file (fs : FileSystem) (file_path : Path) : result File :=
  match fs !! file_path with
  | Some (RegularFile f) => Ok f
  | Some (Unreadable x) => Raise x
  | None => Raise (no_such_file file_path)
  end.

(** [_compute_checksum]: [hashlib.sha256(content).hexdigest()[:16]] of
    [file_path.read_bytes()] *)
Definition _compute_checksum (fs : FileSystem) (file_path : Path)
    : result string :=
  match read_file fs file_path with
  | Ok f => Ok (String.substring 0 16 (sha256_hexdigest f))
  | Raise x => Raise x
  end.

(** [_save_plugin]: [INSERT OR REPLACE] of the row of [info]. *)
Definition _save_plugin (info : PluginInfo) (L : Loader) : Loader :=
  set_plugins_table
    (<[plugin_id info :=
         {| row_name := name info; row_version := version info;
            row_capabilities := capabilities info;
            row_module_path := module_path info;
            row_status := status info; row_load_count := load_count info;
            row_execution_count := execution_count info;
            row_error_count := error_count info;
            row_last_error := last_error info;
            row_file_checksum := file_checksum info |}]>
       (plugins_table L)) L.

(** *** [discover] *)

Definition startswith_underscore (s : string) : bool :=
  match s with
  | String "_"%char _ => true
  | _ => false
  end.

(** [self.plugins_path.glob("*.py")]: the entries of the plugin directory
    whose name ends in [.py], readable or not, in the order the directory
    lists them. *)
Definition glob_py (fs : FileSystem) (dir : string) : list Path :=
  filter (λ p, parent p = dir ∧ suffix p = ".py") (map fst (map_to_list fs)).

Fixpoint discover_loop (fs : FileSystem) (r : PluginRegistry)
    (files : list Path) (discovered : list Path) : result (list Path) :=
  match files with
  | [] => Ok discovered
  | file_path :: rest =>
      if startswith_underscore (path_name file_path)
      then discover_loop fs r rest discovered
      else
        match _compute_checksum fs file_path with
        | Raise x => Raise x
        | Ok checksum =>
            match get (stem file_path) r with
            | None => discover_loop fs r rest (discovered ++ [file_path])
            | Some existing =>
                if bool_decide (file_checksum existing ≠ checksum)
                then discover_loop fs r rest (discovered ++ [file_path])
                else discover_loop fs r rest discovered
            end
        end
  end.

Definition discover (fs : FileSystem) (L : Loader) : result (list Path) :=
  discover_loop fs (registry L) (glob_py fs (plugins_path L)) [].

(** *** [load] *)

(** [importlib.util.spec_from_file_location] gives a spec only for a file
    name that ends in one of the importable suffixes. *)
Definition importable (p : Path) : bool :=
  bool_decide (suffix p ∈ [".py"; ".pyc"; ".so"]).

Definition source_module (fs : FileSystem) (p : Path) : result PyModule :=
  match read_file fs p with
  | Ok f => Ok (module f)
  | Raise x => Raise x
  end.

(** The factory [get_skill] if the module has one, or else the first class
    that has [initialize] and [is_ready]. *)
Definition resolve_instance (m : PyModule) : result Instance :=
  match get_skill m with
  | Some made => made
  | None =>
      match skill_classes m with
      | skill_class :: _ => skill_class
      | [] => Raise (Exn "ValueError" "No skill class found in module")
      end
  end.

(** [str.title] and [str.replace("_", " ")] on ASCII text. *)
Definition is_lower (c : ascii) : bool :=
  (97 <=? nat_of_ascii c)%nat && (nat_of_ascii c <=? 122)%nat.
Definition is_upper (c : ascii) : bool :=
  (65 <=? nat_of_ascii c)%nat && (nat_of_ascii c <=? 90)%nat.
Definition to_upper (c : ascii) : ascii :=
  if is_lower c then ascii_of_nat (nat_of_ascii c - 32) else c.
Definition to_lower (c : ascii) : ascii :=
  if is_upper c then ascii_of_nat (nat_of_ascii c + 32) else c.

Fixpoint title_from (in_word : bool) (s : string) : string :=
  match s with
  | EmptyString => EmptyString
  | String c t =>
      if is_lower c || is_upper c
      then String (if in_word then to_lower c else to_upper c) (title_from true t)
      else String c (title_from false t)
  end.

Definition title (s : string) : string := title_from false s.

Fixpoint replace_underscores (s : string) : string :=
  match s with
  | EmptyString => EmptyString
  | String c t =>
      String (if Ascii.eqb c "_" then " "%char else c) (replace_underscores t)
  end.

(** [if hasattr(instance, "initialize"): instance.initialize()] *)
Definition call_initialize (pid : string) (inst : Instance) : LM unit :=
  match i_initialize inst with
  | Some method =>
      modify (λ L, set_calls (calls L ++ [Initialize pid []]) L);;
      _ ← lift (method []);
      mret tt
  | None => mret tt
  end.

Definition derive_capabilities (inst : Instance) : list string :=
  match i_capabilities inst with
  | Some caps => caps
  | None =>
      if i_network_config inst then ["network"]
      else if i_feature_config inst then ["predictor"]
      else []
  end.

(** The [try] block of [load]. *)
Definition load_attempt (fs : FileSystem) (file_path : Path) (pid : string)
    : LM PluginInfo :=
  checksum ← lift (_compute_checksum fs file_path);
  (if importable file_path then mret tt
   else raise (Exn "ImportError"
                   ("Cannot load spec from " +:+ path_str file_path)));;
  module ← lift (source_module fs file_path);
  modify (λ L, set_sys_modules (<[pid := module]> (sys_modules L)) L);;
  lift (exec_module module);;
  modify (λ L, set_loaded_modules (<[pid := module]> (_loaded_modules L)) L);;
  inst ← lift (resolve_instance module);
  let context :=
    {| ctx_plugin_id := pid; plugin_dir := parent file_path;
       config := []; shared_state := [] |} in
  call_initialize pid inst;;
  let info :=
    {| plugin_id := pid;
       name := title (replace_underscores pid);
       version := "1.0.0";
       capabilities := derive_capabilities inst;
       module_path := file_path;
       status := ACTIVE;
       instance := Some inst;
       load_count := 1; execution_count := 0; error_count := 0;
       last_error := None;
       file_checksum := checksum |} in
  modify (λ L, set_registry (register info (registry L)) L);;
  modify (_save_plugin info);;
  cbs ← gets _on_plugin_loaded;
  modify (notify (λ cb, PluginLoaded cb info) cbs);;
  mret info.

(** The record the [except] branch of [load] registers. *)
Definition error_info (file_path : Path) (pid : string) (e : exn) : PluginInfo :=
  {| plugin_id := pid; name := pid; version := "unknown";
     capabilities := []; module_path := file_path;
     status := ERROR; instance := None;
     load_count := 0; execution_count := 0; error_count := 0;
     last_error := Some (str e); file_checksum := "" |}.

Definition load (fs : FileSystem) (module_path : Path) (L : Loader)
    : Loader * option PluginInfo :=
  let file_path := module_path in
  let pid := stem file_path in
  match load_attempt fs file_path pid L with
  | (L, Ok info) => (L, Some info)
  | (L, Raise e) =>
      let info := error_info file_path pid e in
      let L := set_registry (register info (registry L)) L in
      let L := notify (λ cb, PluginError cb pid e) (_on_plugin_error L) L in
      (L, None)
  end.

(** *** [load_all] *)

Definition load_succeeded (info : option PluginInfo) : bool :=
  match info with
  | Some i => bool_decide (status i = ACTIVE)
  | None => false
  end.

Definition load_each (fs : FileSystem)
    (acc : Loader * gmap string bool) (path : Path) : Loader * gmap string bool :=
  let '(L, info) := load fs path acc.1 in
  (L, <[stem path := load_succeeded info]> acc.2).

Definition load_all (fs : FileSystem) (L : Loader)
    : Loader * result (gmap string bool) :=
  match discover fs L with
  | Raise x => (L, Raise x)
  | Ok discovered =>
      let '(L, results) := foldl (load_each fs) (L, ∅) discovered in
      (L, Ok results)
  end.

(** *** [reload] *)

Definition with_load_count (n : nat) (i : PluginInfo) : PluginInfo :=
  {| plugin_id := plugin_id i; name := name i; version := version i;
     capabilities := capabilities i; module_path := module_path i;
     status := status i; instance := instance i;
     load_count := n; execution_count := execution_count i;
     error_count := error_count i; last_error := last_error i;
     file_checksum := file_checksum i |}.

Definition set_plugins (p : gmap string PluginInfo) (r : PluginRegistry)
    : PluginRegistry :=
  {| _plugins := p; _capabilities_map := _capabilities_map r |}.

(** [instance.shutdown()] inside [try: ... except: pass] *)
Definition shutdown_quietly (pid : string) (info : PluginInfo) (L : Loader)
    : Loader :=
  match instance info with
  | Some inst =>
      match i_shutdown inst with
      | Some _ => set_calls (calls L ++ [Shutdown pid]) L
      | None => L
      end
  | None => L
  end.

(** [new_info] is the object [load] has just put in the registry, so the
    assignment to [new_info.load_count] changes the registered record. *)
Definition reload (fs : FileSystem) (pid : string) (L : Loader)
    : Loader * bool :=
  match get pid (registry L) with
  | None => (L, false)
  | Some info =>
      let L := shutdown_quietly pid info L in
      let L := set_sys_modules (delete pid (sys_modules L)) L in
      let L := set_loaded_modules (delete pid (_loaded_modules L)) L in
      match load fs (module_path info) L with
      | (L, Some new_info) =>
          (set_registry
             (set_plugins
                (alter (with_load_count (S (load_count info)))
                       (plugin_id new_info) (_plugins (registry L)))
                (registry L)) L, true)
      | (L, None) => (L, false)
      end
  end.

(** *** [execute] *)

Definition executed (i : PluginInfo) : PluginInfo :=
  {| plugin_id := plugin_id i; name := name i; version := version i;
     capabilities := capabilities i; module_path := module_path i;
     status := status i; instance := instance i;
     load_count := load_count i; execution_count := S (execution_count i);
     error_count := error_count i; last_error := last_error i;
     file_checksum := file_checksum i |}.

Definition failed (e : exn) (i : PluginInfo) : PluginInfo :=
  {| plugin_id := plugin_id i; name := name i; version := version i;
     capabilities := capabilities i; module_path := module_path i;
     status := status i; instance := instance i;
     load_count := load_count i; execution_count := execution_count i;
     error_count := S (error_count i); last_error := Some (str e);
     file_checksum := file_checksum i |}.

Definition dispatch (inst : Instance) (input_data : pyval) : result pyval :=
  match i_predict inst with
  | Some method => method input_data
  | None =>
      match i_analyze_network_state inst with
      | Some method => method input_data
      | None =>
          match i_execute inst with
          | Some method => method input_data
          | None => Raise (Exn "RuntimeError" "No execution method found")
          end
      end
  end.

Definition update_info (pid : string) (f : PluginInfo → PluginInfo)
    (L : Loader) : Loader :=
  set_registry (set_plugins (alter f pid (_plugins (registry L))) (registry L)) L.

Definition execute (pid : string) (input_data : pyval) (L : Loader)
    : Loader * result pyval :=
  match get pid (registry L) with
  | None => (L, Raise (Exn "ValueError" ("Plugin not found: " +:+ pid)))
  | Some info =>
      if bool_decide (status info ≠ ACTIVE)
      then (L, Raise (Exn "RuntimeError" ("Plugin not active: " +:+ pid)))
      else
        match instance info with
        | None => (L, Raise (Exn "RuntimeError" ("Plugin not loaded: " +:+ pid)))
        | Some inst =>
            match dispatch inst input_data with
            | Ok result => (update_info pid executed L, Ok result)
            | Raise e => (update_info pid (failed e) L, Raise e)
            end
        end
  end.

(** *** Plugins and loaders to run the methods on *)

Definition new_loader (dir : string) (on_loaded on_error : list callback) : Loader :=
  {| plugins_path := dir; registry := empty_registry;
     _loaded_modules := ∅; sys_modules := ∅;
     _on_plugin_loaded := on_loaded; _on_plugin_error := on_error;
     delivered := []; calls := []; plugins_table := ∅ |}.

(** A plugin written against [NightframePlugin]: [initialize(self, context)]
    takes exactly one argument besides [self]. *)
Definition interface_initialize (args : list PluginContext) : result pyval :=
  match args with
  | [context] => Ok (PyNum 1)
  | [] => Raise (Exn "TypeError"
                     "initialize() missing 1 required positional argument: 'context'")
  | _ => Raise (Exn "TypeError"
                    "initialize() takes 2 positional arguments but more were given")
  end.

Definition interface_skill (caps : list string) : Instance :=
  {| i_initialize := Some interface_initialize;
     i_capabilities := Some caps;
     i_network_config := false; i_feature_config := false;
     i_shutdown := Some (Ok tt);
     i_predict := None; i_analyze_network_state := None;
     i_execute := Some (λ input_data, Ok input_data) |}.

(** A plugin whose [initialize(self)] takes no argument. *)
Definition plain_skill (caps : list string) : Instance :=
  {| i_initialize := Some (λ args,
       match args with
       | [] => Ok (PyNum 1)
       | _ => Raise (Exn "TypeError"
                         "initialize() takes 1 positional argument but more were given")
       end);
     i_capabilities := Some caps;
     i_network_config := false; i_feature_config := false;
     i_shutdown := Some (Ok tt);
     i_predict := Some (λ input_data, Ok input_data);
     i_analyze_network_state := None; i_execute := None |}.

Definition factory_module (inst : Instance) : PyModule :=
  {| exec_module := Ok tt; get_skill := Some (Ok inst); skill_classes := [] |}.

(** A file whose top level raises when it is run. *)
Definition broken_module : PyModule :=
  {| exec_module := Raise (Exn "SyntaxError" "invalid syntax");
     get_skill := None; skill_classes := [] |}.

Definition py_file (dir nm : string) : Path :=
  {| parent := dir; stem := nm; suffix := ".py" |}.

Definition skills_dir : string := "generated_skills".

(** Three plugin files, the second of them invalid. *)
Definition three_files : FileSystem :=
  {[ py_file skills_dir "alpha" :=
       RegularFile
         {| sha256_hexdigest := "a1a1a1a1a1a1a1a1a1a1a1a1a1a1a1a1";
            module := factory_module (plain_skill ["network"]) |};
     py_file skills_dir "beta" :=
       RegularFile
         {| sha256_hexdigest := "b2b2b2b2b2b2b2b2b2b2b2b2b2b2b2b2";
            module := broken_module |};
     py_file skills_dir "gamma" :=
       RegularFile
         {| sha256_hexdigest := "c3c3c3c3c3c3c3c3c3c3c3c3c3c3c3c3";
            module := factory_module (plain_skill ["predictor"]) |} ]}.

(** The same directory with one more entry, a directory named
    [cache.py]. *)
Definition is_a_directory (p : Path) : exn :=
  Exn "IsADirectoryError"
      ("[Errno 21] Is a directory: '" +:+ path_str p +:+ "'").

Definition files_and_directory : FileSystem :=
  <[py_file skills_dir "cache" :=
      Unreadable (is_a_directory (py_file skills_dir "cache"))]> three_files.

(** One plugin file holding a plugin written against the interface. *)
Definition interface_file : FileSystem :=
  {[ py_file skills_dir "delta" :=
       RegularFile
         {| sha256_hexdigest := "d4d4d4d4d4d4d4d4d4d4d4d4d4d4d4d4";
            module := factory_module (interface_skill ["network"]) |} ]}.

(** What [initialize(self, context)] answers to a call without [context]. *)
Definition missing_context : exn :=
  Exn "TypeError"
      "initialize() missing 1 required positional argument: 'context'".

(** The loader once it has loaded [alpha.py], and the same directory after
    [alpha.py] has been overwritten with a file that does not run. *)
Definition alpha_loaded : Loader :=
  (load three_files (py_file skills_dir "alpha")
        (new_loader skills_dir ["on_loaded"] ["on_error"])).1.

Definition broken_alpha_files : FileSystem :=
  <[py_file skills_dir "alpha" :=
      RegularFile
        {| sha256_hexdigest := "e5e5e5e5e5e5e5e5e5e5e5e5e5e5e5e5";
           module := broken_module |}]> three_files.

Definition plain_info (pid : string) (caps : list string) : PluginInfo :=
  {| plugin_id := pid; name := pid; version := "1.0.0";
     capabilities := caps; module_path := py_file skills_dir pid;
     status := ACTIVE; instance := Some (plain_skill caps);
     load_count := 1; execution_count := 0; error_count := 0;
     last_error := None; file_checksum := "" |}.

(** *** [unload] and [execute_capability] *)

(** The [try] block of [unload] starts with [instance.shutdown()], this
    time with nothing around the call: what it raises ends the block. *)
Definition shutdown_call (pid : string) (info : PluginInfo) (L : Loader)
    : Loader * result unit :=
  match instance info with
  | Some inst =>
      match i_shutdown inst with
      | Some outcome => (set_calls (calls L ++ [Shutdown pid]) L, outcome)
      | None => (L, Ok tt)
      end
  | None => (L, Ok tt)
  end.

Definition unload (pid : string) (L : Loader) : Loader * bool :=
  match get pid (registry L) with
  | None => (L, false)
  | Some info =>
      match shutdown_call pid info L with
      | (L, Raise _) => (L, false)
      | (L, Ok _) =>
          let L := set_registry (unregister pid (registry L)).1 L in
          let L := set_sys_modules (delete pid (sys_modules L)) L in
          let L := set_loaded_modules (delete pid (_loaded_modules L)) L in
          (L, true)
      end
  end.




End Plugins.

(** ** Skill discovery: [training/skill_discovery/discovery.py]

    The clustering of feature matrices is numerical code on arrays and is
    not modelled; the proposal, scoring and registration of skills are. *)

Module Discovery.

Inductive SkillStatus : Type :=
| CANDIDATE | TESTING | ACTIVE | DEPRECATED | FAILED.

#[global] Instance SkillStatus_eq_dec : EqDecision SkillStatus.
Proof. solve_decision. Defined.

Definition ident : Type := string * nat.

Record DiscoveredSkill : Type := {
  skill_id : ident;
  name : string;
  description : string;
  domain : string;
  discovery_method : string;
  source_data : string;
  pattern_signature : string;
  pattern_features : list (string * Q);
  utility_score : Q;
  confidence : Q;
  validation_count : nat;
  success_count : nat;
  status : SkillStatus;
  model_path : option string;
  code_module : option string;
  dependencies : list string;
  parent_skill : option string
}.

Record PatternCluster : Type := {
  cluster_id : ident;
  centroid : list Q;
  cluster_size : nat;
  variance : Q;
  cluster_domain : string;
  samples : list string;
  is_novel : bool
}.

Record SkillDiscovery : Type := {
  _discovered_skills : gmap ident DiscoveredSkill;
  _pattern_clusters : gmap ident PatternCluster;
  _known_patterns : gset string;
  clock : nat;
  discovered_skills_table : gmap ident DiscoveredSkill
}.

Definition set_known_patterns (k : gset string) (d : SkillDiscovery)
    : SkillDiscovery :=
  {| _discovered_skills := _discovered_skills d;
     _pattern_clusters := _pattern_clusters d;
     _known_patterns := k; clock := clock d;
     discovered_skills_table := discovered_skills_table d |}.

Definition set_clock (n : nat) (d : SkillDiscovery) : SkillDiscovery :=
  {| _discovered_skills := _discovered_skills d;
     _pattern_clusters := _pattern_clusters d;
     _known_patterns := _known_patterns d; clock := n;
     discovered_skills_table := discovered_skills_table d |}.

(** [_estimate_utility]: [cluster.size / 100] is Python's true division. *)
Definition _estimate_utility (cluster : PatternCluster) : Q :=
  let size_score :=
    py_min 1 (inject_Z (Z.of_nat (cluster_size cluster)) / 100)%Q in
  let variance_score := py_max 0 (1 - variance cluster)%Q in
  let novelty_bonus := if is_novel cluster then (2#10)%Q else 0%Q in
  (size_score * (4#10) + variance_score * (4#10) + novelty_bonus)%Q.

(** [numpy.var] of a list: the mean of the squared distances to the mean. *)
Definition np_mean (xs : list Q) : Q :=
  (foldr Qplus 0 xs / inject_Z (Z.of_nat (length xs)))%Q.

Definition np_var (xs : list Q) : Q :=
  np_mean (map (λ x, (x - np_mean xs) * (x - np_mean xs))%Q xs).

Definition priority_domains : gmap string Q :=
  list_to_map
    [ ("4g_lte", 2#10); ("5g_nr", 2#10); ("network_handover", 15#100);
      ("wifi_ap", 15#100); ("internet_provision", 2#10);
      ("rf_fingerprinting", 1#10) ].

Definition evaluate_utility (skill : DiscoveredSkill) : Q :=
  let score := (5#10)%Q in
  let score := (score + default (5#100) (priority_domains !! domain skill))%Q in
  let score :=
    match pattern_features skill with
    | [] => score
    | _ :: _ =>
        (score + py_min (2#10) (np_var (map snd (pattern_features skill))))%Q
    end in
  py_min 1 score.

Section Signature.

(** [_compute_pattern_signature]: the SHA-256 of the JSON text of the
    centroid rounded to two decimals, cut to 16 characters.  Rounding binary
    floats, printing them and hashing are the libraries' work; the function
    is a parameter. *)
Variable _compute_pattern_signature : list Q → string.

(** The body of [for cluster in clusters] of [identify_skill_candidates],
    with the local list [candidates] as accumulator. *)
Fixpoint propose (clusters : list PatternCluster)
    (candidates : list DiscoveredSkill) (d : SkillDiscovery)
    : SkillDiscovery * list DiscoveredSkill :=
  match clusters with
  | [] => (d, candidates)
  | cluster :: rest =>
      if negb (is_novel cluster) then propose rest candidates d
      else
        let signature := _compute_pattern_signature (centroid cluster) in
        if bool_decide (signature ∈ _known_patterns d)
        then propose rest candidates d
        else
          let skill :=
            {| skill_id := ("SKILL", clock d);
               name := "Auto_" +:+ cluster_domain cluster +:+ "_"
                       +:+ pretty (size (_discovered_skills d));
               description := "Automatically discovered skill for "
                              +:+ cluster_domain cluster;
               domain := cluster_domain cluster;
               discovery_method := "pattern_clustering";
               source_data := "";
               pattern_signature := signature;
               pattern_features :=
                 imap (λ i v, ("dim_" +:+ pretty i, v)) (centroid cluster);
               utility_score := _estimate_utility cluster;
               confidence := 0;
               validation_count := 0; success_count := 0;
               status := CANDIDATE;
               model_path := None; code_module := None;
               dependencies := []; parent_skill := None |} in
          propose rest (candidates ++ [skill])
            (set_known_patterns ({[signature]} ∪ _known_patterns d)
               (set_clock (S (clock d)) d))
  end.

(** [identify_skill_candidates(clusters)]: without an argument, the stored
    clusters flagged novel. *)
Definition identify_skill_candidates (clusters : option (list PatternCluster))
    (d : SkillDiscovery) : SkillDiscovery * list DiscoveredSkill :=
  let clusters :=
    match clusters with
    | Some given => given
    | None =>
        filter (λ c, is_novel c = true)
               (map snd (map_to_list (_pattern_clusters d)))
    end in
  propose clusters [] d.

End Signature.

End Discovery.

(** ** The trainer's handler of plugin loads: [training/train_metacognitive.py] *)

Module Trainer.

Record MetacognitiveTrainer : Type := {
  metacog : Engine.MetacognitiveEngine;
  cycles_completed : nat;
  skills_generated : nat;
  plugins_deployed : nat
}.

Definition set_metacog (e : Engine.MetacognitiveEngine)
    (t : MetacognitiveTrainer) : MetacognitiveTrainer :=
  {| metacog := e; cycles_completed := cycles_completed t;
     skills_generated := skills_generated t;
     plugins_deployed := plugins_deployed t |}.

Definition set_plugins_deployed (n : nat) (t : MetacognitiveTrainer)
    : MetacognitiveTrainer :=
  {| metacog := metacog t; cycles_completed := cycles_completed t;
     skills_generated := skills_generated t; plugins_deployed := n |}.

(** A method of the engine, called on [self.metacog]. *)
Definition on_metacog {A} (m : SE Engine.MetacognitiveEngine A)
    : SE MetacognitiveTrainer A :=
  λ t, let '(e, r) := m (metacog t) in (set_metacog e t, r).

(** The body of [for cap in plugin_info.capabilities]. *)
Fixpoint raise_capabilities (caps : list string) : SE MetacognitiveTrainer unit :=
  match caps with
  | [] => mret tt
  | cap :: rest =>
      current ← gets (λ t, Engine.get_capability cap (metacog t));
      raised ← lift (py_add current (1#10));
      on_metacog (Engine.update_capability cap (Fin (py_min 1 raised))
                                           "plugin_loaded");;
      raise_capabilities rest
  end.

Definition _on_plugin_loaded (plugin_info : Plugins.PluginInfo)
    : SE MetacognitiveTrainer unit :=
  modify (λ t, set_plugins_deployed (S (plugins_deployed t)) t);;
  raise_capabilities (Plugins.capabilities plugin_info).


End Trainer.

(** ** The specification's words

    Definitions that follow the wording of the specification, to be compared
    with the definitions above, which follow the source. *)

Module SpecWords.

(** "the previous value was <0.5 and the new value is >=0.5", the new value
    being the one stored. *)
Definition crossed_up (previous : pyval) (stored : Q) : bool :=
  match previous with
  | PyNum p => Qlt_bool p (1#2) && Qle_bool (1#2) stored
  | _ => false
  end.

(** The number of upward crossings of 0.5 in a sequence of stored values
    that starts at [previous] and goes on with the values stored for the
    inputs. *)
Fixpoint crossings (previous : pyval) (confidences : list pyfloat) : nat :=
  match confidences with
  | [] => 0
  | c :: rest =>
      let stored := clamp_unit c in
      (if crossed_up previous stored then 1 else 0)
      + crossings (PyNum stored) rest
  end.

(** "priority = round(severity×10)": rounding to the nearest integer, a tie
    going to the even one as Python's [round] has it. *)
Definition round_half_even (x : Q) : Z :=
  let f := Qfloor x in
  let r := (x - inject_Z f)%Q in
  if Qlt_bool r (1#2) then f
  else if Qlt_bool (1#2) r then (f + 1)%Z
  else if Z.even f then f else (f + 1)%Z.

End SpecWords.

(** ** Relations the properties are stated with *)

Module Relations.
Import Engine.

(** The test [old_value < 0.5 and confidence >= 0.5] that
    [update_capability] makes, for a value stored before that is a number;
    on any other the comparison raises and nothing fires. *)
Definition fires (previous : pyval) (confidence : pyfloat) : bool :=
  match previous with
  | PyNum p => Qlt_bool p (1#2) && float_ge confidence (Fin (1#2))
  | _ => false
  end.

(** The capability of the domain of [g] holds a number. *)
Definition has_numeric_capability (e : MetacognitiveEngine) (g : LearningGap)
    : Prop :=
  ∃ c, get_capability (value (gap_domain g)) e = PyNum c.

(** Every stored capability is a number; every one is a number of [0,1]. *)
Definition numeric_capabilities (e : MetacognitiveEngine) : Prop :=
  map_Forall (λ _ v, ∃ q, v = PyNum q) (_capabilities e).

Definition unit_capabilities (e : MetacognitiveEngine) : Prop :=
  map_Forall (λ _ v, ∃ q, v = PyNum q ∧ (0 <= q)%Q ∧ (q <= 1)%Q)
             (_capabilities e).

(** The capability of a priority domain is a number below its target. *)
Definition is_below (e : MetacognitiveEngine) (dt : CapabilityDomain * Q)
    : bool :=
  match get_capability (value dt.1) e with
  | PyNum c => Qlt_bool c dt.2
  | _ => false
  end.

(** [g] is the gap REFLECT makes for the priority domain [dt] in the
    engine [e]. *)
Definition reflected (e : MetacognitiveEngine) (dt : CapabilityDomain * Q)
    (g : LearningGap) : Prop :=
  gap_domain g = dt.1
  ∧ (∃ c, get_capability (value dt.1) e = PyNum c
          ∧ (c < dt.2)%Q
          ∧ severity g = ((dt.2 - c) / dt.2)%Q)
  ∧ resolution_attempts g = 0
  ∧ is_resolved g = false.

(** Where REFLECT stops, if it does: the priority domains it has gone
    through, and the stored value of the next one, which is not a number
    and cannot be compared with the target. *)
Fixpoint reflect_stops_at (e : MetacognitiveEngine)
    (domains : list (CapabilityDomain * Q))
    : option (list (CapabilityDomain * Q) * pyval) :=
  match domains with
  | [] => None
  | dt :: rest =>
      match get_capability (value dt.1) e with
      | PyNum _ =>
          (λ stop, (dt :: stop.1, stop.2)) <$> reflect_stops_at e rest
      | v => Some ([], v)
      end
  end.

(** Where EVALUATE stops, if it does: the stored value, not a number, of
    the domain of the first objective not yet achieved that has one. *)
Fixpoint evaluate_stops_at (e : MetacognitiveEngine)
    (objectives : list LearningObjective) : option pyval :=
  match objectives with
  | [] => None
  | o :: rest =>
      if is_achieved o then evaluate_stops_at e rest
      else
        match get_capability (value (obj_domain o)) e with
        | PyNum _ => evaluate_stops_at e rest
        | v => Some v
        end
  end.

(** [p] is [x] with its fractional part dropped. *)
Definition truncation_of (x : Q) (p : Z) : Prop :=
  (Qabs (inject_Z p) <= Qabs x)%Q
  ∧ (Qabs x < Qabs (inject_Z p) + 1)%Q
  ∧ (0 <= inject_Z p * x)%Q.

(** [o] is the objective PLAN makes for the gap [g] in the engine [e]. *)
Definition planned_for (e : MetacognitiveEngine) (g : LearningGap)
    (o : LearningObjective) : Prop :=
  obj_domain o = gap_domain g
  ∧ target_metric o = value (gap_domain g) +:+ "_accuracy"
  ∧ py_add (get_capability (value (gap_domain g)) e) (1#10)
    = Ok (target_value o)
  ∧ truncation_of (severity g * 10) (priority o)
  ∧ is_achieved o = false.

(** What ADAPT does to a strategy the engine already holds. *)
Definition reviewed (s : AdaptationStrategy) : AdaptationStrategy :=
  if is_failing s then deactivate s else s.

(** An objective as EVALUATE may leave it: untouched or marked achieved. *)
Definition evaluated_from (o o' : LearningObjective) : Prop :=
  o' = o ∨ o' = mark_achieved o.

(** The target of [o] is reached by the capabilities [caps]; what EVALUATE
    makes of [o] then, and its two counts over a list of objectives. *)
Definition reached (caps : gmap string pyval) (o : LearningObjective) : bool :=
  match default (PyNum 0) (caps !! value (obj_domain o)) with
  | PyNum c => Qle_bool (target_value o) c
  | _ => false
  end.

Definition evaluated (caps : gmap string pyval) (o : LearningObjective)
    : LearningObjective :=
  if is_achieved o then o
  else if reached caps o then mark_achieved o else o.

Definition newly_achieved (caps : gmap string pyval)
    (l : list LearningObjective) : nat :=
  length (filter (λ o, is_achieved o = false ∧ reached caps o = true) l).

Definition still_open (caps : gmap string pyval)
    (l : list LearningObjective) : nat :=
  length (filter (λ o, is_achieved o = false ∧ reached caps o = false) l).

(** A gap as ADAPT may leave it: untouched, or with one more attempt when
    it was unresolved and had fewer than three. *)
Definition attempted (g g' : LearningGap) : Prop :=
  g' = g
  ∨ (g' = add_attempt g ∧ is_resolved g = false ∧ resolution_attempts g < 3).

Definition total_attempts (gs : list LearningGap) : nat :=
  sum_list (map resolution_attempts gs).

(** [s] is the strategy ADAPT makes for the gap [g]. *)
Definition strategy_for (g : LearningGap) (s : AdaptationStrategy) : Prop :=
  name s = "Adaptive_" +:+ value (gap_domain g)
  ∧ target_domain (parameters s) = value (gap_domain g)
  ∧ learning_rate_multiplier (parameters s)
    = (1 + inject_Z (Z.of_nat (resolution_attempts g)) * (1#2))%Q
  ∧ batch_size_multiplier (parameters s)
    = (1 + inject_Z (Z.of_nat (resolution_attempts g)) * (1#4))%Q
  ∧ epochs_multiplier (parameters s)
    = (1 + inject_Z (Z.of_nat (resolution_attempts g)) * (1#2))%Q
  ∧ is_active s = true ∧ usage_count s = 0.

(** Every capability in memory is in the [capabilities] table and each of
    the last hundred metrics has its row. *)
Definition persisted (e : MetacognitiveEngine) : Prop :=
  _capabilities e ⊆ capabilities_table (db e)
  ∧ Forall (λ m, is_Some (performance_metrics_table (db e) !! metric_id m))
           (last_n 100 (_metrics e)).

(** The capability index lists no plugin twice. *)
Definition index_without_duplicates (r : Plugins.PluginRegistry) : Prop :=
  map_Forall (λ _ ids, NoDup ids) (Plugins._capabilities_map r).

(** The record [load] builds and registers when nothing has failed. *)
Definition loaded_info (p : Plugins.Path) (inst : Plugins.Instance)
    (checksum : string) : Plugins.PluginInfo :=
  {| Plugins.plugin_id := Plugins.stem p;
     Plugins.name := Plugins.title (Plugins.replace_underscores (Plugins.stem p));
     Plugins.version := "1.0.0";
     Plugins.capabilities := Plugins.derive_capabilities inst;
     Plugins.module_path := p;
     Plugins.status := Plugins.ACTIVE;
     Plugins.instance := Some inst;
     Plugins.load_count := 1;
     Plugins.execution_count := 0;
     Plugins.error_count := 0;
     Plugins.last_error := None;
     Plugins.file_checksum := checksum |}.

(** What [discover] stumbles on at the entry [p], if anything: the
    exception of reading it.  An entry whose name starts with an underscore
    is skipped unread. *)
Definition unreadable (fs : Plugins.FileSystem) (p : Plugins.Path)
    : option exn :=
  if Plugins.startswith_underscore (Plugins.path_name p) then None
  else match Plugins._compute_checksum fs p with
       | Raise x => Some x
       | Ok _ => None
       end.

(** The test of the loop of [discover] on a readable entry. *)
Definition new_or_changed (fs : Plugins.FileSystem) (r : Plugins.PluginRegistry)
    (p : Plugins.Path) : bool :=
  negb (Plugins.startswith_underscore (Plugins.path_name p))
  && match Plugins._compute_checksum fs p with
     | Ok checksum =>
         match Plugins.get (Plugins.stem p) r with
         | None => true
         | Some existing =>
             bool_decide (Plugins.file_checksum existing ≠ checksum)
         end
     | Raise _ => false
     end.

(** A file that [discover] is to report: a readable [*.py] file of the
    plugin directory whose name does not start with an underscore, and that
    is new to the registry or does not have the checksum registered under
    its stem. *)
Definition reported (fs : Plugins.FileSystem) (L : Plugins.Loader)
    (p : Plugins.Path) : Prop :=
  Plugins.parent p = Plugins.plugins_path L
  ∧ Plugins.suffix p = ".py"
  ∧ Plugins.startswith_underscore (Plugins.path_name p) = false
  ∧ ∃ f,
      fs !! p = Some (Plugins.RegularFile f)
      ∧ ∀ existing,
          Plugins.get (Plugins.stem p) (Plugins.registry L) = Some existing →
          Plugins.file_checksum existing
          ≠ String.substring 0 16 (Plugins.sha256_hexdigest f).

(** What the [try] block of [load] comes to for a file, whatever the
    loader holds: the plugin object it ends with, or the exception of the
    first step that fails (reading the file, finding a spec, running the
    module, resolving the object, calling [initialize]). *)
Definition load_outcome (fs : Plugins.FileSystem) (p : Plugins.Path)
    : result Plugins.Instance :=
  match Plugins.read_file fs p with
  | Raise x => Raise x
  | Ok f =>
      if Plugins.importable p then
        match Plugins.exec_module (Plugins.module f) with
        | Raise x => Raise x
        | Ok _ =>
            match Plugins.resolve_instance (Plugins.module f) with
            | Raise x => Raise x
            | Ok inst =>
                match Plugins.i_initialize inst with
                | None => Ok inst
                | Some method =>
                    match method [] with
                    | Raise x => Raise x
                    | Ok _ => Ok inst
                    end
                end
            end
        end
      else Raise (Exn "ImportError"
                      ("Cannot load spec from " +:+ Plugins.path_str p))
  end.

(** After a batch load, the result map and the registry tell what loading
    the file [p] came to: [true] and an ACTIVE record holding the plugin
    object, or [false] and the ERROR record of the exception. *)
Definition load_recorded (fs : Plugins.FileSystem) (L' : Plugins.Loader)
    (results : gmap string bool) (p : Plugins.Path) : Prop :=
  match load_outcome fs p with
  | Ok inst =>
      results !! Plugins.stem p = Some true
      ∧ ∃ info,
          Plugins.get (Plugins.stem p) (Plugins.registry L') = Some info
          ∧ Plugins.status info = Plugins.ACTIVE
          ∧ Plugins.instance info = Some inst
  | Raise e =>
      results !! Plugins.stem p = Some false
      ∧ Plugins.get (Plugins.stem p) (Plugins.registry L')
        = Some (Plugins.error_info p (Plugins.stem p) e)
  end.

End Relations.

(** ** Properties of the metacognitive engine *)

Module EngineFacts.
Import Engine SpecWords Relations.

(** *** Comparisons and clamping *)

Lemma Qlt_bool_iff (x y : Q) : Qlt_bool x y = true ↔ (x < y)%Q.
Proof. unfold Qlt_bool, Qlt. apply Z.ltb_lt. Qed.

Lemma Qlt_bool_ge (x y : Q) : Qlt_bool x y = false ↔ (y <= x)%Q.
Proof. unfold Qlt_bool, Qle. apply Z.ltb_ge. Qed.

Lemma py_min_Qmin (a b : Q) : py_min a b = Qmin a b.
Proof.
  unfold py_min, Qmin, GenericMinMax.gmin, Qlt_bool, Qcompare.
  rewrite Z.ltb_compare, (Z.compare_antisym (Qnum a * QDen b)).
  by destruct (Qnum a * QDen b ?= Qnum b * QDen a)%Z.
Qed.

Lemma py_max_Qmax (a b : Q) : py_max a b = Qmax a b.
Proof.
  unfold py_max, Qmax, GenericMinMax.gmax, Qlt_bool, Qcompare.
  rewrite Z.ltb_compare.
  by destruct (Qnum a * QDen b ?= Qnum b * QDen a)%Z.
Qed.

Lemma clamp_range (c : Q) :
  (0 <= Qmax 0 (Qmin 1 c))%Q ∧ (Qmax 0 (Qmin 1 c) <= 1)%Q.
Proof.
  split; [apply Q.le_max_l|].
  apply Q.max_lub; [done|apply Q.le_min_l].
Qed.

(** Clamping to [0,1] does not move a value across 0.5. *)
Lemma clamp_keeps_side (c : Q) :
  Qle_bool (1#2) (Qmax 0 (Qmin 1 c)) = Qle_bool (1#2) c.
Proof.
  apply eq_true_iff_eq. rewrite !Qle_bool_iff. split.
  - intros [H|H]%Q.max_le_iff; [by apply Qle_bool_iff in H|].
    by apply Q.min_glb_r in H.
  - intros H. apply Q.max_le_iff. right. by apply Q.min_glb.
Qed.

(** *** Running the monad *)

Ltac se :=
  unfold mbind, SE_bind, bind, mret, SE_ret, ret, gets, modify, lift, raise;
  cbn.

(** What [max(0, min(1, x))] comes to. *)
Lemma clamp_unit_Fin (c : Q) : clamp_unit (Fin c) = Qmax 0 (Qmin 1 c).
Proof.
  rewrite <- py_min_Qmin, <- py_max_Qmax.
  unfold clamp_unit, float_max, float_min, py_max, py_min. cbn.
  destruct (Qlt_bool c 1); cbn; by destruct (Qlt_bool 0 _).
Qed.

Lemma clamp_unit_number (x : pyfloat) :
  float_max (Fin 0) (float_min (Fin 1) x) = Fin (clamp_unit x).
Proof.
  unfold clamp_unit, float_max, float_min.
  destruct x as [c| | |]; cbn; [|done..].
  destruct (Qlt_bool c 1); cbn; by destruct (Qlt_bool 0 _).
Qed.

Lemma clamp_unit_range (x : pyfloat) :
  (0 <= clamp_unit x)%Q ∧ (clamp_unit x <= 1)%Q.
Proof.
  destruct x as [c| | |]; [|done..].
  rewrite clamp_unit_Fin. apply clamp_range.
Qed.

(** For every argument but NaN, the argument is at least 0.5 exactly when
    the value stored for it is. *)
Lemma clamp_unit_keeps_side (x : pyfloat) :
  x ≠ NaN → Qle_bool (1#2) (clamp_unit x) = float_ge x (Fin (1#2)).
Proof.
  destruct x as [c| | |]; [|done..].
  intros _. rewrite clamp_unit_Fin. apply clamp_keeps_side.
Qed.

(** [update_capability], statement by statement. *)
Lemma update_capability_run (domain : string) (confidence : pyfloat)
    (source : string) (e : MetacognitiveEngine) :
  update_capability domain confidence source e =
  let old_value := capability_or (PyNum 0) domain e in
  let metric :=
    {| metric_id := ("MET", clock e); capability_domain := domain;
       metric_name := "confidence"; metric_value := confidence;
       context := [("source", PyStr source); ("previous", old_value)] |} in
  let e1 :=
    set_metrics (_metrics e ++ [metric])
      (set_clock (S (clock e))
         (set_capabilities
            (<[domain := PyNum (clamp_unit confidence)]> (_capabilities e))
            e)) in
  match py_lt old_value (1#2) with
  | Raise x => (e1, Raise x)
  | Ok below =>
      if below && float_ge confidence (Fin (1#2))
      then (notify (λ cb, SkillDiscovered cb domain confidence)
                   (_on_skill_discovered e)
                   (set_skills_discovered (S (_skills_discovered e)) e1), Ok tt)
      else (e1, Ok tt)
  end.
Proof.
  unfold update_capability. se.
  destruct (py_lt _ _) as [b|x]; [|done].
  by destruct (b && _).
Qed.

Lemma update_capability_stored (domain : string) (confidence : pyfloat)
    (source : string) (e : MetacognitiveEngine) :
  _capabilities (update_capability domain confidence source e).1 !! domain
  = Some (PyNum (clamp_unit confidence)).
Proof.
  rewrite update_capability_run. cbn zeta.
  destruct (py_lt _ _) as [b|x]; [destruct (b && _)|]; cbn;
    apply lookup_insert_eq.
Qed.

Lemma fresh_engine_capability (domain : string) :
  get_capability domain fresh_engine = PyNum 0.
Proof.
  unfold get_capability, capability_or.
  destruct (_capabilities fresh_engine !! domain) as [v|] eqn:Hv; [|done].
  cbn. apply elem_of_list_to_map_2 in Hv. cbn in Hv.
  repeat (apply elem_of_cons in Hv as [[= _ <-]|Hv]; [done|]).
  by apply elem_of_nil in Hv.
Qed.


(** *** Threshold crossing *)

Lemma crossed_up_iff (previous : pyval) (stored : Q) :
  crossed_up previous stored = true
  ↔ ∃ p, previous = PyNum p ∧ (p < 1#2)%Q ∧ (1#2 <= stored)%Q.
Proof.
  unfold crossed_up. destruct previous as [p| |].
  - rewrite andb_true_iff, Qlt_bool_iff, Qle_bool_iff. split.
    + intros [??]. by exists p.
    + by intros (? & [= <-] & ? & ?).
  - split; [done|]. by intros (? & ? & _).
  - split; [done|]. by intros (? & ? & _).
Qed.

(** The test the code makes: on the value stored before and on the
    argument, not on the value it has just stored. *)
Lemma update_capability_fires (domain : string) (confidence : pyfloat)
    (source : string) (e : MetacognitiveEngine) :
  let fired := fires (get_capability domain e) confidence in
  let e' := (update_capability domain confidence source e).1 in
  _skills_discovered e' = _skills_discovered e + (if fired then 1 else 0)
  ∧ delivered e'
    = delivered e
      ++ (if fired
          then map (λ cb, SkillDiscovered cb domain confidence)
                   (_on_skill_discovered e)
          else []).
Proof.
  cbn zeta. rewrite update_capability_run. cbn zeta.
  unfold fires, get_capability.
  destruct (capability_or (PyNum 0) domain e) as [p| |]; cbn.
  - destruct (Qlt_bool p (1#2) && float_ge confidence (Fin (1#2))); cbn;
      split; first [lia | by rewrite app_nil_r | done].
  - split; [lia|by rewrite app_nil_r].
  - split; [lia|by rewrite app_nil_r].
Qed.

Lemma fires_crossed_up (previous : pyval) (confidence : pyfloat) :
  confidence ≠ NaN →
  fires previous confidence = crossed_up previous (clamp_unit confidence).
Proof.
  intros Hc. unfold fires, crossed_up. destruct previous; [|done..].
  by rewrite clamp_unit_keeps_side.
Qed.

Lemma update_all_counts (domain : string) (confidences : list pyfloat)
    (e : MetacognitiveEngine) :
  NaN ∉ confidences →
  _skills_discovered (update_all domain confidences e)
  = _skills_discovered e + crossings (get_capability domain e) confidences.
Proof.
  revert e. induction confidences as [|c cs IH]; intros e Hnan;
    cbn [update_all crossings].
  - lia.
  - apply not_elem_of_cons in Hnan as [Hc Hcs]. rewrite IH by done.
    destruct (update_capability_fires domain c "training" e) as [-> _].
    unfold get_capability at 2, capability_or.
    rewrite update_capability_stored, fires_crossed_up by done. cbn. lia.
Qed.

(** C2 (the code at the failing input) -- [update_capability] stores the
    argument clamped to [0,1] and tests the argument itself: the
    notification fires (the counter of discovered skills grows by one and
    every registered callback is called once) exactly when the value stored
    before was below 0.5 and the argument is at least 0.5.  For a number or
    an infinity that is when the stored value crosses 0.5 upward, and over a
    sequence of such updates the counter grows by the number of upward
    crossings: 0.2, 0.6, 0.8 fire once and 0.6, 0.3, 0.6 fire twice.  For
    NaN it is not: the value stored is 1 whatever was stored before, and
    nothing fires, so that on a fresh engine the stored value goes from 0 up
    to 1 with no notification and the crossing is lost for good. *)
Theorem skill_threshold_tests_the_argument (domain : string)
    (confidence : pyfloat) (source : string) (e : MetacognitiveEngine) :
  let previous := get_capability domain e in
  let stored := clamp_unit confidence in
  let e' := (update_capability domain confidence source e).1 in
  _capabilities e' !! domain = Some (PyNum stored)
  ∧ _skills_discovered e'
    = _skills_discovered e + (if fires previous confidence then 1 else 0)
  ∧ delivered e'
    = delivered e
      ++ (if fires previous confidence
          then map (λ cb, SkillDiscovered cb domain confidence)
                   (_on_skill_discovered e)
          else [])
  ∧ match confidence with
    | NaN =>
        stored = 1%Q ∧ fires previous confidence = false
        ∧ (crossed_up previous stored = true
           ↔ ∃ p, previous = PyNum p ∧ (p < 1#2)%Q)
    | _ => fires previous confidence = crossed_up previous stored
    end
  ∧ (∀ confidences,
       NaN ∉ confidences →
       _skills_discovered (update_all domain confidences e)
       = _skills_discovered e + crossings previous confidences)
  ∧ _skills_discovered
      (update_all domain [Fin (2#10); Fin (6#10); Fin (8#10)] fresh_engine) = 1
  ∧ _skills_discovered
      (update_all domain [Fin (6#10); Fin (3#10); Fin (6#10)] fresh_engine) = 2
  ∧ (let e1 := (update_capability domain NaN source watched_engine).1 in
     get_capability domain watched_engine = PyNum 0
     ∧ get_capability domain e1 = PyNum 1
     ∧ crossings (PyNum 0) [NaN] = 1
     ∧ _skills_discovered e1 = 0
     ∧ delivered e1 = []
     ∧ _skills_discovered (update_all domain [NaN; Fin (8#10)] watched_engine)
       = 0).
Proof.
  cbn zeta. split; [apply update_capability_stored|].
  split; [apply update_capability_fires|].
  split; [apply update_capability_fires|].
  split.
  { destruct confidence as [c| | |]; try by apply fires_crossed_up.
    split; [done|]. split.
    { unfold fires. destruct (get_capability _ _); [apply andb_false_r|done..]. }
    rewrite crossed_up_iff. split.
    - intros (p & ? & ? & _). by exists p.
    - intros (p & ? & ?). by exists p. }
  split; [intros cs; apply update_all_counts|].
  assert (Hw : ∀ d, get_capability d watched_engine = PyNum 0).
  { intros d. apply fresh_engine_capability. }
  split.
  { rewrite update_all_counts, fresh_engine_capability; [by vm_compute|].
    by intros [[=]|[[=]|[[=]|[]%elem_of_nil]%elem_of_cons]%elem_of_cons]%elem_of_cons. }
  split.
  { rewrite update_all_counts, fresh_engine_capability; [by vm_compute|].
    by intros [[=]|[[=]|[[=]|[]%elem_of_nil]%elem_of_cons]%elem_of_cons]%elem_of_cons. }
  split; [apply Hw|].
  split.
  { unfold get_capability, capability_or.
    by rewrite update_capability_stored. }
  split; [done|].
  destruct (update_capability_fires domain NaN source watched_engine)
    as [Hcount Hdel].
  cbn zeta in Hcount, Hdel. rewrite Hw in Hcount, Hdel.
  split; [exact Hcount|]. split; [exact Hdel|].
  cbn [update_all].
  destruct (update_capability_fires domain (Fin (8#10)) "training"
              (update_capability domain NaN "training" watched_engine).1)
    as [-> _].
  destruct (update_capability_fires domain NaN "training" watched_engine)
    as [-> _].
  rewrite Hw. unfold get_capability, capability_or.
  by rewrite update_capability_stored.
Qed.

(** *** PLAN *)

Lemma insert_by_severity_perm (g : LearningGap) (l : list LearningGap) :
  insert_by_severity g l ≡ₚ g :: l.
Proof.
  induction l as [|h t IH]; cbn; [done|].
  destruct (Qlt_bool _ _); [|done].
  rewrite IH. apply Permutation_swap.
Qed.

Lemma sorted_by_severity_perm (gaps : list LearningGap) :
  sorted_by_severity gaps ≡ₚ gaps.
Proof.
  induction gaps as [|g t IH]; cbn; [done|].
  fold (sorted_by_severity t). by rewrite insert_by_severity_perm, IH.
Qed.

Lemma insert_by_severity_sorted (g : LearningGap) (l : list LearningGap) :
  StronglySorted (λ g h, (severity h <= severity g)%Q) l →
  StronglySorted (λ g h, (severity h <= severity g)%Q) (insert_by_severity g l).
Proof.
  induction 1 as [|h t Hs IH Hh]; cbn.
  - repeat constructor.
  - destruct (Qlt_bool (severity g) (severity h)) eqn:E.
    + apply Qlt_bool_iff in E. constructor; [done|].
      rewrite insert_by_severity_perm. constructor; [|done].
      by apply Qlt_le_weak.
    + apply Qlt_bool_ge in E. constructor; [by constructor|].
      constructor; [done|].
      eapply Forall_impl; [exact Hh|]. intros k Hk. cbn in *.
      eapply Qle_trans; [exact Hk|exact E].
Qed.

Lemma sorted_by_severity_sorted (gaps : list LearningGap) :
  StronglySorted (λ g h, (severity h <= severity g)%Q) (sorted_by_severity gaps).
Proof.
  induction gaps as [|g t IH]; cbn; [constructor|].
  by apply insert_by_severity_sorted.
Qed.

(** [int(x)] drops the fractional part of [x]. *)
Lemma py_int_truncates (x : Q) : truncation_of x (py_int x).
Proof.
  destruct x as [n d].
  unfold truncation_of, py_int, Qabs, Qle, Qlt, Qmult, Qplus, inject_Z. cbn.
  assert (Hq : (Z.abs (n ÷ Z.pos d) = Z.abs n / Z.pos d)%Z).
  { rewrite <- Z.quot_abs by lia. rewrite (Z.abs_eq (Z.pos d)) by lia.
    apply Z.quot_div_nonneg; lia. }
  rewrite Hq.
  pose proof (Z.mul_div_le (Z.abs n) (Z.pos d) ltac:(lia)).
  pose proof (Z.mul_succ_div_gt (Z.abs n) (Z.pos d) ltac:(lia)).
  split; [lia|]. split; [lia|].
  destruct (Z.le_gt_cases 0 n) as [Hn|Hn].
  - pose proof (Z.quot_pos n (Z.pos d) Hn ltac:(lia)). nia.
  - assert (n ÷ Z.pos d <= 0)%Z.
    { replace n with (- - n)%Z by lia. rewrite Z.quot_opp_l by lia.
      pose proof (Z.quot_pos (-n) (Z.pos d) ltac:(lia) ltac:(lia)). lia. }
    nia.
Qed.

Lemma planned_for_same_capabilities (e e' : MetacognitiveEngine)
    (g : LearningGap) (o : LearningObjective) :
  _capabilities e' = _capabilities e → planned_for e g o → planned_for e' g o.
Proof. unfold planned_for, get_capability, capability_or. by intros ->. Qed.

Lemma has_numeric_same_capabilities (e e' : MetacognitiveEngine)
    (g : LearningGap) :
  _capabilities e' = _capabilities e →
  has_numeric_capability e g → has_numeric_capability e' g.
Proof.
  unfold has_numeric_capability, get_capability, capability_or. by intros ->.
Qed.

Lemma plan_loop_run (gaps : list LearningGap) :
  ∀ (acc : list LearningObjective) (e : MetacognitiveEngine),
    Forall (has_numeric_capability e) gaps →
    ∃ e' objs,
      plan_loop gaps acc e = (e', Ok (acc ++ objs))
      ∧ _objectives e' = _objectives e ++ objs
      ∧ _capabilities e' = _capabilities e
      ∧ Forall2 (planned_for e) gaps objs.
Proof.
  induction gaps as [|g rest IH]; intros acc e Hnum.
  - exists e, []. cbn. rewrite !app_nil_r. by repeat split.
  - apply Forall_cons in Hnum as [[c Hc] Hrest].
    cbn [plan_loop]. se.
    unfold get_capability, capability_or in Hc. unfold capability_or. cbn.
    rewrite Hc. cbn.
    match goal with |- context [plan_loop rest ?a ?s] =>
      destruct (IH a s) as (e' & objs & Hrun & Hobj & Hcap & Hall) end.
    { eapply Forall_impl; [exact Hrest|]. intros k.
      by apply has_numeric_same_capabilities. }
    rewrite Hrun. eexists e', (_ :: objs). split; [by rewrite <- app_assoc|].
    split; [by rewrite Hobj; cbn; rewrite <- app_assoc|].
    split; [done|]. constructor.
    + unfold planned_for, get_capability, capability_or. cbn. rewrite Hc. cbn.
      repeat split; try done; apply py_int_truncates.
    + eapply Forall2_impl; [exact Hall|]. intros k o.
      by apply planned_for_same_capabilities.
Qed.

(** C4 (as amended) -- For every list of gaps whose domains hold a numeric
    capability, PLAN returns objectives for the first five gaps of the list
    sorted by descending severity (all of them when there are fewer), one
    objective a gap and in that order, and appends them to the engine's
    objectives.  Each objective has the domain of its gap, the target value
    current capability + 0.10, and as priority severity × 10 with its
    fractional part dropped (truncated, not rounded). *)
Theorem plan_takes_top_five (gaps : list LearningGap) (e : MetacognitiveEngine) :
  Forall (has_numeric_capability e) gaps →
  ∃ e' objectives,
    _plan gaps e = (e', Ok objectives)
    ∧ _objectives e' = _objectives e ++ objectives
    ∧ length objectives = Nat.min 5 (length gaps)
    ∧ sorted_by_severity gaps ≡ₚ gaps
    ∧ StronglySorted (λ g h, (severity h <= severity g)%Q)
                     (sorted_by_severity gaps)
    ∧ Forall2 (planned_for e) (take 5 (sorted_by_severity gaps)) objectives.
Proof.
  intros Hnum. unfold _plan.
  destruct (plan_loop_run (take 5 (sorted_by_severity gaps)) [] e)
    as (e' & objs & Hrun & Hobj & _ & Hall).
  { apply Forall_take. by rewrite sorted_by_severity_perm. }
  exists e', objs. split; [done|]. split; [done|].
  split.
  { apply Forall2_length in Hall. rewrite <- Hall, length_take.
    by rewrite sorted_by_severity_perm. }
  split; [apply sorted_by_severity_perm|].
  split; [apply sorted_by_severity_sorted|done].
Qed.

(** Seven gaps of severities 0.9 down to 0.3 on a fresh engine. *)
Lemma plan_takes_top_five_of_seven :
  ∃ e' objectives,
    _plan seven_gaps fresh_engine = (e', Ok objectives)
    ∧ _objectives e' = _objectives fresh_engine ++ objectives
    ∧ length objectives = Nat.min 5 (length seven_gaps)
    ∧ sorted_by_severity seven_gaps ≡ₚ seven_gaps
    ∧ StronglySorted (λ g h, (severity h <= severity g)%Q)
                     (sorted_by_severity seven_gaps)
    ∧ Forall2 (planned_for fresh_engine)
              (take 5 (sorted_by_severity seven_gaps)) objectives.
Proof.
  apply (plan_takes_top_five seven_gaps fresh_engine).
  repeat constructor; eexists; vm_compute; reflexivity.
Defined.

(** Of the seven gaps, objectives are made for exactly the first five. *)
Example plan_seven_gaps_domains :
  ∃ e' objectives,
    _plan seven_gaps fresh_engine = (e', Ok objectives)
    ∧ map obj_domain objectives = map gap_domain (take 5 seven_gaps).
Proof. eexists _, _. split; vm_compute; reflexivity. Qed.

(** A gap of severity 5/9 gets priority 5, where rounding 5.55... gives 6. *)
Lemma plan_priority_is_truncated_not_rounded :
  ∃ e' o,
    _plan [gap_of NETWORK_4G_LTE (5#9)] four_tenths_engine = (e', Ok [o])
    ∧ priority o = 5%Z
    ∧ round_half_even (severity (gap_of NETWORK_4G_LTE (5#9)) * 10) = 6%Z.
Proof. eexists _, _. repeat split; vm_compute; reflexivity. Qed.

(** The severity 5/9 is the one REFLECT computes for a confidence of 0.4
    against the target 0.9. *)
Example reflect_four_tenths_severity :
  ∃ e' g rest,
    _reflect four_tenths_engine = (e', Ok (g :: rest))
    ∧ gap_domain g = NETWORK_4G_LTE ∧ (severity g == 5#9)%Q.
Proof. eexists _, _, _. repeat split; vm_compute; reflexivity. Qed.

(** *** ADAPT *)

(** Altering the selected positions one after the other is mapping over the
    list. *)
Lemma alter_positions {A} (p : A → bool) (f : A → A) (l : list A) :
  ∀ pre, foldl (λ l i, alter f i l) (pre ++ l) (positions_from p (length pre) l)
         = pre ++ map (λ x, if p x then f x else x) l.
Proof.
  induction l as [|x t IH]; intros pre; cbn; [done|].
  destruct (p x).
  - cbn. replace (alter f (length pre) (pre ++ x :: t)) with ((pre ++ [f x]) ++ t).
    + specialize (IH (pre ++ [f x])). rewrite length_app, Nat.add_1_r in IH.
      rewrite IH. by rewrite <- app_assoc.
    + rewrite <- app_assoc. cbn.
      rewrite <- (Nat.add_0_r (length pre)) at 1. by rewrite alter_app_r.
  - specialize (IH (pre ++ [x])). rewrite length_app, Nat.add_1_r, <- app_assoc in IH.
    cbn in IH. rewrite IH. by rewrite <- app_assoc.
Qed.

Lemma adapt_loop_run (unresolved : list nat) :
  ∀ (acc : list AdaptationStrategy) (e : MetacognitiveEngine),
    ∃ e' created,
      adapt_loop unresolved acc e = (e', Ok (acc ++ created))
      ∧ _strategies e' = _strategies e ++ created
      ∧ Forall (λ s, is_active s = true) created.
Proof.
  induction unresolved as [|i rest IH]; intros acc e.
  - exists e, []. cbn. by rewrite !app_nil_r.
  - cbn [adapt_loop]. se.
    destruct (_gaps e !! i) as [gap|]; [|apply IH].
    match goal with |- context [if ?b then _ else _] => destruct b end;
      [|apply IH].
    match goal with |- context [adapt_loop rest ?a ?s] =>
      destruct (IH a s) as (e' & created & Hrun & Hstr & Hact) end.
    rewrite Hrun. eexists e', (_ :: created).
    split; [by rewrite <- app_assoc|].
    split; [by rewrite Hstr; cbn; rewrite <- app_assoc|].
    by constructor.
Qed.

Lemma is_failing_iff (s : AdaptationStrategy) :
  is_failing s = true ↔ (success_rate s < 3#10)%Q ∧ 5 < usage_count s.
Proof.
  unfold is_failing. by rewrite andb_true_iff, Qlt_bool_iff, Nat.ltb_lt.
Qed.

(** ADAPT never raises; what it does to the strategies. *)
Lemma adapt_run (e : MetacognitiveEngine) :
  ∃ e' created,
    _adapt e = (e', Ok created)
    ∧ _strategies e' = map reviewed (_strategies e) ++ created
    ∧ Forall (λ s, is_active s = true) created.
Proof.
  unfold _adapt. se.
  match goal with |- context [adapt_loop ?i ?a ?s] =>
    destruct (adapt_loop_run i a s) as (e' & created & Hrun & Hstr & Hact) end.
  exists e', created. split; [exact Hrun|]. split; [|exact Hact].
  rewrite Hstr. cbn. f_equal. unfold positions.
  apply (alter_positions is_failing deactivate (_strategies e) []).
Qed.

(** C5 (as amended) -- ADAPT never raises, and it deactivates a strategy the
    engine holds exactly when the success rate of the strategy is below 0.3
    and its usage count is above 5, that is at least 6: the strategies after
    ADAPT are the former ones, each with [is_active] set to false if it is
    failing in that sense and untouched otherwise, followed by the strategies
    ADAPT has created, which are all active. *)
Theorem adapt_deactivates_failing_strategies (e : MetacognitiveEngine) :
  ∃ e' created,
    _adapt e = (e', Ok created)
    ∧ _strategies e' = map reviewed (_strategies e) ++ created
    ∧ Forall (λ s, is_active s = true) created
    ∧ (∀ s, is_active (reviewed s) = is_active s && negb (is_failing s))
    ∧ (∀ s, is_failing s = true
            ↔ (success_rate s < 3#10)%Q ∧ 5 < usage_count s).
Proof.
  destruct (adapt_run e) as (e' & created & Hrun & Hstr & Hact).
  exists e', created. split; [exact Hrun|]. split; [exact Hstr|].
  split; [exact Hact|]. split; [|apply is_failing_iff].
  intros s. unfold reviewed. destruct (is_failing s); cbn.
  - by rewrite andb_false_r.
  - by rewrite andb_true_r.
Qed.

(** A strategy of success rate 0.2 used exactly five times stays active. *)
Lemma adapt_keeps_strategy_used_five_times :
  ∃ e' created s,
    _adapt five_uses_engine = (e', Ok created)
    ∧ _strategies five_uses_engine = [s]
    ∧ (success_rate s < 3#10)%Q ∧ usage_count s = 5
    ∧ is_active <$> _strategies e' !! 0 = Some true.
Proof. eexists _, _, _. repeat split; vm_compute; reflexivity. Qed.

(** *** What each phase leaves alone *)
Lemma reflect_loop_frame (domains : list (CapabilityDomain * Q)) :
  ∀ (acc : list LearningGap) (e : MetacognitiveEngine),
    ∃ appended,
      db (reflect_loop domains acc e).1 = db e
      ∧ _strategies (reflect_loop domains acc e).1 = _strategies e
      ∧ _objectives (reflect_loop domains acc e).1 = _objectives e
      ∧ _learning_cycles (reflect_loop domains acc e).1 = _learning_cycles e
      ∧ _gaps (reflect_loop domains acc e).1 = _gaps e ++ appended
      ∧ match (reflect_loop domains acc e).2 with
        | Ok gaps => gaps = acc ++ appended
        | Raise _ => True
        end.
Proof.
  induction domains as [|[domain target] rest IH]; intros acc e.
  - exists []. cbn. by rewrite !app_nil_r.
  - cbn [reflect_loop]. se.
    destruct (py_lt _ _) as [[]|x]; cbn.
    + destruct (py_rsub _ _) as [diff|x]; cbn.
      * match goal with |- context [reflect_loop rest ?a ?s] =>
          destruct (IH a s) as (app & Hdb & Hs & Ho & Hc & Hg & Hr) end.
        eexists (_ :: app).
        rewrite Hdb, Hs, Ho, Hc, Hg. cbn. rewrite <- app_assoc.
        repeat split; try done.
        destruct (reflect_loop rest _ _).2; [|done]. by rewrite Hr, <- app_assoc.
      * exists []. by rewrite app_nil_r.
    + apply IH.
    + exists []. by rewrite app_nil_r.
Qed.

Lemma plan_loop_frame (gaps : list LearningGap) :
  ∀ (acc : list LearningObjective) (e : MetacognitiveEngine),
    ∃ appended,
      db (plan_loop gaps acc e).1 = db e
      ∧ _strategies (plan_loop gaps acc e).1 = _strategies e
      ∧ _gaps (plan_loop gaps acc e).1 = _gaps e
      ∧ _learning_cycles (plan_loop gaps acc e).1 = _learning_cycles e
      ∧ _objectives (plan_loop gaps acc e).1 = _objectives e ++ appended
      ∧ match (plan_loop gaps acc e).2 with
        | Ok objs => objs = acc ++ appended
        | Raise _ => True
        end.
Proof.
  induction gaps as [|g rest IH]; intros acc e.
  - exists []. cbn. by rewrite !app_nil_r.
  - cbn [plan_loop]. se.
    destruct (py_add _ _) as [target|x]; cbn.
    + match goal with |- context [plan_loop rest ?a ?s] =>
        destruct (IH a s) as (app & Hdb & Hs & Hg & Hc & Ho & Hr) end.
      eexists (_ :: app).
      rewrite Hdb, Hs, Hg, Hc, Ho. cbn. rewrite <- app_assoc.
      repeat split; try done.
      destruct (plan_loop rest _ _).2; [|done]. by rewrite Hr, <- app_assoc.
    + exists []. by rewrite app_nil_r.
Qed.

Lemma evaluated_from_refl (o : LearningObjective) : evaluated_from o o.
Proof. by left. Qed.

Lemma evaluated_from_trans (o1 o2 o3 : LearningObjective) :
  evaluated_from o1 o2 → evaluated_from o2 o3 → evaluated_from o1 o3.
Proof.
  intros [->| ->] [->| ->]; [by left|by right|by right|by right].
Qed.

Lemma evaluate_loop_frame (positions : list nat) :
  ∀ (ev : Evaluation) (e : MetacognitiveEngine),
    db (evaluate_loop positions ev e).1 = db e
    ∧ _strategies (evaluate_loop positions ev e).1 = _strategies e
    ∧ _gaps (evaluate_loop positions ev e).1 = _gaps e
    ∧ _learning_cycles (evaluate_loop positions ev e).1 = _learning_cycles e
    ∧ Forall2 evaluated_from (_objectives e) (_objectives (evaluate_loop positions ev e).1).
Proof.
  induction positions as [|i rest IH]; intros ev e.
  - cbn. repeat split. apply Forall_Forall2_diag, Forall_forall. intros; apply evaluated_from_refl.
  - cbn [evaluate_loop]. se.
    destruct (_objectives e !! i) as [obj|] eqn:Hi; [|apply IH].
    destruct (is_achieved obj); [apply IH|].
    destruct (py_ge _ _) as [[]|x]; cbn.
    + match goal with |- context [evaluate_loop rest ?a ?s] =>
        destruct (IH a s) as (Hdb & Hs & Hg & Hc & Ho) end.
      rewrite Hdb, Hs, Hg, Hc. repeat split.
      eapply Forall2_trans; [apply evaluated_from_trans| |exact Ho].
      cbn. apply Forall2_same_length_lookup_2; [by rewrite length_insert|].
      intros j o o' Hj Hj'.
      destruct (decide (i = j)) as [->|Hne].
      * rewrite list_lookup_insert_eq in Hj' by by eapply lookup_lt_Some.
        right. congruence.
      * rewrite list_lookup_insert_ne in Hj' by done. left. congruence.
    + apply IH.
    + repeat split. apply Forall_Forall2_diag, Forall_forall. intros; apply evaluated_from_refl.
Qed.

(** *** Persistence and the cycle *)

Lemma insert_or_ignore_keeps (tbl : gmap ident PerformanceMetric)
    (m : PerformanceMetric) (k : ident) :
  is_Some (tbl !! k) → is_Some (insert_or_ignore tbl m !! k).
Proof.
  unfold insert_or_ignore. destruct (tbl !! metric_id m) eqn:E; [done|].
  intros Hk. destruct (decide (metric_id m = k)) as [->|Hne].
  - by rewrite lookup_insert_eq.
  - by rewrite lookup_insert_ne.
Qed.

Lemma insert_or_ignore_has (tbl : gmap ident PerformanceMetric)
    (m : PerformanceMetric) :
  is_Some (insert_or_ignore tbl m !! metric_id m).
Proof.
  unfold insert_or_ignore. destruct (tbl !! metric_id m) eqn:E; [by rewrite E|].
  by rewrite lookup_insert_eq.
Qed.

Lemma foldl_insert_or_ignore_keeps (ms : list PerformanceMetric) :
  ∀ (tbl : gmap ident PerformanceMetric) (k : ident),
  is_Some (tbl !! k) → is_Some (foldl insert_or_ignore tbl ms !! k).
Proof.
  induction ms as [|m ms IH]; intros tbl k Hk; cbn; [done|].
  by apply IH, insert_or_ignore_keeps.
Qed.

Lemma foldl_insert_or_ignore_all (ms : list PerformanceMetric) :
  ∀ tbl : gmap ident PerformanceMetric,
  Forall (λ m, is_Some (foldl insert_or_ignore tbl ms !! metric_id m)) ms.
Proof.
  induction ms as [|m ms IH]; intros tbl; cbn; constructor.
  - apply foldl_insert_or_ignore_keeps, insert_or_ignore_has.
  - apply IH.
Qed.

Lemma save_state_persisted (e : MetacognitiveEngine) : persisted (_save_state e).
Proof.
  split; cbn.
  - apply map_union_subseteq_l.
  - apply foldl_insert_or_ignore_all.
Qed.

(** *** REFLECT *)

Lemma numeric_get (e : MetacognitiveEngine) (d : string) :
  numeric_capabilities e → ∃ c, get_capability d e = PyNum c.
Proof.
  intros Hn. unfold get_capability, capability_or.
  destruct (_capabilities e !! d) as [v|] eqn:E; cbn; [by eapply Hn|by eexists].
Qed.

Lemma reflected_same (e e' : MetacognitiveEngine) (dt : CapabilityDomain * Q)
    (g : LearningGap) :
  _capabilities e' = _capabilities e → reflected e dt g → reflected e' dt g.
Proof. unfold reflected, get_capability, capability_or. by intros ->. Qed.

Lemma is_below_same (e e' : MetacognitiveEngine) (dt : CapabilityDomain * Q) :
  _capabilities e' = _capabilities e → is_below e' dt = is_below e dt.
Proof. unfold is_below, get_capability, capability_or. by intros ->. Qed.

Lemma filter_is_below_same (e e' : MetacognitiveEngine)
    (l : list (CapabilityDomain * Q)) :
  _capabilities e' = _capabilities e →
  filter (λ dt, is_below e' dt = true) l = filter (λ dt, is_below e dt = true) l.
Proof.
  intros Hc. induction l as [|dt l IH]; [done|].
  rewrite !filter_cons, IH, (is_below_same e e' dt Hc). done.
Qed.

Lemma reflect_loop_run (domains : list (CapabilityDomain * Q)) :
  ∀ (acc : list LearningGap) (e : MetacognitiveEngine),
    numeric_capabilities e →
    ∃ e' gaps,
      reflect_loop domains acc e = (e', Ok (acc ++ gaps))
      ∧ _gaps e' = _gaps e ++ gaps
      ∧ Forall2 (reflected e) (filter (λ dt, is_below e dt = true) domains) gaps
      ∧ delivered e'
        = delivered e
          ++ flat_map (λ g, map (λ cb, GapIdentified cb g) (_on_gap_identified e))
                      gaps
      ∧ _capabilities e' = _capabilities e
      ∧ _on_gap_identified e' = _on_gap_identified e
      ∧ _objectives e' = _objectives e
      ∧ _strategies e' = _strategies e
      ∧ _metrics e' = _metrics e
      ∧ db e' = db e.
Proof.
  induction domains as [|[domain target] rest IH]; intros acc e Hn.
  - exists e, []. cbn. rewrite !app_nil_r. repeat split; constructor.
  - cbn [reflect_loop]. se.
    destruct (numeric_get e (value domain) Hn) as [c Hc].
    assert (Hb : is_below e (domain, target) = Qlt_bool c target).
    { unfold is_below. cbn. by rewrite Hc. }
    unfold get_capability in Hc. rewrite Hc, Hb. cbn.
    destruct (Qlt_bool c target) eqn:Hlt; cbn.
    + match goal with |- context [reflect_loop rest ?a ?s] =>
        destruct (IH a s) as (e' & gaps & Hrun & Hg & Hall & Hdel & Hcap & Hcb
                              & Ho & Hs & Hm & Hdb); [exact Hn|] end.
      rewrite Hrun. eexists e', (_ :: gaps).
      split; [by rewrite <- app_assoc|].
      split; [by rewrite Hg; cbn; rewrite <- app_assoc|].
      split.
      { constructor.
        - split; [done|]. split; [|done]. exists c. cbn.
          split; [exact Hc|]. split; [by apply Qlt_bool_iff|done].
        - rewrite (filter_is_below_same e) in Hall by done.
          eapply Forall2_impl; [exact Hall|]. intros dt g.
          by apply reflected_same. }
      split; [by rewrite Hdel; cbn; rewrite <- app_assoc|].
      by repeat split.
    + by apply IH.
Qed.

(** X1 -- On an engine whose stored capabilities are all numbers, REFLECT
    does not raise: it returns one gap for each priority domain whose
    capability is below its target, in the order of the list, with severity
    (target - current) / target, no attempt and unresolved; it appends
    exactly these gaps to the engine's, calls every gap callback once a gap,
    and changes no capability. *)
Theorem reflect_finds_gaps_below_target (e : MetacognitiveEngine) :
  numeric_capabilities e →
  ∃ e' gaps,
    _reflect e = (e', Ok gaps)
    ∧ _gaps e' = _gaps e ++ gaps
    ∧ Forall2 (reflected e)
              (filter (λ dt, is_below e dt = true) priority_domains) gaps
    ∧ delivered e'
      = delivered e
        ++ flat_map (λ g, map (λ cb, GapIdentified cb g) (_on_gap_identified e))
                    gaps
    ∧ _capabilities e' = _capabilities e.
Proof.
  intros Hn. unfold _reflect.
  destruct (reflect_loop_run priority_domains [] e Hn)
    as (e' & gaps & Hrun & Hg & Hall & Hdel & Hcap & _).
  by exists e', gaps.
Qed.

Lemma fresh_engine_numeric : numeric_capabilities fresh_engine.
Proof.
  intros d v Hv. apply elem_of_list_to_map_2 in Hv. cbn in Hv.
  repeat (apply elem_of_cons in Hv as [[= _ ->]|Hv]; [eexists; reflexivity|]).
  by apply elem_of_nil in Hv.
Qed.

(** REFLECT on an engine that has just been built. *)
Lemma reflect_on_fresh_engine :
  ∃ e' gaps,
    _reflect fresh_engine = (e', Ok gaps)
    ∧ _gaps e' = _gaps fresh_engine ++ gaps
    ∧ Forall2 (reflected fresh_engine)
              (filter (λ dt, is_below fresh_engine dt = true) priority_domains) gaps
    ∧ delivered e'
      = delivered fresh_engine
        ++ flat_map (λ g, map (λ cb, GapIdentified cb g)
                              (_on_gap_identified fresh_engine))
                    gaps
    ∧ _capabilities e' = _capabilities fresh_engine.
Proof.
  apply (reflect_finds_gaps_below_target fresh_engine), fresh_engine_numeric.
Defined.

(** *** EVALUATE *)




Lemma evaluate_loop_cons (i : nat) (rest : list nat) (ev : Evaluation)
    (e : MetacognitiveEngine) :
  evaluate_loop (i :: rest) ev e
  = match _objectives e !! i with
    | None => evaluate_loop rest ev e
    | Some obj =>
        if is_achieved obj then evaluate_loop rest ev e
        else
          match py_ge (capability_or (PyNum 0) (value (obj_domain obj)) e)
                      (target_value obj) with
          | Raise x => (e, Raise x)
          | Ok true =>
              evaluate_loop rest
                {| total_objectives := total_objectives ev;
                   achieved := S (achieved ev);
                   in_progress := in_progress ev |}
                (set_objectives (<[i := mark_achieved obj]> (_objectives e)) e)
          | Ok false =>
              evaluate_loop rest
                {| total_objectives := total_objectives ev;
                   achieved := achieved ev;
                   in_progress := S (in_progress ev) |} e
          end
    end.
Proof.
  cbn [evaluate_loop]. se.
  destruct (_objectives e !! i) as [obj|]; [|done].
  destruct (is_achieved obj); [done|].
  by destruct (py_ge _ _) as [[]|x].
Qed.

Lemma counts_cons (caps : gmap string pyval) (o : LearningObjective)
    (l : list LearningObjective) :
  newly_achieved caps (o :: l)
  = (if negb (is_achieved o) && reached caps o then 1 else 0)
    + newly_achieved caps l
  ∧ still_open caps (o :: l)
    = (if negb (is_achieved o) && negb (reached caps o) then 1 else 0)
      + still_open caps l.
Proof.
  unfold newly_achieved, still_open. rewrite !filter_cons.
  destruct (is_achieved o), (reached caps o); cbn;
    repeat case_decide; cbn; split; try done;
    repeat match goal with
           | H : _ ∧ _ |- _ => destruct H
           | H : ¬ (_ ∧ _) |- _ => exfalso; apply H; by split
           end; congruence.
Qed.

Lemma evaluate_loop_run (post : list LearningObjective) :
  ∀ (pre : list LearningObjective) (ev : Evaluation) (e : MetacognitiveEngine),
    numeric_capabilities e →
    _objectives e = pre ++ post →
    ∃ e' ev',
      evaluate_loop (seq (length pre) (length post)) ev e = (e', Ok ev')
      ∧ _objectives e' = pre ++ map (evaluated (_capabilities e)) post
      ∧ total_objectives ev' = total_objectives ev
      ∧ achieved ev' = achieved ev + newly_achieved (_capabilities e) post
      ∧ in_progress ev' = in_progress ev + still_open (_capabilities e) post
      ∧ _capabilities e' = _capabilities e
      ∧ _gaps e' = _gaps e
      ∧ _strategies e' = _strategies e
      ∧ _metrics e' = _metrics e
      ∧ db e' = db e.
Proof.
  induction post as [|o post IH]; intros pre ev e Hn Hobjs.
  - exists e, ev. rewrite Hobjs. unfold newly_achieved, still_open.
    cbn. rewrite !Nat.add_0_r. by repeat split.
  - cbn [length seq]. rewrite evaluate_loop_cons.
    assert (Hi : _objectives e !! length pre = Some o).
    { rewrite Hobjs. by apply list_lookup_middle. }
    rewrite Hi.
    assert (Hnext : ∀ x, pre ++ x :: post = (pre ++ [x]) ++ post)
      by (intros; by rewrite <- app_assoc).
    assert (Hlen : ∀ x : LearningObjective, S (length pre) = length (pre ++ [x]))
      by (intros; rewrite length_app; cbn; lia).
    destruct (counts_cons (_capabilities e) o post) as [-> ->].
    rewrite map_cons. unfold evaluated at 1.
    destruct (is_achieved o) eqn:Ha.
    + rewrite (Hlen o).
      destruct (IH (pre ++ [o]) ev e Hn) as (e' & ev' & Hrun & Ho & Hrest).
      { by rewrite Hobjs, Hnext. }
      rewrite Hrun. exists e', ev'. split; [done|].
      rewrite Ho, <- app_assoc. done.
    + destruct (numeric_get e (value (obj_domain o)) Hn) as [c Hc].
      unfold get_capability in Hc. rewrite Hc.
      unfold reached. unfold capability_or in Hc. rewrite Hc. cbn [py_ge negb andb].
      destruct (Qle_bool (target_value o) c) eqn:Hr.
      * rewrite (Hlen (mark_achieved o)).
        match goal with |- context [evaluate_loop _ ?a ?s] =>
          destruct (IH (pre ++ [mark_achieved o]) a s Hn)
            as (e' & ev' & Hrun & Ho & Ht & Hac & Hin & Hrest) end.
        { cbn. rewrite Hobjs. rewrite <- Hnext.
          rewrite <- (Nat.add_0_r (length pre)). by rewrite insert_app_r. }
        rewrite Hrun. exists e', ev'. split; [done|].
        rewrite Ho, <- app_assoc. cbn in *.
        split; [done|]. split; [done|]. split; [lia|]. split; [lia|]. done.
      * rewrite (Hlen o).
        match goal with |- context [evaluate_loop _ ?a ?s] =>
          destruct (IH (pre ++ [o]) a s Hn)
            as (e' & ev' & Hrun & Ho & Ht & Hac & Hin & Hrest) end.
        { by rewrite Hobjs, Hnext. }
        rewrite Hrun. exists e', ev'. split; [done|].
        rewrite Ho, <- app_assoc. cbn in *.
        split; [done|]. split; [done|]. split; [lia|]. split; [lia|]. done.
Qed.



(** *** ADAPT: attempts and strategies *)



#[local] Arguments total_attempts : simpl never.

Lemma adapt_loop_cons (i : nat) (rest : list nat)
    (acc : list AdaptationStrategy) (e : MetacognitiveEngine) :
  adapt_loop (i :: rest) acc e
  = match _gaps e !! i with
    | None => adapt_loop rest acc e
    | Some gap =>
        if (resolution_attempts gap <? 3)%nat then
          let attempts := inject_Z (Z.of_nat (resolution_attempts gap)) in
          let strategy :=
            {| strategy_id := ("STR", clock e);
               name := "Adaptive_" +:+ value (gap_domain gap);
               str_description :=
                 "Auto-generated strategy for " +:+ value (gap_domain gap);
               parameters :=
                 {| learning_rate_multiplier := (1 + attempts * (1#2))%Q;
                    batch_size_multiplier := (1 + attempts * (1#4))%Q;
                    epochs_multiplier := (1 + attempts * (1#2))%Q;
                    target_domain := value (gap_domain gap) |};
               success_rate := 0; usage_count := 0; is_active := true |} in
          adapt_loop rest (acc ++ [strategy])
            (notify (λ cb, Adaptation cb strategy) (_on_adaptation e)
               (set_adaptations (S (_adaptations e))
                  (set_gaps (<[i := add_attempt gap]> (_gaps e))
                     (set_strategies (_strategies e ++ [strategy])
                        (set_clock (S (clock e)) e)))))
        else adapt_loop rest acc e
    end.
Proof.
  cbn [adapt_loop]. se.
  destruct (_gaps e !! i) as [gap|]; [|done].
  match goal with |- context [if ?b then _ else _] => by destruct b end.
Qed.

Lemma total_attempts_insert (gs : list LearningGap) (i : nat) (g : LearningGap) :
  gs !! i = Some g →
  total_attempts (<[i := add_attempt g]> gs) = S (total_attempts gs).
Proof.
  revert i. induction gs as [|h t IH]; intros [|i] Hi; try done.
  - cbn in Hi. injection Hi as ->. unfold total_attempts. cbn. lia.
  - cbn in Hi. specialize (IH i Hi). unfold total_attempts in *.
    change (<[S i := add_attempt g]> (h :: t)) with (h :: <[i := add_attempt g]> t).
    cbn [map sum_list]. lia.
Qed.

Lemma attempted_insert (gs : list LearningGap) (i : nat) (g : LearningGap) :
  gs !! i = Some g → is_resolved g = false → resolution_attempts g < 3 →
  Forall2 attempted gs (<[i := add_attempt g]> gs).
Proof.
  intros Hi Hr Ha. apply Forall2_same_length_lookup_2; [by rewrite length_insert|].
  intros j x y Hx Hy. destruct (decide (i = j)) as [->|Hne].
  - rewrite list_lookup_insert_eq in Hy by by eapply lookup_lt_Some.
    right. split; [congruence|]. split; congruence.
  - rewrite list_lookup_insert_ne in Hy by done. left. congruence.
Qed.

Lemma positions_from_ge {A} (p : A → bool) (l : list A) :
  ∀ k, Forall (λ i, k ≤ i) (positions_from p k l).
Proof.
  induction l as [|x l IH]; intros k; cbn; [constructor|].
  assert (Forall (λ i, k ≤ i) (positions_from p (S k) l)).
  { eapply Forall_impl; [apply IH|]. intros; cbn in *; lia. }
  destruct (p x); [by constructor|done].
Qed.

Lemma positions_from_NoDup {A} (p : A → bool) (l : list A) :
  ∀ k, NoDup (positions_from p k l).
Proof.
  induction l as [|x l IH]; intros k; cbn; [constructor|].
  destruct (p x); [|done]. constructor; [|done]. intros Hin.
  pose proof (positions_from_ge p l (S k)) as Hge.
  rewrite Forall_forall in Hge. specialize (Hge _ Hin). lia.
Qed.

Lemma positions_from_lookup {A} (p : A → bool) (P : A → Prop)
    `{!∀ x, Decision (P x)} (l : list A) :
  (∀ x, p x = true ↔ P x) →
  ∀ pre,
    Forall2 (λ i x, (pre ++ l) !! i = Some x)
            (positions_from p (length pre) l) (filter P l).
Proof.
  intros Hp. induction l as [|x l IH]; intros pre; cbn [positions_from];
    [constructor|].
  specialize (IH (pre ++ [x])).
  rewrite length_app, Nat.add_1_r, <- app_assoc in IH. cbn in IH.
  rewrite filter_cons. destruct (p x) eqn:Hpx.
  - rewrite decide_True by by apply Hp.
    constructor; [by apply list_lookup_middle|done].
  - rewrite decide_False; [done|]. intros HP%Hp. congruence.
Qed.

Lemma unresolved_positions (gs : list LearningGap) :
  NoDup (positions (λ g, negb (is_resolved g)) gs)
  ∧ Forall2 (λ i g, gs !! i = Some g)
            (positions (λ g, negb (is_resolved g)) gs)
            (filter (λ g, is_resolved g = false) gs).
Proof.
  split; [apply positions_from_NoDup|].
  apply (positions_from_lookup (λ g, negb (is_resolved g))
           (λ g, is_resolved g = false) gs) with (pre := []).
  intros g. by destruct (is_resolved g).
Qed.

Lemma adapt_loop_accounts (unresolved : list nat) :
  ∀ (acc : list AdaptationStrategy) (e : MetacognitiveEngine),
    NoDup unresolved →
    Forall (λ i, ∃ g, _gaps e !! i = Some g ∧ is_resolved g = false) unresolved →
    ∃ e' created,
      adapt_loop unresolved acc e = (e', Ok (acc ++ created))
      ∧ length created ≤ length unresolved
      ∧ _adaptations e' = _adaptations e + length created
      ∧ total_attempts (_gaps e') = total_attempts (_gaps e) + length created
      ∧ length (_gaps e') = length (_gaps e)
      ∧ (∀ j g, _gaps e !! j = Some g →
           ∃ g', _gaps e' !! j = Some g' ∧ attempted g g'
                 ∧ (j ∉ unresolved → g' = g))
      ∧ Forall (λ s, ∃ j g, j ∈ unresolved ∧ _gaps e !! j = Some g
                            ∧ resolution_attempts g < 3 ∧ strategy_for g s)
               created
      ∧ _capabilities e' = _capabilities e
      ∧ _objectives e' = _objectives e
      ∧ _metrics e' = _metrics e
      ∧ db e' = db e
      ∧ _on_adaptation e' = _on_adaptation e
      ∧ delivered e'
        = delivered e
          ++ flat_map (λ s, map (λ cb, Adaptation cb s) (_on_adaptation e))
                      created.
Proof.
  induction unresolved as [|i rest IH]; intros acc e Hnd Hall.
  - exists e, []. cbn. rewrite !app_nil_r, !Nat.add_0_r.
    repeat split; try done. intros j g Hj. exists g.
    split; [done|]. split; [by left|done].
  - apply NoDup_cons in Hnd as [Hi Hnd].
    apply Forall_cons in Hall as [(gap & Hgap & Hres) Hall].
    rewrite adapt_loop_cons, Hgap.
    destruct (resolution_attempts gap <? 3)%nat eqn:Hlt.
    + apply Nat.ltb_lt in Hlt. cbn zeta.
      match goal with |- context [adapt_loop rest ?a ?s] =>
        destruct (IH a s Hnd)
          as (e' & created & Hrun & Hlen & Hcount & Htot & Hglen & Hlook
              & Hstr & Hcap & Hobj & Hmet & Hdb & Hcb & Hdel) end.
      { rewrite Forall_forall in Hall. apply Forall_forall. intros j Hj.
        destruct (Hall j Hj) as (g & Hg & Hr). exists g. split; [|done].
        cbn. rewrite list_lookup_insert_ne; [done|]. intros ->. done. }
      cbn in Hcount, Htot, Hglen, Hlook, Hstr, Hcap, Hobj, Hmet, Hdb, Hcb, Hdel.
      rewrite Hrun. eexists e', (_ :: created).
      split; [by rewrite <- app_assoc|].
      split; [cbn; lia|]. split; [cbn; lia|].
      split; [rewrite Htot, (total_attempts_insert _ _ _ Hgap); cbn; lia|].
      split; [by rewrite Hglen, length_insert|].
      split.
      { intros j g Hj. destruct (decide (i = j)) as [->|Hne].
        - destruct (Hlook j (add_attempt gap)) as (g' & Hg' & Hatt & Hsame).
          { apply list_lookup_insert_eq. by eapply lookup_lt_Some. }
          exists g'. split; [done|]. rewrite (Hsame Hi).
          split.
          + right. split; [congruence|]. split; congruence.
          + intros Hn. exfalso. apply Hn. apply elem_of_cons. by left.
        - destruct (Hlook j g) as (g' & Hg' & Hatt & Hsame).
          { by rewrite list_lookup_insert_ne. }
          exists g'. split; [done|]. split; [done|].
          intros Hn. apply Hsame. intros Hin. apply Hn, elem_of_cons. by right. }
      split.
      { constructor.
        - exists i, gap. split; [apply elem_of_cons; by left|].
          split; [done|]. split; [done|]. by repeat split.
        - eapply Forall_impl; [exact Hstr|]. cbn.
          intros s (j & g & Hin & Hj & Ha & Hs).
          exists j, g. split; [apply elem_of_cons; by right|].
          split; [|done]. rewrite list_lookup_insert_ne in Hj; [done|].
          intros ->. done. }
      split; [done|]. split; [done|]. split; [done|]. split; [done|].
      split; [done|]. rewrite Hdel. cbn. by rewrite <- app_assoc.
    + destruct (IH acc e Hnd Hall)
        as (e' & created & Hrun & Hlen & Hcount & Htot & Hglen & Hlook
            & Hstr & Hframe).
      rewrite Hrun. exists e', created. split; [done|].
      split; [cbn; lia|]. split; [done|]. split; [done|]. split; [done|].
      split.
      { intros j g Hj. destruct (Hlook j g Hj) as (g' & Hg' & Hatt & Hsame).
        exists g'. split; [done|]. split; [done|].
        intros Hn. apply Hsame. intros Hin. apply Hn, elem_of_cons. by right. }
      split; [|done].
      eapply Forall_impl; [exact Hstr|]. cbn.
      intros s (j & g & Hin & Hrest). exists j, g.
      split; [apply elem_of_cons; by right|done].
Qed.


Lemma adapt_loop_exhausted (unresolved : list nat) :
  ∀ (acc : list AdaptationStrategy) (e : MetacognitiveEngine),
    Forall (λ i, ∀ g, _gaps e !! i = Some g → 3 ≤ resolution_attempts g)
           unresolved →
    adapt_loop unresolved acc e = (e, Ok acc).
Proof.
  induction unresolved as [|i rest IH]; intros acc e Hall; [done|].
  apply Forall_cons in Hall as [Hi Hall]. rewrite adapt_loop_cons.
  destruct (_gaps e !! i) as [gap|] eqn:Hgap; [|by apply IH].
  specialize (Hi gap eq_refl).
  destruct (resolution_attempts gap <? 3)%nat eqn:Hlt; [|by apply IH].
  apply Nat.ltb_lt in Hlt. lia.
Qed.

(** X5 -- ADAPT only looks at the first three unresolved gaps: when each of
    them has had three attempts, it creates no strategy, changes no gap and
    calls no callback, whatever unresolved gaps come after them. *)
Theorem adapt_stops_at_three_exhausted_gaps (e : MetacognitiveEngine) :
  Forall (λ g, 3 ≤ resolution_attempts g) (take 3 (get_unresolved_gaps e)) →
  ∃ e',
    _adapt e = (e', Ok [])
    ∧ _gaps e' = _gaps e
    ∧ _adaptations e' = _adaptations e
    ∧ delivered e' = delivered e.
Proof.
  intros Hex. unfold _adapt. se.
  destruct (unresolved_positions (_gaps e)) as [_ Hpos].
  rewrite adapt_loop_exhausted; [by eexists|].
  cbn. apply Forall_forall. intros i Hi g Hg.
  apply list_elem_of_lookup in Hi as [n Hn].
  assert (Hchosen := Forall2_take _ _ _ 3 Hpos).
  destruct (Forall2_lookup_l _ _ _ _ _ Hchosen Hn) as (g0 & Hg0 & Hig).
  cbn in Hig. assert (g0 = g) as -> by congruence.
  rewrite Forall_forall in Hex. apply Hex. by eapply list_elem_of_lookup_2.
Qed.

(** *** What a cycle leaves alone *)
Lemma reflect_loop_capabilities (domains : list (CapabilityDomain * Q)) :
  ∀ (acc : list LearningGap) (e : MetacognitiveEngine),
    _capabilities (reflect_loop domains acc e).1 = _capabilities e.
Proof.
  induction domains as [|[domain target] rest IH]; intros acc e; [done|].
  cbn [reflect_loop]. se.
  destruct (py_lt _ _) as [[]|x]; cbn; [|apply IH|done].
  destruct (py_rsub _ _) as [diff|x]; cbn; [|done].
  by rewrite IH.
Qed.

Lemma plan_loop_capabilities (gaps : list LearningGap) :
  ∀ (acc : list LearningObjective) (e : MetacognitiveEngine),
    _capabilities (plan_loop gaps acc e).1 = _capabilities e.
Proof.
  induction gaps as [|g rest IH]; intros acc e; [done|].
  cbn [plan_loop]. se.
  destruct (py_add _ _) as [target|x]; cbn; [|done].
  by rewrite IH.
Qed.

Lemma evaluate_loop_capabilities (positions : list nat) :
  ∀ (ev : Evaluation) (e : MetacognitiveEngine),
    _capabilities (evaluate_loop positions ev e).1 = _capabilities e.
Proof.
  induction positions as [|i rest IH]; intros ev e; [done|].
  rewrite evaluate_loop_cons.
  destruct (_objectives e !! i) as [obj|]; [|apply IH].
  destruct (is_achieved obj); [apply IH|].
  destruct (py_ge _ _) as [[]|x]; [by rewrite IH|apply IH|done].
Qed.

Lemma adapt_loop_capabilities (unresolved : list nat) :
  ∀ (acc : list AdaptationStrategy) (e : MetacognitiveEngine),
    _capabilities (adapt_loop unresolved acc e).1 = _capabilities e.
Proof.
  induction unresolved as [|i rest IH]; intros acc e; [done|].
  rewrite adapt_loop_cons.
  destruct (_gaps e !! i) as [gap|]; [|apply IH].
  destruct (resolution_attempts gap <? 3)%nat; [|apply IH].
  cbn zeta. by rewrite IH.
Qed.

(** X7 -- A cycle never changes a stored capability, whether it ends with
    an error or not: only [update_capability] writes them. *)
Theorem run_cycle_keeps_capabilities (training_data : option pyval)
    (e : MetacognitiveEngine) :
  _capabilities (run_cycle training_data e).1 = _capabilities e.
Proof.
  unfold run_cycle, _reflect, _plan, _evaluate, _adapt. cbn zeta.
  match goal with |- context [reflect_loop ?d ?a ?s] =>
    pose proof (reflect_loop_capabilities d a s) as H1;
    destruct (reflect_loop d a s) as [e1 [gaps|x]] end; cbn in H1; [|done].
  match goal with |- context [plan_loop ?d ?a ?s] =>
    pose proof (plan_loop_capabilities d a s) as H2;
    destruct (plan_loop d a s) as [e2 [objs|x]] end;
    cbn in H2; rewrite H1 in H2; [|done].
  destruct training_data as [data|].
  - se.
    match goal with |- context [evaluate_loop ?d ?a ?s] =>
      pose proof (evaluate_loop_capabilities d a s) as H3;
      destruct (evaluate_loop d a s) as [e3 [ev|x]] end;
      cbn in H3; rewrite H2 in H3; [|done].
    match goal with |- context [adapt_loop ?d ?a ?s] =>
      pose proof (adapt_loop_capabilities d a s) as H4;
      destruct (adapt_loop d a s) as [e4 [ad|x]] end;
      cbn in H4; rewrite H3 in H4; done.
  - se.
    match goal with |- context [adapt_loop ?d ?a ?s] =>
      pose proof (adapt_loop_capabilities d a s) as H4;
      destruct (adapt_loop d a s) as [e4 [ad|x]] end;
      cbn in H4; rewrite H2 in H4; done.
Qed.

Lemma numeric_same_capabilities (e e' : MetacognitiveEngine) :
  _capabilities e' = _capabilities e →
  numeric_capabilities e → numeric_capabilities e'.
Proof. unfold numeric_capabilities. by intros ->. Qed.

Lemma numeric_has_numeric (e : MetacognitiveEngine) (gaps : list LearningGap) :
  numeric_capabilities e → Forall (has_numeric_capability e) gaps.
Proof.
  intros Hn. apply Forall_forall. intros g _. by apply numeric_get.
Qed.

Theorem run_cycle_succeeds_on_numeric_capabilities
    (training_data : option pyval) (e : MetacognitiveEngine) :
  numeric_capabilities e →
  ∃ e' r,
    run_cycle training_data e = (e', r)
    ∧ error r = None
    ∧ persisted e'
    ∧ Forall2 (reflected e)
              (filter (λ dt, is_below e dt = true) priority_domains)
              (gaps_identified r)
    ∧ length (objectives_created r) = 5 `min` length (gaps_identified r)
    ∧ (is_Some (evaluation r) ↔ is_Some training_data).
Proof.
  intros Hn. unfold run_cycle, _reflect, _plan. cbn zeta.
  match goal with |- context [reflect_loop ?d ?a ?s] =>
    destruct (reflect_loop_run d a s)
      as (e1 & gaps & Hrun1 & _ & Hgaps & _ & Hc1 & _) end; [exact Hn|].
  rewrite Hrun1. cbn in Hc1, Hgaps. cbn [app].
  assert (Hn1 : numeric_capabilities (set_phase PLANNING e1)).
  { by apply (numeric_same_capabilities e). }
  match goal with |- context [plan_loop ?d ?a ?s] =>
    destruct (plan_loop_run d a s)
      as (e2 & objs & Hrun2 & _ & Hc2 & Hobjs) end;
    [by apply numeric_has_numeric|].
  rewrite Hrun2. cbn in Hc2. cbn [app].
  assert (Hlen : length objs = 5 `min` length gaps).
  { rewrite <- (Forall2_length _ _ _ Hobjs), length_take.
    by rewrite (Permutation_length (sorted_by_severity_perm gaps)). }
  assert (Hn2 : numeric_capabilities (set_phase EVALUATING e2)).
  { apply (numeric_same_capabilities e); [|done]. cbn. by rewrite Hc2. }
  destruct training_data as [data|].
  - destruct (evaluate_loop_run (_objectives e2) []
                {| total_objectives := length (_objectives e2);
                   achieved := 0; in_progress := 0 |}
                (set_phase EVALUATING e2) Hn2 eq_refl)
      as (e3 & ev & Hrun3 & _).
    unfold _evaluate. se. cbn in Hrun3. rewrite Hrun3.
    destruct (adapt_run (set_phase ADAPTING e3)) as (e4 & ad & Hrun4 & _).
    rewrite Hrun4. eexists _, _. split; [done|]. cbn.
    split; [done|]. split; [apply save_state_persisted|].
    split; [exact Hgaps|]. split; [done|]. by split.
  - destruct (adapt_run (set_phase ADAPTING (set_phase EVALUATING e2)))
      as (e4 & ad & Hrun4 & _).
    rewrite Hrun4. eexists _, _. split; [done|]. cbn.
    split; [done|]. split; [apply save_state_persisted|].
    split; [exact Hgaps|]. split; [done|].
    split; intros [? [=]].
Qed.

(** *** The cycle, phase by phase *)

Lemma reflect_stops_same (e e' : MetacognitiveEngine)
    (domains : list (CapabilityDomain * Q)) :
  _capabilities e' = _capabilities e →
  reflect_stops_at e' domains = reflect_stops_at e domains.
Proof.
  intros Hc. induction domains as [|dt rest IH]; [done|].
  cbn. unfold get_capability, capability_or. by rewrite Hc, IH.
Qed.

Lemma reflect_loop_spec (domains : list (CapabilityDomain * Q)) :
  ∀ (acc : list LearningGap) (e : MetacognitiveEngine),
    ∃ appended,
      _gaps (reflect_loop domains acc e).1 = _gaps e ++ appended
      ∧ _capabilities (reflect_loop domains acc e).1 = _capabilities e
      ∧ _metrics (reflect_loop domains acc e).1 = _metrics e
      ∧ match reflect_stops_at e domains with
        | None =>
            (reflect_loop domains acc e).2 = Ok (acc ++ appended)
            ∧ Forall2 (reflected e)
                      (filter (λ dt, is_below e dt = true) domains) appended
        | Some (before, v) =>
            (reflect_loop domains acc e).2
            = Raise (unsupported "<" (type_name v) "float")
            ∧ Forall2 (reflected e)
                      (filter (λ dt, is_below e dt = true) before) appended
        end.
Proof.
  induction domains as [|[domain target] rest IH]; intros acc e.
  - exists []. cbn. rewrite !app_nil_r. repeat split. constructor.
  - cbn [reflect_loop reflect_stops_at fst]. se.
    assert (Hb : is_below e (domain, target)
                 = match get_capability (value domain) e with
                   | PyNum c => Qlt_bool c target
                   | _ => false
                   end) by done.
    unfold get_capability in *.
    destruct (capability_or (PyNum 0) (value domain) e) as [c|s|] eqn:Hc; cbn.
    + destruct (Qlt_bool c target) eqn:Hlt; cbn.
      * match goal with |- context [reflect_loop rest ?a ?s] =>
          destruct (IH a s) as (app & Hg & Hcap & Hmet & Hrest) end.
        eexists (_ :: app). rewrite Hg, Hcap, Hmet. cbn.
        split; [by rewrite <- app_assoc|]. split; [done|]. split; [done|].
        match type of Hrest with context [reflect_stops_at ?s rest] =>
          rewrite (reflect_stops_same e s rest eq_refl) in Hrest end.
        assert (Hhead : reflected e (domain, target)
                  {| gap_id := ("GAP", clock e); gap_domain := domain;
                     severity := ((target - c) / target)%Q;
                     resolution_attempts := 0; is_resolved := false |}).
        { split; [done|]. split; [|done]. exists c. cbn.
          unfold get_capability. split; [exact Hc|].
          split; [by apply Qlt_bool_iff|done]. }
        destruct (reflect_stops_at e rest) as [[before v]|]; cbn;
          destruct Hrest as [Hrun Hall];
          rewrite decide_True by exact Hb;
          (split; [by rewrite Hrun, <- ?app_assoc|]);
          (constructor; [exact Hhead|]);
          rewrite (filter_is_below_same e) in Hall by done;
          (eapply Forall2_impl; [exact Hall|]); intros dt g;
          by apply reflected_same.
      * destruct (IH acc e) as (app & Hg & Hcap & Hmet & Hrest).
        exists app. split; [done|]. split; [done|]. split; [done|].
        destruct (reflect_stops_at e rest) as [[before v]|]; cbn;
          by rewrite decide_False by (rewrite Hb; done).
    + exists []. rewrite app_nil_r. repeat split. constructor.
    + exists []. rewrite app_nil_r. repeat split. constructor.
Qed.

(** REFLECT has compared the capability of every domain it returns a gap
    for: PLAN finds a number there. *)
Lemma reflected_numeric (e : MetacognitiveEngine)
    (domains : list (CapabilityDomain * Q)) (gaps : list LearningGap) :
  Forall2 (reflected e) domains gaps → Forall (has_numeric_capability e) gaps.
Proof.
  induction 1 as [|dt g ? ? (Hd & (c & Hc & _) & _) _ IH]; constructor; [|done].
  exists c. by rewrite Hd.
Qed.

Lemma plan_loop_metrics (gaps : list LearningGap) :
  ∀ (acc : list LearningObjective) (e : MetacognitiveEngine),
    _metrics (plan_loop gaps acc e).1 = _metrics e.
Proof.
  induction gaps as [|g rest IH]; intros acc e; [done|].
  cbn [plan_loop]. se.
  destruct (py_add _ _) as [target|x]; cbn; [|done].
  by rewrite IH.
Qed.

Lemma evaluate_loop_metrics (positions : list nat) :
  ∀ (ev : Evaluation) (e : MetacognitiveEngine),
    _metrics (evaluate_loop positions ev e).1 = _metrics e.
Proof.
  induction positions as [|i rest IH]; intros ev e; [done|].
  rewrite evaluate_loop_cons.
  destruct (_objectives e !! i) as [obj|]; [|apply IH].
  destruct (is_achieved obj); [apply IH|].
  destruct (py_ge _ _) as [[]|x]; [by rewrite IH|apply IH|done].
Qed.

Lemma evaluate_stops_same (e e' : MetacognitiveEngine)
    (objs : list LearningObjective) :
  _capabilities e' = _capabilities e →
  evaluate_stops_at e' objs = evaluate_stops_at e objs.
Proof.
  intros Hc. induction objs as [|o rest IH]; [done|].
  cbn. unfold get_capability, capability_or. by rewrite Hc, IH.
Qed.

(** Objectives on domains that hold a number do not stop EVALUATE. *)
Lemma evaluate_stops_app (e : MetacognitiveEngine)
    (old new : list LearningObjective) :
  Forall (λ o, ∃ c, get_capability (value (obj_domain o)) e = PyNum c) new →
  evaluate_stops_at e (old ++ new) = evaluate_stops_at e old.
Proof.
  intros Hnew. induction old as [|o old IH]; cbn.
  - induction Hnew as [|o new [c Hc] _ IH]; [done|].
    cbn. rewrite Hc. by destruct (is_achieved o).
  - by rewrite IH.
Qed.

Lemma evaluate_loop_outcome (post : list LearningObjective) :
  ∀ (pre : list LearningObjective) (ev : Evaluation) (e : MetacognitiveEngine),
    _objectives e = pre ++ post →
    match evaluate_stops_at e post with
    | Some v =>
        (evaluate_loop (seq (length pre) (length post)) ev e).2
        = Raise (unsupported ">=" (type_name v) "float")
    | None =>
        ∃ ev', (evaluate_loop (seq (length pre) (length post)) ev e).2 = Ok ev'
    end.
Proof.
  induction post as [|o post IH]; intros pre ev e Hobjs.
  - by exists ev.
  - cbn [length seq evaluate_stops_at]. rewrite evaluate_loop_cons.
    assert (Hi : _objectives e !! length pre = Some o).
    { rewrite Hobjs. by apply list_lookup_middle. }
    rewrite Hi.
    assert (Hnext : ∀ x, pre ++ x :: post = (pre ++ [x]) ++ post)
      by (intros; by rewrite <- app_assoc).
    assert (Hlen : ∀ x : LearningObjective, S (length pre) = length (pre ++ [x]))
      by (intros; rewrite length_app; cbn; lia).
    destruct (is_achieved o).
    { rewrite (Hlen o). apply IH. by rewrite Hobjs, Hnext. }
    unfold get_capability.
    destruct (capability_or (PyNum 0) (value (obj_domain o)) e) as [c|s|];
      cbn [py_ge]; [|done..].
    destruct (Qle_bool (target_value o) c).
    + rewrite (Hlen (mark_achieved o)).
      match goal with |- context [evaluate_loop _ ?a ?s] =>
        specialize (IH (pre ++ [mark_achieved o]) a s) end.
      match type of IH with context [evaluate_stops_at ?s post] =>
        rewrite (evaluate_stops_same e s post eq_refl) in IH end.
      apply IH. cbn. rewrite Hobjs, <- Hnext.
      rewrite <- (Nat.add_0_r (length pre)). by rewrite insert_app_r.
    + rewrite (Hlen o). apply IH. by rewrite Hobjs, Hnext.
Qed.

(** ADAPT, with what it leaves alone. *)
Lemma adapt_spec (e : MetacognitiveEngine) :
  ∃ e' created,
    _adapt e = (e', Ok created)
    ∧ _strategies e' = map reviewed (_strategies e) ++ created
    ∧ Forall2 attempted (_gaps e) (_gaps e')
    ∧ _capabilities e' = _capabilities e
    ∧ _objectives e' = _objectives e
    ∧ _metrics e' = _metrics e
    ∧ db e' = db e.
Proof.
  destruct (adapt_run e) as (e' & created & Hrun & Hstr & _).
  exists e', created. split; [done|]. split; [done|].
  revert Hrun. unfold _adapt. se.
  destruct (unresolved_positions (_gaps e)) as [Hnd Hpos].
  set (chosen := take 3 (positions_from _ 0 (_gaps e))).
  assert (Hchosen : Forall2 (λ i g, _gaps e !! i = Some g) chosen
                            (take 3 (get_unresolved_gaps e))).
  { by apply Forall2_take. }
  match goal with |- context [adapt_loop chosen ?a ?s] =>
    destruct (adapt_loop_accounts chosen a s)
      as (e2 & created2 & Hrun2 & _ & _ & _ & Hglen & Hlook & _
          & Hcap & Hobj & Hmet & Hdb & _) end.
  { eapply sublist_NoDup; [exact Hnd|apply sublist_take]. }
  { cbn. apply Forall_forall. intros i Hi.
    apply list_elem_of_lookup in Hi as [n Hn].
    destruct (Forall2_lookup_l _ _ _ _ _ Hchosen Hn) as (g & Hg & Hig).
    exists g. split; [done|].
    apply list_elem_of_lookup_2 in Hg. apply elem_of_take in Hg as (? & Hg & _).
    apply list_elem_of_lookup_2 in Hg.
    unfold get_unresolved_gaps in Hg. by apply list_elem_of_filter in Hg as [? _]. }
  rewrite Hrun2. intros [= <- _]. cbn in *.
  split; [|done].
  apply Forall2_same_length_lookup_2; [done|].
  intros j g g' Hj Hj'. destruct (Hlook j g Hj) as (g'' & Hg'' & Hatt & _).
  congruence.
Qed.

Lemma planned_numeric (e : MetacognitiveEngine) (gaps : list LearningGap)
    (objs : list LearningObjective) :
  Forall2 (planned_for e) gaps objs →
  Forall (λ o, ∃ c, get_capability (value (obj_domain o)) e = PyNum c) objs.
Proof.
  induction 1 as [|g o ? ? (Hd & _ & Hadd & _) _ IH]; constructor; [|done].
  rewrite Hd. destruct (get_capability _ e) as [c| |]; [by exists c|done..].
Qed.


(** C1 (as amended) -- [run_cycle] always returns its result and never
    raises; a phase that raises ends the cycle, and the text of its
    exception is in the result under [error].  REFLECT raises exactly when a
    priority domain holds a value that is not a number: the gaps found for
    the domains before it are in the engine after those it held, the result
    lists nothing, and objectives and strategies are untouched.  Otherwise
    REFLECT and PLAN go through, and the result lists their gaps and
    objectives.  EVALUATE, run when training data is given, raises exactly
    when an objective not yet achieved sits on a domain whose value is not a
    number: the gaps and objectives of the cycle are kept in the engine (an
    objective at most marked achieved) and the strategies are untouched.
    On either failure nothing is written to storage: the database is the one
    from before the cycle.  When no phase raises there is no error, and the
    cycle ends with [_save_state]: the capability rows and the rows of the
    last hundred metrics are written, and nothing of gaps, objectives or
    strategies, for which the database has no place. *)
Theorem run_cycle_captures_errors (training_data : option pyval)
    (e : MetacognitiveEngine) :
  let e' := (run_cycle training_data e).1 in
  let r := (run_cycle training_data e).2 in
  cycle_id r = S (_learning_cycles e)
  ∧ match reflect_stops_at e priority_domains with
    | Some (before, v) =>
        error r = Some (str (unsupported "<" (type_name v) "float"))
        ∧ gaps_identified r = [] ∧ objectives_created r = []
        ∧ evaluation r = None ∧ adaptations_made r = []
        ∧ (∃ appended,
             _gaps e' = _gaps e ++ appended
             ∧ Forall2 (reflected e)
                       (filter (λ dt, is_below e dt = true) before) appended)
        ∧ _objectives e' = _objectives e
        ∧ _strategies e' = _strategies e
        ∧ db e' = db e
    | None =>
        ∃ gaps objectives,
          gaps_identified r = gaps ∧ objectives_created r = objectives
          ∧ Forall2 (reflected e)
                    (filter (λ dt, is_below e dt = true) priority_domains) gaps
          ∧ Forall2 (planned_for e) (take 5 (sorted_by_severity gaps))
                    objectives
          ∧ Forall2 evaluated_from (_objectives e ++ objectives)
                    (_objectives e')
          ∧ match training_data, evaluate_stops_at e (_objectives e) with
            | Some _, Some v =>
                error r = Some (str (unsupported ">=" (type_name v) "float"))
                ∧ evaluation r = None ∧ adaptations_made r = []
                ∧ _gaps e' = _gaps e ++ gaps
                ∧ _strategies e' = _strategies e
                ∧ db e' = db e
            | _, _ =>
                error r = None
                ∧ (is_Some (evaluation r) ↔ is_Some training_data)
                ∧ Forall2 attempted (_gaps e ++ gaps) (_gaps e')
                ∧ _strategies e'
                  = map reviewed (_strategies e) ++ adaptations_made r
                ∧ capabilities_table (db e')
                  = _capabilities e ∪ capabilities_table (db e)
                ∧ performance_metrics_table (db e')
                  = foldl insert_or_ignore (performance_metrics_table (db e))
                          (last_n 100 (_metrics e))
                ∧ persisted e'
            end
    end.
Proof.
  assert (Hrefl : ∀ l : list LearningObjective, Forall2 evaluated_from l l).
  { intros l. apply Forall_Forall2_diag, Forall_forall.
    intros; apply evaluated_from_refl. }
  cbn zeta. unfold run_cycle, _reflect, _plan.
  set (e0 := set_phase REFLECTING _).
  destruct (reflect_loop_spec priority_domains [] e0)
    as (gs & Hg1 & Hc1 & Hm1 & Hout1).
  destruct (reflect_loop_frame priority_domains [] e0)
    as (gs' & Hdb1 & Hs1 & Ho1 & _ & _ & _).
  rewrite (reflect_stops_same e e0 _ eq_refl) in Hout1.
  destruct (reflect_loop priority_domains [] e0) as [e1 r1].
  cbn in Hg1, Hc1, Hm1, Hdb1, Hs1, Ho1. cbn [fst snd] in Hout1.
  destruct (reflect_stops_at e priority_domains) as [[before v]|].
  { destruct Hout1 as [-> Hall]. cbn. repeat split; try done. by exists gs. }
  destruct Hout1 as [-> Hall]. cbn [app].
  set (e1' := set_phase PLANNING e1).
  assert (Hnum : Forall (has_numeric_capability e1') gs).
  { eapply Forall_impl; [exact (reflected_numeric _ _ _ Hall)|].
    intros g. by apply has_numeric_same_capabilities. }
  destruct (plan_loop_run (take 5 (sorted_by_severity gs)) [] e1')
    as (e2 & objs & Hrun2 & Ho2 & Hc2 & Hplanned).
  { rewrite Forall_forall in Hnum. apply Forall_forall. intros g Hg.
    apply Hnum. apply elem_of_take in Hg as (? & Hg & _).
    apply list_elem_of_lookup_2 in Hg.
    by rewrite (sorted_by_severity_perm gs) in Hg. }
  destruct (plan_loop_frame (take 5 (sorted_by_severity gs)) [] e1')
    as (os' & Hdb2 & Hs2 & Hg2 & _ & _ & _).
  pose proof (plan_loop_metrics (take 5 (sorted_by_severity gs)) [] e1') as Hm2.
  rewrite Hrun2 in Hdb2, Hs2, Hg2, Hm2 |- *. cbn in Hdb2, Hs2, Hg2, Hm2, Ho2, Hc2.
  cbn [app].
  assert (Hplanned' : Forall2 (planned_for e) (take 5 (sorted_by_severity gs)) objs).
  { eapply Forall2_impl; [exact Hplanned|]. intros g o.
    by apply planned_for_same_capabilities. }
  destruct training_data as [data|].
  - unfold _evaluate. se.
    set (e2' := set_phase EVALUATING e2).
    assert (Hobjs : _objectives e2' = _objectives e ++ objs).
    { cbn. by rewrite Ho2, Ho1. }
    pose proof (evaluate_loop_outcome (_objectives e2') []
                  {| total_objectives := length (_objectives e2);
                     achieved := 0; in_progress := 0 |} e2' eq_refl) as Hout3.
    rewrite (evaluate_stops_same e e2') in Hout3 by (cbn; congruence).
    rewrite Hobjs, evaluate_stops_app in Hout3 by by eapply planned_numeric.
    rewrite <- Hobjs in Hout3. cbn [length] in Hout3.
    match goal with |- context [evaluate_loop ?p ?a ?s] =>
      destruct (evaluate_loop_frame p a s) as (Hdb3 & Hs3 & Hg3 & _ & Ho3);
      pose proof (evaluate_loop_capabilities p a s) as Hc3;
      pose proof (evaluate_loop_metrics p a s) as Hm3 end.
    change (_objectives e2) with (_objectives e2') in *.
    destruct (evaluate_loop _ _ e2') as [e3 r3].
    cbn [fst snd] in Hdb3, Hs3, Hg3, Ho3, Hc3, Hm3, Hout3.
    rewrite Hobjs in Ho3.
    destruct (evaluate_stops_at e (_objectives e)) as [v|].
    + subst r3. cbn. split; [done|]. exists gs, objs.
      repeat split; try done; cbn in *; congruence.
    + destruct Hout3 as [ev' ->].
      destruct (adapt_spec (set_phase ADAPTING e3))
        as (e4 & created & Hrun4 & Hs4 & Hg4 & Hc4 & Ho4 & Hm4 & Hdb4).
      rewrite Hrun4. cbn in *.
      split; [done|]. exists gs, objs.
      split; [done|]. split; [done|]. split; [done|]. split; [done|].
      split; [by rewrite Ho4|].
      split; [done|]. split; [done|].
      split; [by rewrite Hg3, Hg2, Hg1 in Hg4|].
      split; [by rewrite Hs4, Hs3, Hs2, Hs1|].
      split; [by rewrite Hc4, Hc3, Hc2, Hc1, Hdb4, Hdb3, Hdb2, Hdb1|].
      split; [by rewrite Hm4, Hm3, Hm2, Hm1, Hdb4, Hdb3, Hdb2, Hdb1|].
      apply save_state_persisted.
  - destruct (adapt_spec (set_phase ADAPTING (set_phase EVALUATING e2)))
      as (e4 & created & Hrun4 & Hs4 & Hg4 & Hc4 & Ho4 & Hm4 & Hdb4).
    rewrite Hrun4. cbn in *.
    split; [done|]. exists gs, objs.
    split; [done|]. split; [done|]. split; [done|]. split; [done|].
    split; [rewrite Ho4, Ho2, Ho1; apply Hrefl|].
    split; [done|]. split; [by split; intros [? [=]]|].
    split; [by rewrite Hg2, Hg1 in Hg4|].
    split; [by rewrite Hs4, Hs2, Hs1|].
    split; [by rewrite Hc4, Hc2, Hc1, Hdb4, Hdb2, Hdb1|].
    split; [by rewrite Hm4, Hm2, Hm1, Hdb4, Hdb2, Hdb1|].
    apply save_state_persisted.
Qed.

(** A cycle on an engine holding an unsaved confidence, which fails in
    REFLECT on a NULL confidence: the gap found before the failure is kept
    in memory, the result names the error, and the database is still
    empty. *)
Lemma run_cycle_failure_is_not_persisted :
  let e' := (run_cycle None null_confidence_engine).1 in
  let r := (run_cycle None null_confidence_engine).2 in
  error r = Some "'<' not supported between instances of 'NoneType' and 'float'"
  ∧ map gap_domain (_gaps e') = [NETWORK_4G_LTE]
  ∧ _capabilities e' !! "4g_lte" = Some (PyNum (1#2))
  ∧ length (_metrics e') = 1
  ∧ capabilities_table (db e') !! "4g_lte" = None
  ∧ performance_metrics_table (db e') = ∅
  ∧ ¬ persisted e'.
Proof.
  cbn zeta. repeat split; try (vm_compute; reflexivity).
  intros [Hcaps _].
  assert (H1 : _capabilities (run_cycle None null_confidence_engine).1
               !! "4g_lte" = Some (PyNum (1#2))) by (vm_compute; reflexivity).
  assert (H2 : capabilities_table (db (run_cycle None null_confidence_engine).1)
               !! "4g_lte" = None) by (vm_compute; reflexivity).
  eapply lookup_weaken in H1; [|exact Hcaps]. congruence.
Qed.

(** *** Capabilities stay in the unit interval *)
(** X8 -- On an engine whose stored capabilities are all numbers of [0,1],
    [update_capability] does not raise, whatever float it is given, and
    leaves an engine of the same kind; it changes the capability of no
    other domain, and no gap, objective, strategy or stored row. *)
Theorem update_capability_keeps_unit_interval (domain : string)
    (confidence : pyfloat) (source : string) (e : MetacognitiveEngine) :
  unit_capabilities e →
  let e' := (update_capability domain confidence source e).1 in
  (update_capability domain confidence source e).2 = Ok tt
  ∧ unit_capabilities e'
  ∧ (∀ d, d ≠ domain → get_capability d e' = get_capability d e)
  ∧ _gaps e' = _gaps e ∧ _objectives e' = _objectives e
  ∧ _strategies e' = _strategies e ∧ db e' = db e.
Proof.
  intros Hu. cbn zeta. rewrite update_capability_run. cbn zeta.
  assert (∃ c, capability_or (PyNum 0) domain e = PyNum c) as [c0 Hc0].
  { unfold capability_or.
    destruct (_capabilities e !! domain) as [v|] eqn:E; cbn; [|by eexists].
    destruct (Hu _ _ E) as (q & -> & _). by eexists. }
  rewrite Hc0. cbn [py_lt].
  assert (Hunit : map_Forall
            (λ _ v, ∃ q, v = PyNum q ∧ (0 <= q)%Q ∧ (q <= 1)%Q)
            (<[domain := PyNum (clamp_unit confidence)]> (_capabilities e))).
  { apply map_Forall_insert_2; [|exact Hu].
    eexists. split; [done|]. apply clamp_unit_range. }
  assert (Hother : ∀ d, d ≠ domain →
            default (PyNum 0)
              (<[domain := PyNum (clamp_unit confidence)]> (_capabilities e) !! d)
            = default (PyNum 0) (_capabilities e !! d)).
  { intros d Hd. by rewrite lookup_insert_ne. }
  destruct (Qlt_bool c0 (1#2) && float_ge confidence (Fin (1#2))); cbn;
    by repeat split.
Qed.

Lemma fresh_engine_unit : unit_capabilities fresh_engine.
Proof.
  intros d v Hv. apply elem_of_list_to_map_2 in Hv. cbn in Hv.
  repeat (apply elem_of_cons in Hv as [[= _ ->]|Hv];
          [exists 0%Q; by repeat split|]).
  by apply elem_of_nil in Hv.
Qed.

Lemma unit_numeric (e : MetacognitiveEngine) :
  unit_capabilities e → numeric_capabilities e.
Proof. intros Hu d v Hv. destruct (Hu d v Hv) as (q & -> & _). by eexists. Qed.

Lemma unit_get (e : MetacognitiveEngine) (d : string) (c : Q) :
  unit_capabilities e → get_capability d e = PyNum c → (0 <= c)%Q ∧ (c <= 1)%Q.
Proof.
  intros Hu. unfold get_capability, capability_or.
  destruct (_capabilities e !! d) as [v|] eqn:E; cbn.
  - destruct (Hu _ _ E) as (q & -> & Hq). by intros [= <-].
  - by intros [= <-].
Qed.

Lemma severity_bounds (c t : Q) :
  (0 <= c)%Q → (c < t)%Q → (0 < (t - c) / t)%Q ∧ ((t - c) / t <= 1)%Q.
Proof.
  intros H0 Hlt. assert (Ht : (0 < t)%Q) by (eapply Qle_lt_trans; eauto).
  split.
  - apply Qlt_shift_div_l; [done|]. rewrite Qmult_0_l.
    unfold Qminus. by rewrite <- Qlt_minus_iff.
  - apply Qle_shift_div_r; [done|]. rewrite Qmult_1_l.
    rewrite <- (Qplus_0_r t) at 2. unfold Qminus.
    apply Qplus_le_r. by apply (Qopp_le_compat 0).
Qed.

Lemma truncation_bounds (x : Q) (p : Z) :
  (0 < x)%Q → (x <= 10)%Q → truncation_of x p → (0 ≤ p ≤ 10)%Z.
Proof.
  intros H0 H10 (Hle & _ & Hsign).
  assert (Hp : (0 ≤ p)%Z).
  { destruct (Z.le_gt_cases 0 p) as [|Hneg]; [done|]. exfalso.
    assert (inject_Z p * x < 0)%Q.
    { rewrite Qmult_comm. rewrite <- (Qmult_0_r x).
      apply Qmult_lt_l; [done|]. change 0%Q with (inject_Z 0).
      by rewrite <- Zlt_Qlt. }
    by eapply Qlt_not_le. }
  split; [done|].
  assert (Hx : Qabs x == x) by by apply Qabs_pos, Qlt_le_weak.
  assert (Hq : Qabs (inject_Z p) == inject_Z p).
  { apply Qabs_pos. change 0%Q with (inject_Z 0). by rewrite <- Zle_Qle. }
  rewrite Hx, Hq in Hle.
  rewrite Zle_Qle. by eapply Qle_trans.
Qed.

(** X2 -- On an engine whose stored capabilities are all numbers of [0,1],
    REFLECT followed by PLAN raises nowhere; every gap has a severity above
    0 and at most 1, every objective a priority from 0 to 10, and there are
    as many objectives as gaps, up to five. *)
Theorem gaps_and_priorities_are_bounded (e : MetacognitiveEngine) :
  unit_capabilities e →
  ∃ e1 gaps e2 objectives,
    _reflect e = (e1, Ok gaps)
    ∧ _plan gaps e1 = (e2, Ok objectives)
    ∧ Forall (λ g, (0 < severity g)%Q ∧ (severity g <= 1)%Q) gaps
    ∧ Forall (λ o, (0 ≤ priority o ≤ 10)%Z) objectives
    ∧ length objectives = 5 `min` length gaps.
Proof.
  intros Hu. assert (Hn := unit_numeric e Hu). unfold _reflect, _plan.
  destruct (reflect_loop_run priority_domains [] e Hn)
    as (e1 & gaps & Hrun1 & _ & Hgaps & _ & Hc1 & _).
  assert (Hsev : Forall (λ g, (0 < severity g)%Q ∧ (severity g <= 1)%Q) gaps).
  { apply Forall_forall. intros g Hg.
    apply list_elem_of_lookup in Hg as [i Hi].
    destruct (Forall2_lookup_r _ _ _ _ _ Hgaps Hi)
      as (dt & _ & _ & (c & Hc & Hlt & ->) & _).
    apply severity_bounds; [|done]. by eapply unit_get. }
  destruct (plan_loop_run (take 5 (sorted_by_severity gaps)) [] e1)
    as (e2 & objs & Hrun2 & _ & _ & Hobjs).
  { apply numeric_has_numeric. by apply (numeric_same_capabilities e). }
  exists e1, gaps, e2, objs. split; [done|]. split; [done|].
  split; [done|]. split.
  - apply Forall_forall. intros o Ho.
    apply list_elem_of_lookup in Ho as [i Hi].
    destruct (Forall2_lookup_r _ _ _ _ _ Hobjs Hi)
      as (g & Hg & _ & _ & _ & Htr & _).
    apply list_elem_of_lookup_2, elem_of_take in Hg as (? & Hg & _).
    apply list_elem_of_lookup_2 in Hg.
    rewrite (sorted_by_severity_perm gaps) in Hg.
    rewrite Forall_forall in Hsev. destruct (Hsev g Hg) as [Hpos Hle].
    eapply truncation_bounds; [| |exact Htr].
    + rewrite <- (Qmult_0_l 10). by apply Qmult_lt_r.
    + change 10%Q with (1 * 10)%Q at 2. by apply Qmult_le_compat_r.
  - rewrite <- (Forall2_length _ _ _ Hobjs), length_take.
    by rewrite (Permutation_length (sorted_by_severity_perm gaps)).
Qed.









(** *** The properties above on concrete engines *)


(** Three gaps tried three times each, and a fourth never tried: ADAPT
    does nothing for the fourth. *)
Lemma adapt_on_exhausted_engine :
  get_unresolved_gaps exhausted_engine !! 3 = Some (tried MESH_ROUTING 0)
  ∧ ∃ e',
      _adapt exhausted_engine = (e', Ok [])
      ∧ _gaps e' = _gaps exhausted_engine
      ∧ _adaptations e' = _adaptations exhausted_engine
      ∧ delivered e' = delivered exhausted_engine.
Proof.
  split; [reflexivity|].
  apply (adapt_stops_at_three_exhausted_gaps exhausted_engine).
  repeat constructor.
Defined.

(** A first cycle on an engine that has just been built. *)
Lemma first_cycle_succeeds :
  ∃ e' r,
    run_cycle None fresh_engine = (e', r)
    ∧ error r = None
    ∧ persisted e'
    ∧ Forall2 (reflected fresh_engine)
              (filter (λ dt, is_below fresh_engine dt = true) priority_domains)
              (gaps_identified r)
    ∧ length (objectives_created r) = 5 `min` length (gaps_identified r)
    ∧ (is_Some (evaluation r) ↔ is_Some (@None pyval)).
Proof.
  apply (run_cycle_succeeds_on_numeric_capabilities None fresh_engine),
    fresh_engine_numeric.
Defined.

(** NaN given to an engine that has just been built. *)
Lemma nan_update_keeps_unit_interval :
  (update_capability "4g_lte" NaN "training" fresh_engine).2 = Ok tt
  ∧ unit_capabilities (update_capability "4g_lte" NaN "training" fresh_engine).1.
Proof.
  destruct (update_capability_keeps_unit_interval "4g_lte" NaN "training"
              fresh_engine fresh_engine_unit) as (H1 & H2 & _).
  by split.
Defined.

(** REFLECT and PLAN on an engine that has just been built. *)
Lemma first_plan_is_bounded :
  ∃ e1 gaps e2 objectives,
    _reflect fresh_engine = (e1, Ok gaps)
    ∧ _plan gaps e1 = (e2, Ok objectives)
    ∧ Forall (λ g, (0 < severity g)%Q ∧ (severity g <= 1)%Q) gaps
    ∧ Forall (λ o, (0 ≤ priority o ≤ 10)%Z) objectives
    ∧ length objectives = 5 `min` length gaps.
Proof.
  apply (gaps_and_priorities_are_bounded fresh_engine), fresh_engine_unit.
Defined.


End EngineFacts.

(** ** Properties of the plugin registry and loader *)

Module PluginFacts.
Import Plugins Relations.

Ltac se :=
  unfold mbind, SE_bind, bind, mret, SE_ret, ret, gets, modify, lift, raise;
  cbn.

(** *** The capability index *)

Lemma append_once_elem (pid : string) (ids : list string) : pid ∈ append_once pid ids.
Proof.
  unfold append_once. case_bool_decide; [done|].
  apply elem_of_app. right. apply list_elem_of_singleton. done.
Qed.

Lemma append_once_NoDup (pid : string) (ids : list string) : NoDup ids → NoDup (append_once pid ids).
Proof.
  unfold append_once. case_bool_decide; [done|]. intros Hnd.
  apply NoDup_app. split; [done|]. split; [|apply NoDup_singleton].
  intros x Hx ->%list_elem_of_singleton. done.
Qed.

Lemma index_capability_lookup (pid : string)
    (m : gmap string (list string)) (cap cap' : string) :
  index_capability pid m cap !! cap'
  = if decide (cap = cap') then Some (append_once pid (default [] (m !! cap)))
    else m !! cap'.
Proof.
  unfold index_capability.
  case_decide as Hc; [subst; apply lookup_insert_eq|by apply lookup_insert_ne].
Qed.

Lemma index_capability_NoDup (pid : string)
    (m : gmap string (list string)) (cap : string) :
  map_Forall (λ _ ids, NoDup ids) m →
  map_Forall (λ _ ids, NoDup ids) (index_capability pid m cap).
Proof.
  intros Hm cap' ids. rewrite index_capability_lookup.
  case_decide; [|apply Hm]. intros [= <-]. apply append_once_NoDup.
  destruct (m !! cap) as [l|] eqn:E; cbn; [by eapply Hm|constructor].
Qed.

Lemma index_capability_keeps (pid : string)
    (m : gmap string (list string)) (cap cap' : string) (ids : list string) :
  m !! cap' = Some ids → pid ∈ ids →
  ∃ ids', index_capability pid m cap !! cap' = Some ids' ∧ pid ∈ ids'.
Proof.
  intros Hl Hin. rewrite index_capability_lookup. case_decide as Hc.
  - subst. eexists. split; [done|apply append_once_elem].
  - by exists ids.
Qed.

Lemma foldl_index_NoDup (pid : string) (caps : list string) :
  ∀ m : gmap string (list string),
  map_Forall (λ _ ids, NoDup ids) m →
  map_Forall (λ _ ids, NoDup ids) (foldl (index_capability pid) m caps).
Proof.
  induction caps as [|c caps IH]; intros m Hm; cbn; [done|].
  by apply IH, index_capability_NoDup.
Qed.

Lemma foldl_index_keeps (pid : string) (caps : list string) :
  ∀ (m : gmap string (list string)) (cap : string) (ids : list string),
  m !! cap = Some ids → pid ∈ ids →
  ∃ ids', foldl (index_capability pid) m caps !! cap = Some ids' ∧ pid ∈ ids'.
Proof.
  induction caps as [|c caps IH]; intros m cap ids Hl Hin; cbn; [by exists ids|].
  destruct (index_capability_keeps pid m c cap ids Hl Hin) as (ids' & Hl' & Hin').
  by eapply IH.
Qed.

Lemma foldl_index_has (pid : string) (caps : list string) :
  ∀ m : gmap string (list string),
  Forall (λ cap, ∃ ids, foldl (index_capability pid) m caps !! cap = Some ids ∧ pid ∈ ids) caps.
Proof.
  induction caps as [|c caps IH]; intros m; cbn; constructor.
  - eapply foldl_index_keeps; [|apply append_once_elem].
    rewrite index_capability_lookup. by rewrite decide_True.
  - apply IH.
Qed.

(** [unregister] *)
Lemma prune_capability_lookup (pid : string)
    (m : gmap string (list string)) (cap cap' : string) :
  prune_capability pid m cap !! cap'
  = if decide (cap = cap') then filter (λ p, p ≠ pid) <$> m !! cap' else m !! cap'.
Proof.
  unfold prune_capability. case_decide as Hc.
  - subst. destruct (m !! cap') eqn:E; cbn; [apply lookup_insert_eq|done].
  - destruct (m !! cap) eqn:E; [by apply lookup_insert_ne|done].
Qed.

Lemma filter_ne_idemp (pid : string) (ids : list string) :
  filter (λ p, p ≠ pid) (filter (λ p, p ≠ pid) ids) = filter (λ p, p ≠ pid) ids.
Proof.
  induction ids as [|x ids IH]; [done|].
  rewrite filter_cons. case_decide; [|done].
  rewrite filter_cons, decide_True by done. by rewrite IH.
Qed.

Lemma foldl_prune_lookup (pid : string) (caps : list string) :
  ∀ (m : gmap string (list string)) (cap : string),
  foldl (prune_capability pid) m caps !! cap
  = if decide (cap ∈ caps) then filter (λ p, p ≠ pid) <$> m !! cap else m !! cap.
Proof.
  induction caps as [|c caps IH]; intros m cap; cbn.
  - rewrite decide_False; [done|apply not_elem_of_nil].
  - rewrite IH, prune_capability_lookup.
    destruct (decide (c = cap)) as [->|Hne].
    + rewrite (decide_True (P := cap ∈ cap :: caps)) by (apply elem_of_cons; by left).
      case_decide; [|done].
      destruct (m !! cap); cbn; [|done]. by rewrite filter_ne_idemp.
    + destruct (decide (cap ∈ caps)).
      * rewrite decide_True; [done|]. apply elem_of_cons. by right.
      * rewrite decide_False; [done|]. by intros [?|?]%elem_of_cons.
Qed.

Lemma omap_delete_filter (P : gmap string PluginInfo) (pid : string) (ids : list string) :
  omap (λ p, delete pid P !! p) ids = omap (λ p, P !! p) (filter (λ p, p ≠ pid) ids).
Proof.
  induction ids as [|x ids IH]; [done|].
  rewrite filter_cons. cbn. case_decide as Hx.
  - cbn. rewrite lookup_delete_ne by done. by rewrite IH.
  - subst. rewrite lookup_delete_eq. apply IH.
Qed.

(** What [register] and [unregister] do to the index.  In a registry whose
    capability index lists no plugin twice, [register info] stores [info] under its id and leaves every
    capability of [info] mapped to a list that holds the id exactly once;
    the index keeps whatever it listed before, it is not rebuilt.
    [unregister pid] removes the plugin and takes its id out of the lists of
    the capabilities of the record registered at that moment; whatever the
    index still lists, [get_by_capability] returns no plugin through that
    id.  Both keep the index free of duplicates, and registering a plugin
    in an empty registry and unregistering it leaves [get_by_capability]
    empty for every capability. *)
Theorem registry_index_follows_registrations (info : PluginInfo)
    (pid : string) (r : PluginRegistry) :
  index_without_duplicates r →
  (_plugins (register info r) !! plugin_id info = Some info
   ∧ index_without_duplicates (register info r)
   ∧ Forall (λ cap, ∃ ids,
               _capabilities_map (register info r) !! cap = Some ids
               ∧ plugin_id info ∈ ids ∧ NoDup ids)
            (capabilities info))
  ∧ (index_without_duplicates (unregister pid r).1
     ∧ _plugins (unregister pid r).1 !! pid = None
     ∧ match _plugins r !! pid with
       | Some registered =>
           (unregister pid r).2 = true
           ∧ Forall (λ cap,
                       pid ∉ default [] (_capabilities_map (unregister pid r).1 !! cap))
                    (capabilities registered)
       | None => unregister pid r = (r, false)
       end
     ∧ ∀ cap,
         get_by_capability cap (unregister pid r).1
         = omap (λ p, _plugins r !! p)
                (filter (λ p, p ≠ pid) (default [] (_capabilities_map r !! cap))))
  ∧ ∀ cap,
      get_by_capability cap
        (unregister (plugin_id info) (register info empty_registry)).1 = [].
Proof.
  unfold index_without_duplicates. intros Hnd. split; [|split].
  - split; [apply lookup_insert_eq|]. split.
    + by apply foldl_index_NoDup.
    + eapply Forall_impl; [apply foldl_index_has|]. cbn.
      intros cap (ids & Hl & Hin). exists ids. split; [exact Hl|].
      split; [done|]. eapply (foldl_index_NoDup _ _ _ Hnd). exact Hl.
  - unfold unregister. destruct (_plugins r !! pid) as [registered|] eqn:Hp; cbn.
    + split.
      { intros cap ids. rewrite foldl_prune_lookup. case_decide; [|apply Hnd].
        destruct (_capabilities_map r !! cap) as [l|] eqn:E; [|done].
        intros [= <-]. apply NoDup_filter. by eapply Hnd. }
      split; [apply lookup_delete_eq|]. split.
      { split; [done|]. apply Forall_forall. intros cap Hcap.
        rewrite foldl_prune_lookup, decide_True by done.
        destruct (_capabilities_map r !! cap); cbn; [|apply not_elem_of_nil].
        intros [? _]%list_elem_of_filter. done. }
      intros cap. unfold get_by_capability. cbn.
      rewrite foldl_prune_lookup, omap_delete_filter.
      case_decide; [|done].
      destruct (_capabilities_map r !! cap); cbn; [|done].
      by rewrite filter_ne_idemp.
    + split; [done|]. split; [done|]. split; [done|].
      intros cap. unfold get_by_capability.
      rewrite <- omap_delete_filter. by rewrite delete_id.
  - intros cap. unfold unregister, get_by_capability. cbn.
    rewrite lookup_insert_eq. cbn. rewrite delete_insert_eq, delete_empty.
    match goal with |- omap _ ?ids = _ => generalize ids end.
    intros ids. induction ids as [|x ids IH]; [done|].
    cbn. by rewrite lookup_empty.
Qed.

(** A plugin with capabilities "a" and "b", registered in an empty registry
    and unregistered. *)
Lemma register_then_unregister_leaves_nothing :
  _plugins (register (plain_info "p" ["a"; "b"]) empty_registry) !! "p"
  = Some (plain_info "p" ["a"; "b"])
  ∧ get_by_capability "a"
      (unregister "p" (register (plain_info "p" ["a"; "b"]) empty_registry)).1
    = []
  ∧ get_by_capability "b"
      (unregister "p" (register (plain_info "p" ["a"; "b"]) empty_registry)).1
    = [].
Proof.
  destruct (registry_index_follows_registrations
              (plain_info "p" ["a"; "b"]) "p" empty_registry)
    as ((Hreg & _) & _ & Hempty).
  - apply map_Forall_empty.
  - split; [exact Hreg|]. split; apply Hempty.
Defined.

(** A plugin registered with capabilities "a" and "b", registered again by
    a failed load (an ERROR record without capabilities) and unregistered:
    the index still lists it under "a" and "b", and a plugin registered
    later under the same id with capability "c" is returned for "a". *)
Lemma unregister_leaves_stale_index_entries :
  let failure :=
    error_info (py_file skills_dir "p") "p" (Exn "SyntaxError" "invalid syntax") in
  let r1 := register (plain_info "p" ["a"; "b"]) empty_registry in
  let r2 := register failure r1 in
  let r3 := (unregister "p" r2).1 in
  let r4 := register (plain_info "p" ["c"]) r3 in
  map capabilities (get_by_capability "a" r2) = [[]]
  ∧ _plugins r3 !! "p" = None
  ∧ _capabilities_map r3 !! "a" = Some ["p"]
  ∧ _capabilities_map r3 !! "b" = Some ["p"]
  ∧ map capabilities (get_by_capability "a" r4) = [["c"]].
Proof. cbn zeta. repeat split; vm_compute; reflexivity. Qed.

(** C9 (the code at the failing input) -- [register] only ever adds to the
    capability index and [unregister] prunes only the capabilities of the
    record it finds, so the index does not follow the plugin map.  When a
    plugin registered with a capability is registered again under its id
    without that capability, as the ERROR record of a failed load is,
    [get_by_capability] still returns the record for the capability it no
    longer has; after [unregister] the plugin is gone from the map but its
    id is still in the list of that capability, and whatever plugin is
    registered later under the id is returned for it. *)
Theorem registry_index_keeps_stale_ids (info again : PluginInfo)
    (cap : string) (r : PluginRegistry) :
  plugin_id again = plugin_id info →
  cap ∈ capabilities info →
  cap ∉ capabilities again →
  let r2 := register again (register info r) in
  let r3 := (unregister (plugin_id info) r2).1 in
  get (plugin_id info) r2 = Some again
  ∧ again ∈ get_by_capability cap r2
  ∧ get (plugin_id info) r3 = None
  ∧ plugin_id info ∈ default [] (_capabilities_map r3 !! cap)
  ∧ ∀ later,
      plugin_id later = plugin_id info →
      later ∈ get_by_capability cap (register later r3).
Proof.
  intros Hid Hcap Hnot. cbn zeta.
  set (pid := plugin_id info) in *.
  assert (H1 : ∃ ids, _capabilities_map (register info r) !! cap = Some ids
                      ∧ pid ∈ ids).
  { pose proof (foldl_index_has pid (capabilities info) (_capabilities_map r))
      as Hall.
    rewrite Forall_forall in Hall. by apply Hall. }
  destruct H1 as (ids1 & Hl1 & Hin1).
  assert (H2 : ∃ ids, _capabilities_map (register again (register info r)) !! cap
                      = Some ids ∧ pid ∈ ids).
  { cbn [register _capabilities_map]. rewrite Hid.
    by eapply foldl_index_keeps. }
  destruct H2 as (ids2 & Hl2 & Hin2).
  assert (Hp2 : _plugins (register again (register info r)) !! pid = Some again).
  { cbn [register _plugins]. rewrite Hid. apply lookup_insert_eq. }
  set (r2 := register again (register info r)) in *. clearbody r2.
  split; [exact Hp2|]. split.
  { unfold get_by_capability. rewrite Hl2. cbn [default].
    apply list_elem_of_omap. by exists pid. }
  unfold unregister. rewrite Hp2. cbn [fst get _plugins _capabilities_map].
  split; [apply lookup_delete_eq|].
  assert (Hl3 : foldl (prune_capability pid) (_capabilities_map r2)
                      (capabilities again) !! cap = Some ids2).
  { by rewrite foldl_prune_lookup, decide_False. }
  split; [by rewrite Hl3|].
  intros later Hlater. unfold get_by_capability.
  cbn [register _plugins _capabilities_map]. rewrite Hlater.
  destruct (foldl_index_keeps pid (capabilities later) _ cap ids2 Hl3 Hin2)
    as (ids4 & Hl4 & Hin4).
  rewrite Hl4. cbn [default]. apply list_elem_of_omap. exists pid.
  split; [done|]. apply lookup_insert_eq.
Qed.

(** A plugin with capabilities "a" and "b" whose reload fails, which is
    then unregistered and replaced by one with capability "c". *)
Lemma stale_id_after_failed_load :
  let failure :=
    error_info (py_file skills_dir "p") "p" (Exn "SyntaxError" "invalid syntax") in
  let r2 := register failure (register (plain_info "p" ["a"; "b"]) empty_registry) in
  let r3 := (unregister "p" r2).1 in
  get "p" r2 = Some failure
  ∧ failure ∈ get_by_capability "a" r2
  ∧ get "p" r3 = None
  ∧ "p" ∈ default [] (_capabilities_map r3 !! "a")
  ∧ plain_info "p" ["c"] ∈ get_by_capability "a" (register (plain_info "p" ["c"]) r3).
Proof.
  destruct (registry_index_keeps_stale_ids
              (plain_info "p" ["a"; "b"])
              (error_info (py_file skills_dir "p") "p"
                          (Exn "SyntaxError" "invalid syntax"))
              "a" empty_registry)
    as (H1 & H2 & H3 & H4 & H5).
  - reflexivity.
  - apply elem_of_cons. by left.
  - apply not_elem_of_nil.
  - cbn zeta. split; [exact H1|]. split; [exact H2|]. split; [exact H3|].
    split; [exact H4|]. by apply H5.
Defined.

(** *** [load], [discover] and [load_all] *)

Lemma load_attempt_spec (fs : FileSystem) (p : Path) (L : Loader) :
  ∃ L1 cs,
    (load_attempt fs p (stem p) L).1 = L1
    ∧ plugins_path L1 = plugins_path L
    ∧ _on_plugin_loaded L1 = _on_plugin_loaded L
    ∧ _on_plugin_error L1 = _on_plugin_error L
    ∧ calls L1 = calls L ++ cs
    ∧ (cs = [] ∨ cs = [Initialize (stem p) []])
    ∧ match load_outcome fs p with
      | Ok inst =>
          ∃ checksum,
            _compute_checksum fs p = Ok checksum
            ∧ (load_attempt fs p (stem p) L).2 = Ok (loaded_info p inst checksum)
            ∧ registry L1 = register (loaded_info p inst checksum) (registry L)
            ∧ delivered L1
              = delivered L
                ++ map (λ cb, PluginLoaded cb (loaded_info p inst checksum))
                       (_on_plugin_loaded L)
      | Raise e =>
          (load_attempt fs p (stem p) L).2 = Raise e
          ∧ registry L1 = registry L
          ∧ delivered L1 = delivered L
          ∧ plugins_table L1 = plugins_table L
      end.
Proof.
  unfold load_attempt, load_outcome, _compute_checksum, source_module, call_initialize.
  se.
  destruct (read_file fs p) as [f|x]; cbn.
  2:{ exists L, []. rewrite app_nil_r. repeat split; auto. }
  destruct (importable p); cbn.
  2:{ exists L, []. rewrite app_nil_r. repeat split; auto. }
  destruct (exec_module (module f)) as [[]|x]; cbn.
  2:{ eexists _, []. rewrite app_nil_r. repeat split; auto. }
  destruct (resolve_instance (module f)) as [inst|x]; cbn.
  2:{ eexists _, []. rewrite app_nil_r. repeat split; auto. }
  destruct (i_initialize inst) as [method|]; cbn.
  - destruct (method []) as [v|x]; cbn.
    + eexists _, [_]. repeat split; eauto.
    + eexists _, [_]. repeat split; eauto.
  - eexists _, []. rewrite app_nil_r. repeat split; eauto.
Qed.

Lemma load_spec (fs : FileSystem) (p : Path) (L : Loader) :
  plugins_path (load fs p L).1 = plugins_path L
  ∧ _on_plugin_loaded (load fs p L).1 = _on_plugin_loaded L
  ∧ _on_plugin_error (load fs p L).1 = _on_plugin_error L
  ∧ (∃ cs, calls (load fs p L).1 = calls L ++ cs
           ∧ (cs = [] ∨ cs = [Initialize (stem p) []]))
  ∧ match load_outcome fs p with
    | Ok inst =>
        ∃ checksum,
          _compute_checksum fs p = Ok checksum
          ∧ (load fs p L).2 = Some (loaded_info p inst checksum)
          ∧ registry (load fs p L).1
            = register (loaded_info p inst checksum) (registry L)
          ∧ delivered (load fs p L).1
            = delivered L
              ++ map (λ cb, PluginLoaded cb (loaded_info p inst checksum))
                     (_on_plugin_loaded L)
    | Raise e =>
        (load fs p L).2 = None
        ∧ registry (load fs p L).1
          = register (error_info p (stem p) e) (registry L)
        ∧ delivered (load fs p L).1
          = delivered L
            ++ map (λ cb, PluginError cb (stem p) e) (_on_plugin_error L)
    end.
Proof.
  destruct (load_attempt_spec fs p L)
    as (L1 & cs & HL1 & Hpath & Hon & Herr & Hcalls & Hcs & Hout).
  unfold load.
  destruct (load_attempt fs p (stem p) L) as [L1' r]. cbn in HL1. subst L1'.
  destruct (load_outcome fs p) as [inst|e].
  - destruct Hout as (checksum & Hck & Hr & Hreg & Hdel). cbn in Hr. subst r.
    cbn. repeat split; eauto.
  - destruct Hout as (Hr & Hreg & Hdel & _). cbn in Hr. subst r.
    cbn. rewrite Hreg, Hdel, Herr. repeat split; eauto.
Qed.

Lemma register_other (info : PluginInfo) (r : PluginRegistry) (pid : string) :
  pid ≠ plugin_id info → _plugins (register info r) !! pid = _plugins r !! pid.
Proof. intros Hne. cbn. by rewrite lookup_insert_ne. Qed.

(** [discover]: what [glob] lists, and what the loop makes of it. *)
Lemma glob_py_spec (fs : FileSystem) (dir : string) :
  NoDup (glob_py fs dir)
  ∧ ∀ p, p ∈ glob_py fs dir
         ↔ is_Some (fs !! p) ∧ parent p = dir ∧ suffix p = ".py".
Proof.
  unfold glob_py. split.
  - apply NoDup_filter, NoDup_fst_map_to_list.
  - intros p. rewrite list_elem_of_filter, list_elem_of_fmap. split.
    + intros [[Hd Hs] ([q f] & -> & Hin)].
      apply elem_of_map_to_list in Hin. cbn in *. by rewrite Hin.
    + intros ([f Hf] & Hd & Hs). split; [done|].
      exists (p, f). split; [done|]. by apply elem_of_map_to_list.
Qed.

Lemma discover_loop_spec (fs : FileSystem) (r : PluginRegistry)
    (files : list Path) :
  ∀ acc,
    discover_loop fs r files acc
    = match head (omap (unreadable fs) files) with
      | Some x => Raise x
      | None => Ok (acc ++ filter (λ p, new_or_changed fs r p = true) files)
      end.
Proof.
  induction files as [|p files IH]; intros acc.
  - cbn. by rewrite app_nil_r.
  - cbn [discover_loop omap list_omap]. rewrite filter_cons.
    destruct (startswith_underscore (path_name p)) eqn:Hu.
    { assert (unreadable fs p = None) as ->
        by (unfold unreadable; by rewrite Hu).
      assert (new_or_changed fs r p = false) as ->
        by (unfold new_or_changed; by rewrite Hu).
      rewrite decide_False by done. apply IH. }
    destruct (_compute_checksum fs p) as [checksum|x] eqn:Hck.
    2:{ assert (unreadable fs p = Some x) as ->
          by (unfold unreadable; by rewrite Hu, Hck).
        done. }
    assert (unreadable fs p = None) as ->
      by (unfold unreadable; by rewrite Hu, Hck).
    assert (Hnew : new_or_changed fs r p
                   = match get (stem p) r with
                     | None => true
                     | Some existing =>
                         bool_decide (file_checksum existing ≠ checksum)
                     end).
    { unfold new_or_changed. by rewrite Hu, Hck. }
    rewrite Hnew. destruct (get (stem p) r) as [existing|].
    + case_bool_decide; rewrite IH.
      * rewrite decide_True by done.
        destruct (head _); [done|]. by rewrite <- app_assoc.
      * by rewrite decide_False by done.
    + rewrite IH, decide_True by done.
      destruct (head _); [done|]. by rewrite <- app_assoc.
Qed.

Lemma new_or_changed_reported (fs : FileSystem) (L : Loader) (p : Path) :
  p ∈ glob_py fs (plugins_path L) ∧ new_or_changed fs (registry L) p = true
  ↔ reported fs L p.
Proof.
  destruct (glob_py_spec fs (plugins_path L)) as [_ Hglob].
  rewrite Hglob. unfold new_or_changed, reported, _compute_checksum, read_file.
  split.
  - intros [([entry Hf] & Hd & Hs) Hnew]. rewrite Hf in Hnew |- *.
    apply andb_true_iff in Hnew as [Hu Hnew].
    apply negb_true_iff in Hu.
    destruct entry as [f|x]; [|done].
    repeat (split; [done|]). exists f. split; [done|].
    intros existing Hex. rewrite Hex in Hnew. by case_bool_decide.
  - intros (Hd & Hs & Hu & f & Hf & Hnew). rewrite Hf.
    split; [done|]. rewrite Hu. cbn.
    destruct (get (stem p) (registry L)) as [existing|]; [|done].
    apply bool_decide_eq_true. by apply Hnew.
Qed.

Lemma discover_spec (fs : FileSystem) (L : Loader) :
  match head (omap (unreadable fs) (glob_py fs (plugins_path L))) with
  | Some x => discover fs L = Raise x
  | None =>
      ∃ discovered,
        discover fs L = Ok discovered
        ∧ NoDup (stem <$> discovered)
        ∧ ∀ p, p ∈ discovered ↔ reported fs L p
  end.
Proof.
  unfold discover. rewrite discover_loop_spec.
  destruct (head _); [done|]. eexists. split; [done|].
  destruct (glob_py_spec fs (plugins_path L)) as [Hnd Hglob].
  split.
  - apply NoDup_fmap_2_strong; [|by apply NoDup_filter].
    intros [d1 s1 x1] [d2 s2 x2] [_ H1]%list_elem_of_filter
           [_ H2]%list_elem_of_filter Hst.
    apply Hglob in H1 as (_ & Hd1 & Hx1). apply Hglob in H2 as (_ & Hd2 & Hx2).
    cbn in *. congruence.
  - intros p. cbn. rewrite list_elem_of_filter, <- new_or_changed_reported.
    tauto.
Qed.

Lemma load_each_spec (fs : FileSystem) (p : Path) (L : Loader)
    (results : gmap string bool) :
  load_recorded fs (load_each fs (L, results) p).1 (load_each fs (L, results) p).2 p
  ∧ dom (load_each fs (L, results) p).2 = {[stem p]} ∪ dom results
  ∧ ∀ pid, pid ≠ stem p →
      (load_each fs (L, results) p).2 !! pid = results !! pid
      ∧ _plugins (registry (load_each fs (L, results) p).1) !! pid
        = _plugins (registry L) !! pid.
Proof.
  unfold load_each, load_recorded. cbn.
  destruct (load_spec fs p L) as (_ & _ & _ & _ & Hout).
  destruct (load fs p L) as [L1 info]. cbn in *.
  split; [|split].
  - destruct (load_outcome fs p) as [inst|e].
    + destruct Hout as (ck & _ & -> & -> & _). cbn.
      split; [by rewrite lookup_insert_eq|].
      eexists. split; [apply lookup_insert_eq|done].
    + destruct Hout as (-> & -> & _). cbn.
      split; [by rewrite lookup_insert_eq|apply lookup_insert_eq].
  - apply dom_insert_L.
  - intros pid Hne. split; [by apply lookup_insert_ne|].
    destruct (load_outcome fs p) as [inst|e].
    + destruct Hout as (ck & _ & _ & -> & _). by apply register_other.
    + destruct Hout as (_ & -> & _). by apply register_other.
Qed.

Lemma load_recorded_same (fs : FileSystem) (L1 L2 : Loader)
    (r1 r2 : gmap string bool) (p : Path) :
  r2 !! stem p = r1 !! stem p →
  _plugins (registry L2) !! stem p = _plugins (registry L1) !! stem p →
  load_recorded fs L1 r1 p → load_recorded fs L2 r2 p.
Proof.
  unfold load_recorded, get. intros -> ->. done.
Qed.

Lemma load_each_fold (fs : FileSystem) (ps : list Path) :
  ∀ (L : Loader) (results : gmap string bool),
    NoDup (stem <$> ps) →
    Forall (load_recorded fs (foldl (load_each fs) (L, results) ps).1
                             (foldl (load_each fs) (L, results) ps).2) ps
    ∧ dom (foldl (load_each fs) (L, results) ps).2
      = list_to_set (stem <$> ps) ∪ dom results
    ∧ ∀ pid, pid ∉ stem <$> ps →
        (foldl (load_each fs) (L, results) ps).2 !! pid = results !! pid
        ∧ _plugins (registry (foldl (load_each fs) (L, results) ps).1) !! pid
          = _plugins (registry L) !! pid.
Proof.
  induction ps as [|p ps IH]; intros L results Hnd.
  - cbn. split; [constructor|]. split; [by rewrite union_empty_l_L|done].
  - apply NoDup_cons in Hnd as [Hp Hnd]. cbn [foldl].
    destruct (load_each_spec fs p L results) as (Hrec & Hdom & Hother).
    destruct (load_each fs (L, results) p) as [L1 r1] eqn:E. cbn in *.
    destruct (IH L1 r1 Hnd) as (Hall & Hdom' & Hrest).
    split; [|split].
    + constructor; [|done].
      destruct (Hrest (stem p) Hp) as [Hr Hg].
      by eapply load_recorded_same.
    + rewrite Hdom', Hdom. rewrite (assoc_L _). f_equal. apply (comm_L _).
    + intros pid [Hne Hnin]%not_elem_of_cons.
      destruct (Hrest pid Hnin) as [-> ->]. by apply Hother.
Qed.

(** C7 (the code at the failing input) -- [load] never raises.  When any
    step of loading a file fails, reading it included, it returns [None],
    registers under the file's stem a record of status ERROR with the text
    of the exception and no plugin object, and calls every on-error callback
    with the id and the exception; otherwise it returns the ACTIVE record it
    has registered.  [load_all] does not isolate every failure: [discover]
    reads each [*.py] entry of the plugin directory whose name does not
    start with an underscore, outside any [try], and when one of them cannot
    be read the exception leaves [load_all], which has loaded nothing.  When
    all can be read, [discover] returns exactly the files that are new to
    the registry or changed, and [load_all] returns a map over exactly their
    stems, [false] for the files whose loading fails, with an ERROR record
    in the registry, and [true] for the others.  In a directory holding two
    valid plugins, an invalid one and a directory named [cache.py],
    [load_all] raises and loads nothing, though [load] on that very entry
    returns [None] and records the error. *)
Theorem load_isolates_failures_discover_does_not (fs : FileSystem)
    (path : Path) (L : Loader) :
  match load_outcome fs path with
  | Ok inst =>
      ∃ info,
        (load fs path L).2 = Some info
        ∧ status info = ACTIVE ∧ instance info = Some inst
        ∧ get (stem path) (registry (load fs path L).1) = Some info
  | Raise e =>
      (load fs path L).2 = None
      ∧ get (stem path) (registry (load fs path L).1)
        = Some (error_info path (stem path) e)
      ∧ status (error_info path (stem path) e) = ERROR
      ∧ last_error (error_info path (stem path) e) = Some (str e)
      ∧ instance (error_info path (stem path) e) = None
      ∧ delivered (load fs path L).1
        = delivered L
          ++ map (λ cb, PluginError cb (stem path) e) (_on_plugin_error L)
  end
  ∧ match head (omap (unreadable fs) (glob_py fs (plugins_path L))) with
    | Some x => discover fs L = Raise x ∧ load_all fs L = (L, Raise x)
    | None =>
        ∃ discovered L' results,
          discover fs L = Ok discovered
          ∧ (∀ p, p ∈ discovered ↔ reported fs L p)
          ∧ load_all fs L = (L', Ok results)
          ∧ dom results = list_to_set (stem <$> discovered)
          ∧ Forall (load_recorded fs L' results) discovered
    end
  ∧ (let L0 := new_loader skills_dir [] ["on_error"] in
     let cache := py_file skills_dir "cache" in
     load_all files_and_directory L0 = (L0, Raise (is_a_directory cache))
     ∧ is_ok (load_outcome files_and_directory (py_file skills_dir "alpha"))
       = true
     ∧ is_ok (load_outcome files_and_directory (py_file skills_dir "gamma"))
       = true
     ∧ (load files_and_directory cache L0).2 = None
     ∧ get "cache" (registry (load files_and_directory cache L0).1)
       = Some (error_info cache "cache" (is_a_directory cache))).
Proof.
  split; [|split].
  - destruct (load_spec fs path L) as (_ & _ & _ & _ & Hout).
    destruct (load_outcome fs path) as [inst|e].
    + destruct Hout as (ck & _ & Hr & Hreg & _). eexists.
      split; [exact Hr|]. split; [done|]. split; [done|].
      rewrite Hreg. apply lookup_insert_eq.
    + destruct Hout as (Hr & Hreg & Hdel). split; [done|].
      split; [rewrite Hreg; apply lookup_insert_eq|]. by repeat split.
  - pose proof (discover_spec fs L) as Hspec. unfold load_all.
    destruct (head _) as [x|].
    + by rewrite Hspec.
    + destruct Hspec as (discovered & Hd & Hnd & Hin).
      destruct (load_each_fold fs discovered L ∅ Hnd) as (Hall & Hdom & _).
      rewrite Hd.
      destruct (foldl (load_each fs) (L, ∅) discovered) as [L' results].
      exists discovered, L', results. cbn in *.
      split; [done|]. split; [done|]. split; [done|]. split; [|done].
      by rewrite Hdom, dom_empty_L, union_empty_r_L.
  - cbn zeta. repeat split; vm_compute; reflexivity.
Qed.

(** Three plugin files, one of them invalid: two [true], one [false], and
    an ERROR record for the invalid one. *)
Example load_all_three_files_one_invalid :
  ∃ L' results,
    load_all three_files (new_loader skills_dir [] ["on_error"]) = (L', Ok results)
    ∧ results = {[ "alpha" := true; "beta" := false; "gamma" := true ]}
    ∧ status <$> get "beta" (registry L') = Some ERROR
    ∧ last_error <$> get "beta" (registry L') = Some (Some "invalid syntax")
    ∧ status <$> get "alpha" (registry L') = Some ACTIVE
    ∧ status <$> get "gamma" (registry L') = Some ACTIVE.
Proof.
  eexists _, _. split; [vm_compute; reflexivity|].
  repeat split; vm_compute; reflexivity.
Qed.

(** C6 (the code at the failing input) -- Whatever file [load] is given,
    the only call it makes on the plugin object is [initialize()] with no
    argument: the context it has built is never passed.  A plugin whose
    [initialize] takes the context, as [NightframePlugin] declares it,
    cannot be loaded: the call raises, [load] returns [None] and registers
    an ERROR record.  A plugin whose [initialize] takes no argument is
    loaded and marked ACTIVE after a call without context. *)
Theorem load_calls_initialize_without_context (fs : FileSystem) (path : Path)
    (L : Loader) :
  (∃ made, calls (load fs path L).1 = calls L ++ made
           ∧ (made = [] ∨ made = [Initialize (stem path) []]))
  ∧ (let L0 := new_loader skills_dir ["on_loaded"] ["on_error"] in
     let out := load interface_file (py_file skills_dir "delta") L0 in
     out.2 = None
     ∧ calls out.1 = [Initialize "delta" []]
     ∧ get "delta" (registry out.1)
       = Some (error_info (py_file skills_dir "delta") "delta" missing_context)
     ∧ delivered out.1 = [PluginError "on_error" "delta" missing_context])
  ∧ (let L0 := new_loader skills_dir ["on_loaded"] ["on_error"] in
     let out := load three_files (py_file skills_dir "alpha") L0 in
     status <$> out.2 = Some ACTIVE
     ∧ calls out.1 = [Initialize "alpha" []]).
Proof.
  split; [by destruct (load_spec fs path L) as (_ & _ & _ & Hc & _)|].
  cbn zeta. repeat split; vm_compute; reflexivity.
Qed.

(** Every record [load] registers sits under the stem of its module path,
    the hypothesis [reload] is studied under. *)
Lemma load_registers_under_stem (fs : FileSystem) (p : Path) (L : Loader) :
  ∃ info,
    get (stem p) (registry (load fs p L).1) = Some info
    ∧ plugin_id info = stem p
    ∧ stem (module_path info) = stem p.
Proof.
  destruct (load_spec fs p L) as (_ & _ & _ & _ & Hout).
  destruct (load_outcome fs p) as [inst|e].
  - destruct Hout as (ck & _ & _ & Hreg & _). eexists.
    split; [rewrite Hreg; apply lookup_insert_eq|done].
  - destruct Hout as (_ & Hreg & _). eexists.
    split; [rewrite Hreg; apply lookup_insert_eq|done].
Qed.

(** C10 -- Take a plugin registered under the stem of its module path, as
    [load] registers it, an ACTIVE one in particular.  When loading its file
    fails, [reload] returns [False] and the registry holds under that id a
    new record of status ERROR, with no plugin object and a load count of
    0, in place of the former one, so that [execute] raises "Plugin not
    active".  When loading succeeds, [reload] returns [True] and the
    registered record is ACTIVE with the former load count plus one. *)
Theorem reload_failure_replaces_registered_plugin (fs : FileSystem)
    (pid : string) (L : Loader) (info : PluginInfo) (input_data : pyval) :
  get pid (registry L) = Some info →
  stem (module_path info) = pid →
  match load_outcome fs (module_path info) with
  | Raise e =>
      ∃ L',
        reload fs pid L = (L', false)
        ∧ get pid (registry L') = Some (error_info (module_path info) pid e)
        ∧ status (error_info (module_path info) pid e) = ERROR
        ∧ instance (error_info (module_path info) pid e) = None
        ∧ load_count (error_info (module_path info) pid e) = 0
        ∧ (execute pid input_data L').2
          = Raise (Exn "RuntimeError" ("Plugin not active: " +:+ pid))
  | Ok inst =>
      ∃ L' new_info,
        reload fs pid L = (L', true)
        ∧ get pid (registry L') = Some new_info
        ∧ status new_info = ACTIVE
        ∧ instance new_info = Some inst
        ∧ load_count new_info = S (load_count info)
  end.
Proof.
  intros Hget Hstem. unfold reload. rewrite Hget.
  set (L0 := set_loaded_modules _ _).
  assert (Hreg0 : registry L0 = registry L).
  { unfold L0, shutdown_quietly. destruct (instance info) as [inst|]; [|done].
    by destruct (i_shutdown inst). }
  destruct (load_spec fs (module_path info) L0) as (_ & _ & _ & _ & Hout).
  destruct (load fs (module_path info) L0) as [L1 res]. cbn in Hout.
  destruct (load_outcome fs (module_path info)) as [inst|e].
  - destruct Hout as (ck & _ & -> & Hreg & _).
    eexists _, _. split; [reflexivity|]. cbn. unfold get. cbn.
    rewrite Hstem, lookup_alter_eq, Hreg. cbn. rewrite Hstem, lookup_insert_eq.
    cbn. done.
  - destruct Hout as (-> & Hreg & _). rewrite Hstem in Hreg.
    exists L1. split; [done|].
    assert (Hg : get pid (registry L1) = Some (error_info (module_path info) pid e)).
    { rewrite Hreg. apply lookup_insert_eq. }
    split; [exact Hg|]. repeat split.
    unfold execute. rewrite Hg. done.
Qed.

(** [alpha.py], loaded and then overwritten with a file that does not run. *)
Lemma reload_of_overwritten_alpha :
  ∃ L',
    reload broken_alpha_files "alpha" alpha_loaded = (L', false)
    ∧ status <$> get "alpha" (registry alpha_loaded) = Some ACTIVE
    ∧ status <$> get "alpha" (registry L') = Some ERROR
    ∧ (execute "alpha" PyNone L').2
      = Raise (Exn "RuntimeError" "Plugin not active: alpha").
Proof.
  pose proof (reload_failure_replaces_registered_plugin
                broken_alpha_files "alpha" alpha_loaded
                (loaded_info (py_file skills_dir "alpha")
                             (plain_skill ["network"]) "a1a1a1a1a1a1a1a1")
                PyNone) as H.
  assert (E : load_outcome broken_alpha_files (py_file skills_dir "alpha")
              = Raise (Exn "SyntaxError" "invalid syntax"))
    by (vm_compute; reflexivity).
  cbn [module_path loaded_info] in H. rewrite E in H.
  destruct H as (L' & Hr & Hg & _ & _ & _ & Hx);
    [vm_compute; reflexivity|reflexivity|].
  exists L'. split; [exact Hr|]. split; [vm_compute; reflexivity|].
  split; [by rewrite Hg|exact Hx].
Defined.

(** *** [execute] and [unload] *)

(** X11 -- A call of [execute] on an ACTIVE plugin that holds its object
    returns or raises what the plugin's method does, and counts the call:
    the execution count grows by one when the method returns, the error
    count when it raises, with the text of the exception kept as last error.
    The plugin stays ACTIVE however often it fails; no other plugin, no
    index entry and no stored row changes: the counts are never saved. *)
Theorem execute_counts_every_call (pid : string) (input_data : pyval)
    (L : Loader) (info : PluginInfo) (inst : Instance) :
  get pid (registry L) = Some info →
  status info = ACTIVE →
  instance info = Some inst →
  let L' := (execute pid input_data L).1 in
  (execute pid input_data L).2 = dispatch inst input_data
  ∧ (∃ info',
       get pid (registry L') = Some info'
       ∧ status info' = ACTIVE ∧ instance info' = Some inst
       ∧ execution_count info' + error_count info'
         = S (execution_count info + error_count info)
       ∧ match dispatch inst input_data with
         | Ok _ =>
             error_count info' = error_count info
             ∧ last_error info' = last_error info
         | Raise e =>
             execution_count info' = execution_count info
             ∧ last_error info' = Some (str e)
         end)
  ∧ (∀ other, other ≠ pid → get other (registry L') = get other (registry L))
  ∧ _capabilities_map (registry L') = _capabilities_map (registry L)
  ∧ plugins_table L' = plugins_table L.
Proof.
  intros Hget Hst Hinst. cbn zeta. unfold execute. rewrite Hget.
  rewrite bool_decide_eq_false_2 by (by rewrite Hst; intros []).
  rewrite Hinst. unfold get in *.
  destruct (dispatch inst input_data) as [v|x]; cbn.
  - split; [done|]. split.
    + eexists. rewrite lookup_alter_eq, Hget. cbn.
      split; [done|]. repeat split; try done; cbn; lia.
    + split; [|done]. intros other Hne. by rewrite lookup_alter_ne.
  - split; [done|]. split.
    + eexists. rewrite lookup_alter_eq, Hget. cbn.
      split; [done|]. repeat split; try done; cbn; lia.
    + split; [|done]. intros other Hne. by rewrite lookup_alter_ne.
Qed.

(** X12 -- [unload] answers [False] for an id that is not registered.  For
    a registered plugin it calls [shutdown] where there is one: when that
    raises, [unload] answers [False] and the plugin stays registered with
    its modules cached; otherwise it answers [True], the plugin is no longer
    registered nor returned for any capability, its modules are dropped and
    the other plugins are untouched.  The row of the plugin in the database
    is left as it is in every case. *)
Theorem unload_stops_at_failing_shutdown (pid : string) (L : Loader) :
  let L' := (unload pid L).1 in
  match get pid (registry L) with
  | None => unload pid L = (L, false)
  | Some info =>
      match shutdown_call pid info L with
      | (_, Raise _) =>
          (unload pid L).2 = false
          ∧ registry L' = registry L
          ∧ sys_modules L' = sys_modules L
          ∧ _loaded_modules L' = _loaded_modules L
          ∧ calls L' = calls L ++ [Shutdown pid]
      | (_, Ok _) =>
          (unload pid L).2 = true
          ∧ get pid (registry L') = None
          ∧ (∀ other, other ≠ pid →
               get other (registry L') = get other (registry L))
          ∧ (∀ cap found, found ∈ get_by_capability cap (registry L') →
               ∃ other, other ≠ pid ∧ get other (registry L) = Some found)
          ∧ sys_modules L' !! pid = None
          ∧ _loaded_modules L' !! pid = None
      end
      ∧ plugins_table L' = plugins_table L
  end.
Proof.
  cbn zeta. unfold unload.
  destruct (get pid (registry L)) as [info|] eqn:Hget; [|done].
  unfold shutdown_call.
  destruct (instance info) as [inst|]; [destruct (i_shutdown inst) as [[[]|x]|]|];
    cbn; try (split; [|done]); try done.
  all: unfold unregister, get in *; cbn; rewrite Hget; cbn.
  all: split; [done|]; split; [apply lookup_delete_eq|].
  all: split; [by intros other Hne; rewrite lookup_delete_ne|].
  all: split; [|split; apply lookup_delete_eq].
  all: intros cap found Hin; unfold get_by_capability in Hin; cbn in Hin.
  all: apply list_elem_of_omap in Hin as (other & _ & Hother).
  all: exists other; destruct (decide (other = pid)) as [->|Hne];
         [by rewrite lookup_delete_eq in Hother|].
  all: by rewrite lookup_delete_ne in Hother.
Qed.

(** *** [load] followed by [discover] *)

Lemma substring_nonempty (s : string) (n : nat) :
  s ≠ "" → String.substring 0 (S n) s ≠ "".
Proof. by destruct s. Qed.

(** X13 -- After [load] has succeeded on a file, [discover] does not report
    that file again as long as it is unchanged.  After [load] has failed on
    a readable plugin file of the directory, [discover] reports it again,
    every time: the ERROR record holds an empty checksum, which no file
    has. *)
Theorem failed_load_is_reported_again (fs : FileSystem) (p : Path)
    (L : Loader) (discovered : list Path) :
  discover fs (load fs p L).1 = Ok discovered →
  match load_outcome fs p with
  | Ok _ => p ∉ discovered
  | Raise _ =>
      ∀ f, fs !! p = Some (RegularFile f) →
           sha256_hexdigest f ≠ "" →
           parent p = plugins_path L →
           suffix p = ".py" →
           startswith_underscore (path_name p) = false →
           p ∈ discovered
  end.
Proof.
  intros Hdisc.
  pose proof (discover_spec fs (load fs p L).1) as Hspec.
  destruct (head _) as [x|]; [congruence|].
  destruct Hspec as (found & Hfound & _ & Hin).
  assert (found = discovered) as -> by congruence.
  destruct (load_spec fs p L) as (Hpath & _ & _ & _ & Hout).
  destruct (load_outcome fs p) as [inst|e].
  - destruct Hout as (ck & Hck & _ & Hreg & _).
    rewrite Hin. intros (_ & _ & _ & f & Hf & Hnew).
    apply (Hnew (loaded_info p inst ck)).
    + rewrite Hreg. apply lookup_insert_eq.
    + unfold _compute_checksum, read_file in Hck. rewrite Hf in Hck.
      cbn. congruence.
  - destruct Hout as (_ & Hreg & _).
    intros f Hf Hsha Hd Hs Hu. apply Hin.
    split; [congruence|]. split; [done|]. split; [done|].
    exists f. split; [done|]. intros existing.
    rewrite Hreg. unfold get, register. cbn. rewrite lookup_insert_eq.
    intros [= <-]. cbn. intros Heq. symmetry in Heq. revert Heq.
    by apply substring_nonempty.
Qed.

Lemma broken_beta_is_reported_again :
  ∃ discovered,
    discover three_files
      (load three_files (py_file skills_dir "beta")
            (new_loader skills_dir [] [])).1 = Ok discovered
    ∧ py_file skills_dir "beta" ∈ discovered.
Proof.
  pose proof (discover_spec three_files
                (load three_files (py_file skills_dir "beta")
                      (new_loader skills_dir [] [])).1) as Hspec.
  assert (Hhead : head (omap (unreadable three_files)
                    (glob_py three_files
                       (plugins_path
                          (load three_files (py_file skills_dir "beta")
                                (new_loader skills_dir [] [])).1))) = None)
    by (vm_compute; reflexivity).
  rewrite Hhead in Hspec. destruct Hspec as (discovered & Hdisc & _).
  exists discovered. split; [exact Hdisc|].
  pose proof (failed_load_is_reported_again three_files
                (py_file skills_dir "beta") (new_loader skills_dir [] [])
                discovered Hdisc) as H.
  assert (Hout : load_outcome three_files (py_file skills_dir "beta")
                 = Raise (Exn "SyntaxError" "invalid syntax"))
    by (vm_compute; reflexivity).
  rewrite Hout in H. eapply H; [vm_compute; reflexivity|done..].
Defined.

(** *** [execute_capability] *)




(** [alpha.py], loaded and then executed. *)
Lemma execute_on_loaded_alpha :
  (execute "alpha" (PyStr "ping") alpha_loaded).2
  = dispatch (plain_skill ["network"]) (PyStr "ping")
  ∧ ∃ info',
      get "alpha" (registry (execute "alpha" (PyStr "ping") alpha_loaded).1)
      = Some info'
      ∧ execution_count info' + error_count info' = 1.
Proof.
  destruct (execute_counts_every_call "alpha" (PyStr "ping") alpha_loaded
              (loaded_info (py_file skills_dir "alpha")
                           (plain_skill ["network"]) "a1a1a1a1a1a1a1a1")
              (plain_skill ["network"]))
    as (Hres & (info' & Hget & _ & _ & Hcount & _) & _);
    [vm_compute; reflexivity|reflexivity|reflexivity|].
  split; [exact Hres|]. exists info'. split; [exact Hget|exact Hcount].
Defined.

End PluginFacts.

(** ** Properties of skill discovery *)

Module DiscoveryFacts.
Import Discovery Relations EngineFacts.

(** *** Scores *)

Lemma square_nonneg (y : Q) : (0 <= y * y)%Q.
Proof. unfold Qle. cbn. rewrite Z.mul_1_r. apply Z.square_nonneg. Qed.

Lemma sum_squares_nonneg (m : Q) (xs : list Q) :
  (0 <= foldr Qplus 0 (map (λ x, (x - m) * (x - m))%Q xs))%Q.
Proof.
  induction xs as [|x xs IH]; cbn [foldr map]; [done|].
  apply (Qle_trans _ (0 + 0)); [done|].
  apply Qplus_le_compat; [apply square_nonneg|done].
Qed.

Lemma np_var_nonneg (xs : list Q) : (0 <= np_var xs)%Q.
Proof.
  unfold np_var, np_mean at 1. unfold Qdiv.
  apply Qmult_le_0_compat; [apply sum_squares_nonneg|].
  apply Qinv_le_0_compat. change 0%Q with (inject_Z 0).
  rewrite <- Zle_Qle. lia.
Qed.

Lemma priority_bonus_bounds (d : string) :
  ((5#100) <= default (5#100) (priority_domains !! d))%Q
  ∧ (default (5#100) (priority_domains !! d) <= 2#10)%Q.
Proof.
  destruct (priority_domains !! d) as [q|] eqn:Hq; cbn; [|done].
  apply elem_of_list_to_map_2 in Hq.
  repeat (apply elem_of_cons in Hq as [[= _ ->]|Hq]; [done|]).
  by apply elem_of_nil in Hq.
Qed.

(** X15 -- The utility [evaluate_utility] gives a skill lies between 0.55
    and 0.9 whatever the skill: the cap at 1.0 is never reached. *)
Theorem evaluate_utility_never_reaches_its_cap (skill : DiscoveredSkill) :
  ((55#100) <= evaluate_utility skill)%Q ∧ (evaluate_utility skill <= 9#10)%Q.
Proof.
  unfold evaluate_utility. rewrite py_min_Qmin.
  destruct (priority_bonus_bounds (domain skill)) as [Hlo Hhi].
  set (bonus := default (5#100) (priority_domains !! domain skill)) in *.
  assert (Hscore : ∃ extra, (0 <= extra)%Q ∧ (extra <= 2#10)%Q
            ∧ match pattern_features skill with
              | [] => ((5#10) + bonus)%Q
              | _ :: _ =>
                  ((5#10) + bonus
                   + py_min (2#10) (np_var (map snd (pattern_features skill))))%Q
              end == ((5#10) + bonus + extra)%Q).
  { destruct (pattern_features skill) as [|f fs].
    - exists 0%Q. split; [done|]. split; [done|]. ring.
    - eexists. split; [|split; [|reflexivity]]; rewrite py_min_Qmin.
      + apply Q.min_glb; [done|apply np_var_nonneg].
      + apply Q.le_min_l. }
  destruct Hscore as (extra & H0 & H2 & Heq).
  set (score := match pattern_features skill with [] => _ | _ => _ end) in *.
  assert (Hs1 : ((55#100) <= score)%Q).
  { rewrite Heq. apply (Qle_trans _ ((5#10) + (5#100) + 0)); [by compute|].
    repeat apply Qplus_le_compat; done. }
  assert (Hs2 : (score <= 9#10)%Q).
  { rewrite Heq. apply (Qle_trans _ ((5#10) + (2#10) + (2#10))); [|by compute].
    repeat apply Qplus_le_compat; done. }
  split.
  - apply Q.min_glb; [done|exact Hs1].
  - eapply Qle_trans; [apply Q.le_min_r|exact Hs2].
Qed.

(** *** Skill candidates *)

Section Candidates.
Variable signature_of : list Q → string.

Lemma propose_spec (clusters : list PatternCluster) :
  ∀ (acc : list DiscoveredSkill) (d : SkillDiscovery),
    ∃ new,
      (propose signature_of clusters acc d).2 = acc ++ new
      ∧ NoDup (pattern_signature <$> new)
      ∧ (∀ s, s ∈ (pattern_signature <$> new)
              ↔ (s ∉ _known_patterns d)
                ∧ ∃ c, c ∈ clusters ∧ is_novel c = true
                       ∧ signature_of (centroid c) = s)
      ∧ _known_patterns (propose signature_of clusters acc d).1
        = _known_patterns d ∪ list_to_set (pattern_signature <$> new)
      ∧ Forall (λ k, status k = CANDIDATE ∧ validation_count k = 0) new
      ∧ _discovered_skills (propose signature_of clusters acc d).1
        = _discovered_skills d.
Proof.
  induction clusters as [|c clusters IH]; intros acc d.
  - exists []. cbn. rewrite app_nil_r. split; [done|]. split; [constructor|].
    split.
    + intros s. split; [by intros ?%elem_of_nil|].
      by intros (_ & ? & ?%elem_of_nil & _).
    + split; [by rewrite union_empty_r_L|]. by split.
  - cbn [propose]. destruct (is_novel c) eqn:Hnovel; cbn [negb].
    + case_bool_decide as Hknown.
      * destruct (IH acc d) as (new & Hrun & Hnd & Hin & Hk & Hall & Hd).
        exists new. split; [done|]. split; [done|]. split; [|done].
        intros s. rewrite Hin. split.
        -- intros (Hs & c' & Hc' & Hn' & Hsig). split; [done|].
           exists c'. split; [by apply elem_of_cons; right|done].
        -- intros (Hs & c' & Hc' & Hn' & Hsig). split; [done|].
           exists c'. split; [|done].
           apply elem_of_cons in Hc' as [->|Hc']; [|done].
           by rewrite Hsig in Hknown.
      * match goal with |- context [propose _ clusters (acc ++ [?k]) ?d1] =>
          destruct (IH (acc ++ [k]) d1) as (new & Hrun & Hnd & Hin & Hk & Hall & Hd);
          exists (k :: new) end.
        cbn [_known_patterns set_known_patterns set_clock
             _discovered_skills] in Hin, Hk, Hd.
        split; [by rewrite Hrun, <- app_assoc|].
        assert (Hfresh : signature_of (centroid c) ∉ pattern_signature <$> new).
        { rewrite Hin. intros [Hs _]. apply Hs.
          apply elem_of_union. left. by apply elem_of_singleton. }
        split; [by cbn; constructor|]. split.
        { intros s. cbn [fmap list_fmap pattern_signature].
          rewrite elem_of_cons, Hin. split.
          - intros [->|(Hs & c' & Hc' & Hn' & Hsig)].
            + split; [done|]. exists c. split; [by apply elem_of_cons; left|done].
            + split.
              * intros Hs'. apply Hs, elem_of_union. by right.
              * exists c'. split; [by apply elem_of_cons; right|done].
          - intros (Hs & c' & Hc' & Hn' & Hsig).
            destruct (decide (s = signature_of (centroid c))) as [->|Hne];
              [by left|right].
            split.
            + intros [?%elem_of_singleton|?]%elem_of_union; done.
            + exists c'. split; [|done].
              apply elem_of_cons in Hc' as [->|Hc']; [|done]. congruence. }
        split.
        { rewrite Hk. cbn [fmap list_fmap pattern_signature list_to_set].
          rewrite (comm_L (∪) {[_]} (_known_patterns d)).
          by rewrite (assoc_L (∪)). }
        split; [by constructor|done].
    + destruct (IH acc d) as (new & Hrun & Hnd & Hin & Hk & Hall & Hd).
      exists new. split; [done|]. split; [done|]. split; [|done].
      intros s. rewrite Hin. split.
      * intros (Hs & c' & Hc' & Hn' & Hsig). split; [done|].
        exists c'. split; [by apply elem_of_cons; right|done].
      * intros (Hs & c' & Hc' & Hn' & Hsig). split; [done|].
        exists c'. split; [|done].
        apply elem_of_cons in Hc' as [->|Hc']; [congruence|done].
Qed.

(** X16 -- The candidates [identify_skill_candidates] proposes for a list
    of clusters have pairwise distinct signatures: exactly the signatures of
    the novel clusters of the list that were not known before.  These
    signatures are known afterwards; the candidates have status CANDIDATE
    and are not put among the discovered skills; and asking again with the
    same clusters proposes nothing. *)
Theorem candidates_have_new_distinct_signatures
    (clusters : list PatternCluster) (d : SkillDiscovery) :
  let out := identify_skill_candidates signature_of (Some clusters) d in
  NoDup (pattern_signature <$> out.2)
  ∧ (∀ s, s ∈ (pattern_signature <$> out.2)
          ↔ (s ∉ _known_patterns d)
            ∧ ∃ c, c ∈ clusters ∧ is_novel c = true
                   ∧ signature_of (centroid c) = s)
  ∧ _known_patterns out.1
    = _known_patterns d ∪ list_to_set (pattern_signature <$> out.2)
  ∧ Forall (λ k, status k = CANDIDATE ∧ validation_count k = 0) out.2
  ∧ _discovered_skills out.1 = _discovered_skills d
  ∧ (identify_skill_candidates signature_of (Some clusters) out.1).2 = [].
Proof.
  cbn zeta. unfold identify_skill_candidates.
  destruct (propose_spec clusters [] d) as (new & Hrun & Hnd & Hin & Hk & Hall & Hd).
  cbn [app] in Hrun. rewrite Hrun.
  split; [done|]. split; [done|]. split; [done|]. split; [done|].
  split; [done|].
  destruct (propose_spec clusters [] (propose signature_of clusters [] d).1)
    as (again & Hrun2 & _ & Hin2 & _).
  cbn [app] in Hrun2. rewrite Hrun2.
  destruct again as [|k again]; [done|]. exfalso.
  destruct (Hin2 (pattern_signature k)) as [Hk2 _].
  destruct Hk2 as (Hnew & c & Hc & Hn & Hsig); [apply elem_of_cons; by left|].
  apply Hnew. rewrite Hk. 
  destruct (decide (pattern_signature k ∈ _known_patterns d)) as [Hold|Hold].
  - apply elem_of_union. by left.
  - apply elem_of_union. right. apply elem_of_list_to_set, Hin.
    split; [done|]. by exists c.
Qed.

End Candidates.

End DiscoveryFacts.

(** ** Properties of the trainer's callback *)

Module TrainerFacts.
Import Engine Trainer Relations EngineFacts.







End TrainerFacts.
